(** * MedianLivingIndex: the dashboard's classification, ranking and table logic

    A shallow embedding of the decision logic of the [MLIApp] class, and
    the properties that the specification states about it.  The class
    exists in two versions: website/app.js, and the enhanced version
    (header "MLI Interactive Application - Enhanced Version", with
    [loadMarketData], the sortable table headers, the legend and the
    5-year change).  The functions below follow the enhanced version;
    [getMLIColor], [getSurplusColor], [getStateRanking], [filterTable],
    [updateStatsBanner] and [showError] are the same in both.

    Modelling conventions.
    - A JSON number is a finite decimal, hence a rational: metric values are
      [Q], and arithmetic on finite values is exact (the rounding and the
      overflow of IEEE doubles are outside the model).  The special values
      that the code can produce from finite input ([Math.min()] of no
      argument is [Infinity], [Infinity - Infinity] is [NaN]) are kept, in
      the type [num].  The statements are kept to what does not depend on
      the rounding: comparisons of values, the order of a sort, the
      monotonicity of a cascade of comparisons, the thresholds of a
      constant value set (whose range is exactly 0), and which results
      are NaN.
    - [localeCompare] depends on the collation of the browser: the program
      is modelled for every collation (class [Locale]).
    - [this.data.states[name]] finds the own properties of the object and
      the members it inherits from [Object.prototype].
    - [toUpperCase] and [toLowerCase] are modelled on ASCII characters.
    - A JS object used as an ordered map ([data.states]) is an association
      list in key insertion order, which is the order of [Object.entries]
      and [Object.values] for keys that are not array indices.
    - Reading a property of [undefined] throws a [TypeError]: such code is
      in the [result] monad.
    - [Array.prototype.sort] is stable (ECMAScript 2019): it is modelled by
      a stable insertion sort driven by the sign of the comparator
      ([stable_descending_unique] shows that, for the comparators of this
      program, no stable sort can return anything else).
    - The DOM is reduced to what the statements are about: the rows of
      [#rankingsBody] with their [style.display], and which views have
      been painted inside [<main>].  Number formatting ([toFixed],
      [Intl.NumberFormat]) is left out: cells hold the numbers. *)

From Stdlib Require Import List ZArith QArith Qminmax Lqa Lia Bool.
From Stdlib Require Import Ascii String Permutation Sorted.
Import ListNotations.

Set Implicit Arguments.

(** ** JavaScript numbers *)

Module Num.

(** A number: a finite rational, an infinity, or NaN. *)
Inductive num : Type :=
| NaN
| NegInf
| Fin (q : Q)
| PosInf.

Definition Qltb (x y : Q) : bool :=
  match x ?= y with Lt => true | _ => false end.

Definition neg (x : num) : num :=
  match x with
  | NaN => NaN
  | NegInf => PosInf
  | Fin q => Fin (- q)
  | PosInf => NegInf
  end.

(** [x + y] *)
Definition add (x y : num) : num :=
  match x, y with
  | NaN, _ | _, NaN => NaN
  | PosInf, NegInf | NegInf, PosInf => NaN
  | PosInf, _ | _, PosInf => PosInf
  | NegInf, _ | _, NegInf => NegInf
  | Fin a, Fin b => Fin (a + b)
  end.

(** [x - y] *)
Definition sub (x y : num) : num := add x (neg y).

(** The infinity of the sign of [s * t], for [s] an infinity's sign
    ([true]: positive) and [t] a finite factor; NaN when [t] is zero. *)
Definition scaled_inf (s : bool) (t : Q) : num :=
  match t ?= 0 with
  | Eq => NaN
  | Gt => if s then PosInf else NegInf
  | Lt => if s then NegInf else PosInf
  end.

(** [x * y] *)
Definition mul (x y : num) : num :=
  match x, y with
  | NaN, _ | _, NaN => NaN
  | Fin a, Fin b => Fin (a * b)
  | PosInf, Fin b | Fin b, PosInf => scaled_inf true b
  | NegInf, Fin b | Fin b, NegInf => scaled_inf false b
  | PosInf, PosInf | NegInf, NegInf => PosInf
  | PosInf, NegInf | NegInf, PosInf => NegInf
  end.

(** [x / y] (the model has no negative zero: a finite value divided by
    zero takes the sign of the dividend). *)
Definition div (x y : num) : num :=
  match x, y with
  | NaN, _ | _, NaN => NaN
  | Fin a, Fin b =>
      match b ?= 0 with
      | Eq => scaled_inf true a
      | _ => Fin (a / b)
      end
  | Fin _, (PosInf | NegInf) => Fin 0
  | PosInf, Fin b => if Qltb b 0 then NegInf else PosInf
  | NegInf, Fin b => if Qltb b 0 then PosInf else NegInf
  | (PosInf | NegInf), (PosInf | NegInf) => NaN
  end.

(** [x < y]: false as soon as an operand is NaN. *)
Definition ltb (x y : num) : bool :=
  match x, y with
  | NaN, _ | _, NaN => false
  | _, NegInf => false
  | NegInf, _ => true
  | PosInf, _ => false
  | Fin _, PosInf => true
  | Fin a, Fin b => Qltb a b
  end.

(** [x > y] *)
Definition gtb (x y : num) : bool := ltb y x.

(** [Math.min(...vs)]: [Infinity] for no argument. *)
Definition Math_min (vs : list Q) : num :=
  fold_left (fun acc v => if ltb (Fin v) acc then Fin v else acc) vs PosInf.

(** [Math.max(...vs)]: [-Infinity] for no argument. *)
Definition Math_max (vs : list Q) : num :=
  fold_left (fun acc v => if ltb acc (Fin v) then Fin v else acc) vs NegInf.

End Num.

Import Num.

Coercion Fin : Q >-> num.

(** ** Exceptions *)

Inductive error : Type :=
| TypeError                (* a property of [undefined] was read *)
| LoadError (msg : string) (* [new Error('Data loading failed: ...')] *).

Inductive result (A : Type) : Type :=
| Ok (a : A)
| Throw (e : error).

Arguments Ok {A} a.
Arguments Throw {A} e.

Definition bind {A B : Type} (m : result A) (k : A -> result B) : result B :=
  match m with
  | Ok a => k a
  | Throw e => Throw e
  end.

Notation "x <- m ;; k" := (bind m (fun x => k))
  (at level 61, m at next level, right associativity).

(** [xs.map(f)] for an [f] that may throw: the first exception aborts. *)
Fixpoint mapM {A B : Type} (f : A -> result B) (xs : list A) : result (list B) :=
  match xs with
  | [] => Ok []
  | x :: xs' =>
      y <- f x ;;
      ys <- mapM f xs' ;;
      Ok (y :: ys)
  end.

(** ** The data model ([mli_data.json]) *)

Record YearMetrics : Type := mkYearMetrics {
  mli : Q;
  income : Q;
  col : Q;
  surplus : Q
}.

Record StateRecord : Type := mkState {
  name : string;
  timeseries : list (Z * YearMetrics)
}.

Record Dataset : Type := mkDataset {
  years : list Z;
  states : list (string * StateRecord)
}.

(** [obj[key]]: [None] is [undefined]. *)
Fixpoint lookup {V : Type} (key : Z) (obj : list (Z * V)) : option V :=
  match obj with
  | [] => None
  | (k, v) :: obj' => if Z.eqb k key then Some v else lookup key obj'
  end.

(** [x.field] where [x] may be [undefined]. *)
Definition prop {A B : Type} (x : option A) (field : A -> B) : result B :=
  match x with
  | Some a => Ok (field a)
  | None => Throw TypeError
  end.

(** [x?.field] *)
Definition prop_opt {A B : Type} (x : option A) (field : A -> B) : option B :=
  option_map field x.

(** [xs.filter(v => v !== undefined)] *)
Fixpoint defined {A : Type} (xs : list (option A)) : list A :=
  match xs with
  | [] => []
  | Some a :: xs' => a :: defined xs'
  | None :: xs' => defined xs'
  end.

Definition Object_values {V : Type} (obj : list (string * V)) : list V := map snd obj.
Definition Object_keys {V : Type} (obj : list (string * V)) : list string := map fst obj.
Definition Object_entries {V : Type} (obj : list (string * V)) : list (string * V) := obj.

(** ** The Metric Classifier *)

(** The six map colours, worst to best; the source returns [hex b]. *)
Inductive Bucket : Type :=
| deepDeficit
| deficit
| nearBreakEven
| smallSurplus
| goodSurplus
| largeSurplus.

Definition hex (b : Bucket) : string :=
  match b with
  | deepDeficit => "#dc2626"
  | deficit => "#f97316"
  | nearBreakEven => "#eab308"
  | smallSurplus => "#84cc16"
  | goodSurplus => "#22c55e"
  | largeSurplus => "#059669"
  end.

(** Position on the red-to-green scale. *)
Definition level (b : Bucket) : nat :=
  match b with
  | deepDeficit => 0
  | deficit => 1
  | nearBreakEven => 2
  | smallSurplus => 3
  | goodSurplus => 4
  | largeSurplus => 5
  end.

(** [getMLIColor(mli)]: fixed thresholds. *)
Definition getMLIColor (mli : Q) : Bucket :=
  if Qltb mli (9 # 10) then deepDeficit
  else if Qltb mli (95 # 100) then deficit
  else if Qltb mli 1 then nearBreakEven
  else if Qltb mli (11 # 10) then smallSurplus
  else if Qltb mli (12 # 10) then goodSurplus
  else largeSurplus.

(** The part of the application object that the pure logic reads;
    [None] is [undefined]. *)
Inductive SortKey : Type :=
| SortName | SortRank | SortMli | SortSurplus | SortIncome | SortCol
| SortChange5yr | SortChange
| SortOther (* any other string *).

Inductive Direction : Type := Asc | Desc.

Record MarketData : Type := mkMarket {
  savings_timeline : option (list (Z * Z * Z * Z));
  current_snapshot_2023 : option (list string)
}.

Record App : Type := mkApp {
  data : Dataset;
  marketData : option MarketData;
  currentYear : option Z;
  availableYears : list Z;
  currentSort : SortKey;
  sortDirection : Direction
}.

(** [obj[key]] for a key that may itself be [undefined]. *)
Definition get {V : Type} (obj : list (Z * V)) (key : option Z) : option V :=
  match key with
  | Some k => lookup k obj
  | None => None
  end.

(** [Object.values(this.data.states)
       .map(s => s.timeseries[this.currentYear]?.field)
       .filter(v => v !== undefined)] *)
Definition yearValues (app : App) (field : YearMetrics -> Q) : list Q :=
  defined (map (fun s => prop_opt (get (timeseries s) (currentYear app)) field)
               (Object_values (states (data app)))).

(** [getSurplusColor(surplus)]: six bins upwards from the minimum. *)
Definition getSurplusColor (app : App) (surplus_ : Q) : Bucket :=
  let yearValues := yearValues app surplus in
  let min := Math_min yearValues in
  let max := Math_max yearValues in
  let range := sub max min in
  let bin := div range (Fin 6) in
  if ltb surplus_ (add min bin) then deepDeficit
  else if ltb surplus_ (add min (mul bin (Fin 2))) then deficit
  else if ltb surplus_ (add min (mul bin (Fin 3))) then nearBreakEven
  else if ltb surplus_ (add min (mul bin (Fin 4))) then smallSurplus
  else if ltb surplus_ (add min (mul bin (Fin 5))) then goodSurplus
  else largeSurplus.

(** [getIncomeColor(income)]: the same scale over the incomes. *)
Definition getIncomeColor (app : App) (income_ : Q) : Bucket :=
  let yearValues := yearValues app income in
  let min := Math_min yearValues in
  let max := Math_max yearValues in
  let range := sub max min in
  let bin := div range (Fin 6) in
  if ltb income_ (add min bin) then deepDeficit
  else if ltb income_ (add min (mul bin (Fin 2))) then deficit
  else if ltb income_ (add min (mul bin (Fin 3))) then nearBreakEven
  else if ltb income_ (add min (mul bin (Fin 4))) then smallSurplus
  else if ltb income_ (add min (mul bin (Fin 5))) then goodSurplus
  else largeSurplus.

(** [getCOLColor(col)]: six bins downwards from the maximum; a high cost
    is red. *)
Definition getCOLColor (app : App) (col_ : Q) : Bucket :=
  let yearValues := yearValues app col in
  let min := Math_min yearValues in
  let max := Math_max yearValues in
  let range := sub max min in
  let bin := div range (Fin 6) in
  if gtb col_ (sub max bin) then deepDeficit
  else if gtb col_ (sub max (mul bin (Fin 2))) then deficit
  else if gtb col_ (sub max (mul bin (Fin 3))) then nearBreakEven
  else if gtb col_ (sub max (mul bin (Fin 4))) then smallSurplus
  else if gtb col_ (sub max (mul bin (Fin 5))) then goodSurplus
  else largeSurplus.

(** ** Arrays *)

(** [xs.sort(cmp)]: [cmp a b > 0] puts [a] after [b]; elements that the
    comparator does not separate keep their order. *)
Fixpoint insert {A : Type} (cmp : A -> A -> Q) (x : A) (sorted : list A) : list A :=
  match sorted with
  | [] => [x]
  | y :: rest =>
      if Qltb 0 (cmp x y) then y :: insert cmp x rest else x :: sorted
  end.

Definition sort {A : Type} (cmp : A -> A -> Q) (xs : list A) : list A :=
  fold_right (insert cmp) [] xs.

(** [xs.findIndex(p)]: [-1] when no element satisfies [p]. *)
Fixpoint findIndex {A : Type} (p : A -> bool) (xs : list A) : Z :=
  match xs with
  | [] => -1
  | x :: xs' =>
      if p x then 0
      else let i := findIndex p xs' in
           if (i <? 0)%Z then -1 else (i + 1)%Z
  end.

(** [xs[i]] *)
Definition index {A : Type} (xs : list A) (i : Z) : option A :=
  if (i <? 0)%Z then None else nth_error xs (Z.to_nat i).

(** [xs.slice(0, n)] and [xs.slice(-n)] *)
Definition slice_first {A : Type} (n : nat) (xs : list A) : list A := firstn n xs.
Definition slice_last {A : Type} (n : nat) (xs : list A) : list A :=
  skipn (List.length xs - n) xs.

(** [xs.map((x, index) => f x index)] *)
Fixpoint mapi_from {A B : Type} (i : Z) (f : A -> Z -> B) (xs : list A) : list B :=
  match xs with
  | [] => []
  | x :: xs' => f x i :: mapi_from (i + 1) f xs'
  end.

Definition mapi {A B : Type} (f : A -> Z -> B) (xs : list A) : list B :=
  mapi_from 0 f xs.

(** ** The Ranking Engine *)

Definition Zlen {A : Type} (xs : list A) : Z := Z.of_nat (List.length xs).

(** [getStateRanking(stateName)] *)
Definition getStateRanking (app : App) (stateName : string) : result Z :=
  statesData <-
    mapM (fun '(name, data) =>
            m <- prop (get (timeseries data) (currentYear app)) mli ;;
            Ok (name, m))
         (Object_entries (states (data app))) ;;
  let statesData := sort (fun a b => snd b - snd a) statesData in
  Ok (findIndex (fun s => String.eqb (fst s) stateName) statesData + 1)%Z.

(** A row of [statesData] in [updateRankingsTable]. *)
Record RankedRow : Type := mkRow {
  r_name : string;
  r_mli : Q;
  r_surplus : Q;
  r_income : Q;
  r_col : Q;
  r_change : Q;
  r_change5yr : Q
}.

(** The collation of the browser's locale: which of two strings comes
    first.  It is not in the code; [localeCompare] asks the engine for
    it, so that the program is modelled for every collation. *)
Class Locale : Type := mkLocale {
  collate : string -> string -> comparison
}.

(** [a.name.localeCompare(b.name)] *)
Definition localeCompare {L : Locale} (a b : string) : Q :=
  match collate a b with
  | Lt => -1
  | Eq => 0
  | Gt => 1
  end.

(** What a collation is expected to be: comparing the other way round
    gives the opposite answer, and coming before or together is
    transitive. *)
Definition consistent (L : Locale) : Prop :=
  (forall a b, collate b a = CompOpp (collate a b)) /\
  (forall a b c, collate a b <> Gt -> collate b c <> Gt -> collate a c <> Gt).

(** [a] comes before [b] in the collation, or together with it. *)
Definition notAfter {L : Locale} (a b : string) : Prop := collate a b <> Gt.

(** A collation for the examples: by character code.  (Those of the
    browsers differ from it; they put [a] before [B].) *)
Definition byCharacterCode : Locale := mkLocale String.compare.

(** The comparator of [sortStates]. *)
Definition sortStates_cmp {L : Locale} (app : App) (a b : RankedRow) : Q :=
  let direction : Q := match sortDirection app with Asc => -1 | Desc => 1 end in
  match currentSort app with
  | SortName => direction * localeCompare (r_name a) (r_name b)
  | SortRank => direction * (r_mli b - r_mli a)
  | SortMli => direction * (r_mli b - r_mli a)
  | SortSurplus => direction * (r_surplus b - r_surplus a)
  | SortIncome => direction * (r_income b - r_income a)
  | SortCol => direction * (r_col b - r_col a)
  | SortChange5yr => direction * (r_change5yr b - r_change5yr a)
  | SortChange => direction * (r_change b - r_change a)
  | SortOther => 0
  end.

(** [sortStates(states)] *)
Definition sortStates {L : Locale} (app : App) (states : list RankedRow)
  : list RankedRow :=
  sort (sortStates_cmp app) states.

(** The 5-year lookback of [updateRankingsTable]: [change5yr] stays [0]
    unless the index five positions back exists and the state has data
    there. *)
Definition tableChange5yr (app : App) (data : StateRecord) (yearData : YearMetrics) : Q :=
  let fiveYearIndex :=
    (findIndex (fun y => match currentYear app with
                         | Some c => Z.eqb y c
                         | None => false
                         end) (availableYears app) - 5)%Z in
  if (0 <=? fiveYearIndex)%Z then
    let fiveYearsAgo := index (availableYears app) fiveYearIndex in
    match get (timeseries data) fiveYearsAgo with
    | Some fiveYearData => mli yearData - mli fiveYearData
    | None => 0
    end
  else 0.

(** One element of [statesData] in [updateRankingsTable]. *)
Definition tableRow (app : App) (name : string) (data : StateRecord) : result RankedRow :=
  let yearData := get (timeseries data) (currentYear app) in
  let firstYear := index (availableYears app) 0 in
  let firstYearData := get (timeseries data) firstYear in
  m <- prop yearData mli ;;
  m0 <- prop firstYearData mli ;;
  let change := m - m0 in
  yd <- prop yearData (fun y => y) ;;
  let change5yr := tableChange5yr app data yd in
  Ok (mkRow name (mli yd) (surplus yd) (income yd) (col yd) change change5yr).

Inductive Tab : Type := TabAll | Top10 | Bottom10.

(** A [<tr>] of [#rankingsBody]: the cells (numbers before formatting)
    and [style.display]. *)
Record Tr : Type := mkTr {
  rank_cell : Z;
  state_cell : string;
  mli_cell : Q;
  surplus_cell : Q;
  income_cell : Q;
  col_cell : Q;
  change5yr_cell : Q;
  change_cell : Q;
  display : string
}.

(** [updateRankingsTable(filter)]: the new content of [#rankingsBody]. *)
Definition updateRankingsTable {L : Locale} (app : App) (filter : Tab)
  : result (list Tr) :=
  statesData <-
    mapM (fun '(name, data) => tableRow app name data)
         (Object_entries (states (data app))) ;;
  let statesData := sortStates app statesData in
  let displayData :=
    match filter with
    | Top10 => slice_first 10 statesData
    | Bottom10 => rev (slice_last 10 statesData)
    | TabAll => statesData
    end in
  Ok (mapi (fun state index =>
              let rank := match filter with
                          | Bottom10 => (Zlen statesData - index)%Z
                          | _ => (index + 1)%Z
                          end in
              mkTr rank (r_name state) (r_mli state) (r_surplus state)
                   (r_income state) (r_col state) (r_change5yr state)
                   (r_change state) "")
           displayData).

(** An entry of the insight lists: [{ name, mli, change }]. *)
Record InsightRow : Type := mkInsight {
  i_name : string;
  i_mli : Q;
  i_change : Q
}.

(** One element of [statesData] in [updateInsights]: the 5-year change,
    or the change since the first year when the index five positions back
    does not exist. *)
Definition insightRow (app : App) (name : string) (data : StateRecord) : result InsightRow :=
  let yearData := get (timeseries data) (currentYear app) in
  let currentYearIndex :=
    findIndex (fun y => match currentYear app with
                        | Some c => Z.eqb y c
                        | None => false
                        end) (availableYears app) in
  let fiveYearIndex := (currentYearIndex - 5)%Z in
  change5yr <-
    (if (0 <=? fiveYearIndex)%Z then
       let fiveYearsAgo := index (availableYears app) fiveYearIndex in
       match get (timeseries data) fiveYearsAgo with
       | Some fiveYearData =>
           m <- prop yearData mli ;;
           Ok (m - mli fiveYearData)
       | None => Ok 0
       end
     else
       let firstYear := index (availableYears app) 0 in
       let firstYearData := get (timeseries data) firstYear in
       m <- prop yearData mli ;;
       m0 <- prop firstYearData mli ;;
       Ok (m - m0)) ;;
  m <- prop yearData mli ;;
  Ok (mkInsight name m change5yr).

Record Insights : Type := mkInsights {
  best : list InsightRow;
  worst : list InsightRow;
  improved : list InsightRow;
  declined : list InsightRow
}.

(** [updateInsights()]: the four lists of the insights panel. *)
Definition updateInsights (app : App) : result Insights :=
  statesData <-
    mapM (fun '(name, data) => insightRow app name data)
         (Object_entries (states (data app))) ;;
  let statesData := sort (fun a b => i_mli b - i_mli a) statesData in
  let best := slice_first 5 statesData in
  let worst := rev (slice_last 4 statesData) in
  let improved := slice_first 5 (sort (fun a b => i_change b - i_change a) statesData) in
  let declined := slice_first 4 (sort (fun a b => i_change a - i_change b) statesData) in
  Ok (mkInsights best worst improved declined).

(** The sentence of [#trendInsight]: which years are compared, their MLI,
    the change, the percentage before formatting, and whether the text is
    the "Improving" one. *)
Record TrendInsight : Type := mkTrend {
  t_from : option Z;
  t_to : option Z;
  t_fromMLI : Q;
  t_toMLI : Q;
  t_change : Q;
  t_pctChange : num;
  t_improving : bool
}.

(** [createTrendInsight(stateData)] *)
Definition createTrendInsight (app : App) (stateData : StateRecord) : result TrendInsight :=
  let currentYearIndex :=
    findIndex (fun y => match currentYear app with
                        | Some c => Z.eqb y c
                        | None => false
                        end) (availableYears app) in
  let fiveYearIndex := (currentYearIndex - 5)%Z in
  if (0 <=? fiveYearIndex)%Z then
    let fiveYearsAgo := index (availableYears app) fiveYearIndex in
    let currentYear := currentYear app in
    pastMLI <- prop (get (timeseries stateData) fiveYearsAgo) mli ;;
    currentMLI <- prop (get (timeseries stateData) currentYear) mli ;;
    let change := currentMLI - pastMLI in
    let pctChange := mul (div (Fin change) (Fin pastMLI)) (Fin 100) in
    Ok (mkTrend fiveYearsAgo currentYear pastMLI currentMLI change pctChange
                (Qltb 0 change))
  else
    let firstYear := index (availableYears app) 0 in
    let lastYear := index (availableYears app) (Zlen (availableYears app) - 1) in
    firstMLI <- prop (get (timeseries stateData) firstYear) mli ;;
    lastMLI <- prop (get (timeseries stateData) lastYear) mli ;;
    let change := lastMLI - firstMLI in
    let pctChange := mul (div (Fin change) (Fin firstMLI)) (Fin 100) in
    Ok (mkTrend firstYear lastYear firstMLI lastMLI change pctChange
                (Qltb 0 change)).

(** ** The stats banner *)

Record StatsBanner : Type := mkBanner {
  surplusStates : nat;
  breakEvenStates : nat;
  deficitStates : nat;
  nationalMLI : num (* before [toFixed(3)] *)
}.

Definition Qleb (x y : Q) : bool := Qle_bool x y.

Definition isSurplus (m : Q) : bool := Qltb (105 # 100) m.
Definition isBreakEven (m : Q) : bool := Qleb (95 # 100) m && Qleb m (105 # 100).
Definition isDeficit (m : Q) : bool := Qltb m (95 # 100).

(** [updateStatsBanner()] *)
Definition updateStatsBanner (app : App) : result StatsBanner :=
  statesData <-
    mapM (fun state =>
            m <- prop (get (timeseries state) (currentYear app)) mli ;;
            Ok (name state, m))
         (Object_values (states (data app))) ;;
  let surplus := List.length (filter (fun s => isSurplus (snd s)) statesData) in
  let breakEven := List.length (filter (fun s => isBreakEven (snd s)) statesData) in
  let deficit := List.length (filter (fun s => isDeficit (snd s)) statesData) in
  let avgMLI :=
    div (Fin (fold_left (fun sum s => sum + snd s) statesData 0))
        (Fin (inject_Z (Zlen statesData))) in
  Ok (mkBanner surplus breakEven deficit avgMLI).

(** ** The table filter *)

(** [c.toLowerCase()] on the ASCII letters. *)
Definition lower (c : ascii) : ascii :=
  let n := nat_of_ascii c in
  if ((65 <=? n) && (n <=? 90))%nat then ascii_of_nat (n + 32) else c.

(** [s.toLowerCase()] *)
Fixpoint toLowerCase (s : string) : string :=
  match s with
  | EmptyString => EmptyString
  | String c s' => String (lower c) (toLowerCase s')
  end.

(** [s.includes(t)]: [t] occurs in [s] at some position. *)
Fixpoint includes (s t : string) : bool :=
  prefix t s ||
  match s with
  | EmptyString => false
  | String _ s' => includes s' t
  end.

Definition set_display (row : Tr) (d : string) : Tr :=
  mkTr (rank_cell row) (state_cell row) (mli_cell row) (surplus_cell row)
       (income_cell row) (col_cell row) (change5yr_cell row) (change_cell row) d.

(** [filterTable(searchTerm)] on the rows of [#rankingsBody]: every row's
    [style.display] is set, nothing else is touched. *)
Definition filterTable (rows : list Tr) (searchTerm : string) : list Tr :=
  let term := toLowerCase searchTerm in
  map (fun row =>
         let stateName := toLowerCase (state_cell row) in
         set_display row (if includes stateName term then "" else "none"))
      rows.

(** The rows that the browser shows: those whose [display] is not
    ['none']. *)
Definition shown (rows : list Tr) : list Tr :=
  filter (fun row => negb (String.eqb (display row) "none")) rows.

(** ** Start-up *)














(** ** Notions used by the statements *)

(** All the values of a set are the same number (an empty set included). *)
Definition constant (vs : list Q) : Prop :=
  forall x y, In x vs -> In y vs -> x == y.

(** [v] is one of the values of the set, as a number. *)
Definition among (vs : list Q) (v : Q) : Prop :=
  exists x, In x vs /\ v == x.

(** ** Sample data *)

Definition metrics (m i c : Q) : YearMetrics := mkYearMetrics m i c (i - c).

(** The scenario of the specification: A, B and C in 2023. *)
Definition abc : Dataset :=
  mkDataset [2023%Z]
    [ ("A"%string, mkState "A" [(2023%Z, metrics (12 # 10) 60000 50000)]);
      ("B"%string, mkState "B" [(2023%Z, metrics (8 # 10) 36000 45000)]);
      ("C"%string, mkState "C" [(2023%Z, metrics 1 55000 55000)]) ].

Definition abcApp : App := mkApp abc None (Some 2023%Z) [2023%Z] SortMli Desc.

(** No state at all. *)
Definition emptyApp : App := mkApp (mkDataset [] []) None None [] SortMli Desc.

(** Two states with the same figures. *)
Definition twins : Dataset :=
  mkDataset [2023%Z]
    [ ("B"%string, mkState "B" [(2023%Z, metrics 1 50000 50000)]);
      ("A"%string, mkState "A" [(2023%Z, metrics 1 50000 50000)]) ].

Definition twinsApp : App := mkApp twins None (Some 2023%Z) [2023%Z] SortMli Desc.

(** The first two statements of [getStateRanking]: the states with their
    MLI of the current year, in ranking order. *)
Definition rankedStates (app : App) : result (list (string * Q)) :=
  statesData <-
    mapM (fun '(name, data) =>
            m <- prop (get (timeseries data) (currentYear app)) mli ;;
            Ok (name, m))
         (Object_entries (states (data app))) ;;
  Ok (sort (fun a b => snd b - snd a) statesData).

(** Every state has figures for the current year (the invariant of the
    data model). *)
Definition complete (app : App) : Prop :=
  forall s, In s (Object_values (states (data app))) ->
            get (timeseries s) (currentYear app) <> None.

(** C7 as the spec words it: every queried value gets the same bucket. *)
Definition oneBucketForAll (classify : Q -> Bucket) : Prop :=
  forall v w : Q, classify v = classify w.

(** The keys of a JS object are distinct. *)
Definition distinctKeys (app : App) : Prop :=
  NoDup (Object_keys (states (data app))).

(** The MLI of a state in the current year ([0] stands for a missing
    entry, which [complete] excludes). *)
Definition mliNow (app : App) (s : StateRecord) : Q :=
  match get (timeseries s) (currentYear app) with
  | Some y => mli y
  | None => 0
  end.

(** The ranks [1..n]. *)
Definition ranks (n : nat) : list Z := map Z.of_nat (seq 1 n).

(** The elements of [l] whose key is the number [v], in the order of [l]. *)
Definition tied {A : Type} (key : A -> Q) (v : Q) (l : list A) : list A :=
  filter (fun a => Qeq_bool (key a) v) l.

(** [l] goes down along [key]. *)
Definition descending {A : Type} (key : A -> Q) (l : list A) : Prop :=
  StronglySorted (fun a b => key b <= key a) l.

(** What a tie-break by name would give: of two entries with the same
    value, the one that comes first has the smaller name. *)
Definition tiesByNameAscending (l : list (string * Q)) : Prop :=
  forall (i j : nat) (a b : string * Q),
    (i < j)%nat -> nth_error l i = Some a -> nth_error l j = Some b ->
    snd a == snd b -> String.leb (fst a) (fst b) = true.

(** A state's entry of [statesData] in [getStateRanking]. *)
Definition nameAndMli (app : App) (entry : string * StateRecord) : string * Q :=
  (fst entry, mliNow app (snd entry)).

(** The comparator of [getStateRanking]. *)
Definition byMliDesc (a b : string * Q) : Q := snd b - snd a.

(** The field that a numeric sort key of [sortStates] reads. *)
Definition sortField (k : SortKey) : option (RankedRow -> Q) :=
  match k with
  | SortRank | SortMli => Some r_mli
  | SortSurplus => Some r_surplus
  | SortIncome => Some r_income
  | SortCol => Some r_col
  | SortChange5yr => Some r_change5yr
  | SortChange => Some r_change
  | SortName | SortOther => None
  end.

(** One state over seven years, its MLI going up by 0.02 a year. *)
Definition ohio : StateRecord :=
  mkState "Ohio"
    [ (2008%Z, metrics (100 # 100) 50000 50000);
      (2009%Z, metrics (102 # 100) 51000 50000);
      (2010%Z, metrics (104 # 100) 52000 50000);
      (2011%Z, metrics (106 # 100) 53000 50000);
      (2012%Z, metrics (108 # 100) 54000 50000);
      (2013%Z, metrics (110 # 100) 55000 50000);
      (2014%Z, metrics (112 # 100) 56000 50000) ].

Definition history : Dataset :=
  mkDataset [2008; 2009; 2010; 2011; 2012; 2013; 2014]%Z [("Ohio"%string, ohio)].

(** The application with the year slider on [year]. *)
Definition historyApp (year : Z) : App :=
  mkApp history None (Some year) (years history) SortMli Desc.

(** The index of the year five positions before the current one, as the
    three delta computations obtain it. *)
Definition fiveYearIndex (app : App) : Z :=
  (findIndex (fun y => match currentYear app with
                       | Some c => Z.eqb y c
                       | None => false
                       end) (availableYears app) - 5)%Z.

(** The cells of a row, its [style] apart. *)
Definition cells (row : Tr) : Z * string * Q * Q * Q * Q * Q * Q :=
  (rank_cell row, state_cell row, mli_cell row, surplus_cell row,
   income_cell row, col_cell row, change5yr_cell row, change_cell row).

(** [t] occurs in [s] as a substring. *)
Definition occursIn (t s : string) : Prop :=
  exists before after : string, s = (before ++ t ++ after)%string.

(** [l1] is [l2] with some elements left out, the others in their order. *)
Inductive subsequence {A : Type} : list A -> list A -> Prop :=
| sub_nil : subsequence [] []
| sub_skip (x : A) (l1 l2 : list A) : subsequence l1 l2 -> subsequence l1 (x :: l2)
| sub_keep (x : A) (l1 l2 : list A) : subsequence l1 l2 -> subsequence (x :: l1) (x :: l2).

Definition row (rank : Z) (stateName : string) : Tr :=
  mkTr rank stateName 1 0 50000 50000 0 0 "".

(** Four rows as [updateRankingsTable] leaves them. *)
Definition fourRows : list Tr :=
  [row 1 "Ohio"; row 2 "Iowa"; row 3 "Idaho"; row 4 "North Dakota"].

(** Exactly one of three tests succeeds. *)
Definition exactlyOne (a b c : bool) : Prop :=
  (a = true /\ b = false /\ c = false) \/
  (a = false /\ b = true /\ c = false) \/
  (a = false /\ b = false /\ c = true).








(** The application as [loadData] leaves it. *)
Definition loadedApp (d : Dataset) (market : option MarketData) : App :=
  mkApp d market (index (years d) (Zlen (years d) - 1)) (years d) SortMli Desc.




(** ** The sortable headers *)

(** [this.currentSort === sortKey]; [SortOther] stands for one string
    that is no key of [sortStates]. *)
Definition sameKey (a b : SortKey) : bool :=
  match a, b with
  | SortName, SortName | SortRank, SortRank | SortMli, SortMli
  | SortSurplus, SortSurplus | SortIncome, SortIncome | SortCol, SortCol
  | SortChange5yr, SortChange5yr | SortChange, SortChange
  | SortOther, SortOther => true
  | _, _ => false
  end.

(** The click handler of a header [th[data-sort]], up to its call of
    [updateRankingsTable]: the same key flips the direction, a new key
    starts descending. *)
Definition headerClick (sortKey : SortKey) (app : App) : App :=
  if sameKey (currentSort app) sortKey then
    mkApp (data app) (marketData app) (currentYear app) (availableYears app)
          (currentSort app)
          (match sortDirection app with Desc => Asc | Asc => Desc end)
  else
    mkApp (data app) (marketData app) (currentYear app) (availableYears app)
          sortKey Desc.

(** No two elements of [l] have the same key. *)
Definition noTies {A : Type} (key : A -> Q) (l : list A) : Prop :=
  forall v, (List.length (tied key v l) <= 1)%nat.

(** The rows of the three sample states, in dataset order. *)
Definition sampleRows : list RankedRow :=
  [ mkRow "A" (12 # 10) 10000 60000 50000 0 0;
    mkRow "B" (8 # 10) (-9000) 36000 45000 0 0;
    mkRow "C" 1 0 55000 55000 0 0 ].

(** ** The state selectors *)

(** The comparison of [keys.sort()] without a comparator: strings by
    code unit. *)
Definition defaultCompare (a b : string) : Q :=
  match String.compare a b with
  | Lt => -1
  | Eq => 0
  | Gt => 1
  end.

(** [populateStateSelectors()]: the options ([text], [value]) of
    [#compareState1] and [#compareState2], given the options they have. *)
Definition populateStateSelectors (app : App)
           (select1 select2 : list (string * string))
  : list (string * string) * list (string * string) :=
  let states := sort defaultCompare (Object_keys (states (data app))) in
  fold_left (fun selects state =>
               (fst selects ++ [(state, state)], snd selects ++ [(state, state)]))
            states (select1, select2).

(** [a] comes before [b], or is [b]. *)
Definition nameLe (a b : string) : Prop := String.leb a b = true.

Definition stateAt (stateName : string) (m : Q) : string * StateRecord :=
  (stateName, mkState stateName [(2023%Z, metrics m (m * 50000) 50000)]).

(** Nine states in one year. *)
Definition nine : Dataset :=
  mkDataset [2023%Z]
    [ stateAt "Alabama" (91 # 100); stateAt "Alaska" (104 # 100);
      stateAt "Arizona" (97 # 100); stateAt "Arkansas" (88 # 100);
      stateAt "California" (83 # 100); stateAt "Colorado" (112 # 100);
      stateAt "Connecticut" (109 # 100); stateAt "Delaware" (101 # 100);
      stateAt "Florida" (94 # 100) ].

Definition nineApp : App := mkApp nine None (Some 2023%Z) [2023%Z] SortMli Desc.

(** The rows that [updateInsights] computes for the states of an
    application ([[]] when one of them cannot be computed). *)
Definition insightRows (app : App) : list InsightRow :=
  match mapM (fun '(name, data) => insightRow app name data)
             (Object_entries (states (data app))) with
  | Ok rows => rows
  | Throw _ => []
  end.

Definition abcInsightRows : list InsightRow := Eval vm_compute in insightRows abcApp.
Definition ohioInsightRows : list InsightRow :=
  Eval vm_compute in insightRows (historyApp 2008).

Definition noInsights : Insights := mkInsights [] [] [] [].

Definition nineInsights : Insights :=
  Eval vm_compute in
    match updateInsights nineApp with Ok ins => ins | Throw _ => noInsights end.

Definition abcInsights : Insights :=
  Eval vm_compute in
    match updateInsights abcApp with Ok ins => ins | Throw _ => noInsights end.

(** The state improved: its change is positive. *)
Definition hasImproved (r : InsightRow) : bool := Qltb 0 (i_change r).

(** ** The cost breakdown of the detail panel *)

(** [c.toUpperCase()] on the ASCII letters. *)
(** Every character of [s] is an ASCII character, the range on which
    [toUpperCase] changes the 26 small letters and nothing else. *)
Fixpoint asciiOnly (s : string) : bool :=
  match s with
  | EmptyString => true
  | String c s' => (N_of_ascii c <? 128)%N && asciiOnly s'
  end.

Definition upper (c : ascii) : ascii :=
  let n := nat_of_ascii c in
  if ((97 <=? n) && (n <=? 122))%nat then ascii_of_nat (n - 32) else c.

(** [s.split('_')] *)
Fixpoint split_underscore (s : string) : list string :=
  match s with
  | EmptyString => [EmptyString]
  | String c s' =>
      if Ascii.eqb c "_" then EmptyString :: split_underscore s'
      else match split_underscore s' with
           | [] => [String c EmptyString]
           | word :: words => String c word :: words
           end
  end.

(** [word.charAt(0).toUpperCase() + word.slice(1)] *)
Definition capitalizeWord (word : string) : string :=
  match word with
  | EmptyString => EmptyString
  | String c rest => String (upper c) rest
  end.

(** [words.join(' ')] *)
Fixpoint join_space (words : list string) : string :=
  match words with
  | [] => EmptyString
  | [word] => word
  | word :: words' => (word ++ String " " (join_space words'))%string
  end.

(** [capitalizeCategory(category)] *)
Definition capitalizeCategory (category : string) : string :=
  join_space (map capitalizeWord (split_underscore category)).

(** A bar of [#costBreakdown]: the label, the percentage before
    [toFixed(1)] and the cost before formatting. *)
Record CostBar : Type := mkBar {
  bar_label : string;
  bar_pct : num;
  bar_value : Q
}.

(** [createCostBreakdown(categories)], [categories] mapping a category
    to its [cost]. *)
Definition createCostBreakdown (categories : list (string * Q)) : list CostBar :=
  let sortedCategories := sort (fun a b => snd b - snd a) (Object_entries categories) in
  let total := fold_left (fun sum e => sum + snd e) sortedCategories 0 in
  map (fun '(category, cost) =>
         let pct := mul (div (Fin cost) (Fin total)) (Fin 100) in
         mkBar (capitalizeCategory category) pct cost)
      sortedCategories.

(** The sum of a list of numbers. *)
Definition Qsum (l : list Q) : Q := fold_right Qplus 0 l.

(** The character [c] occurs in [s]. *)
Fixpoint occurs (c : ascii) (s : string) : Prop :=
  match s with
  | EmptyString => False
  | String d s' => c = d \/ occurs c s'
  end.

(** What [capitalizeCategory] does, character by character: an
    underscore becomes a space, a character at the start of a word is
    put in upper case. *)
Fixpoint capitalizeFrom (wordStart : bool) (s : string) : string :=
  match s with
  | EmptyString => EmptyString
  | String c s' =>
      if Ascii.eqb c "_" then String " " (capitalizeFrom true s')
      else String (if wordStart then upper c else c) (capitalizeFrom false s')
  end.

Definition sampleCategories : list (string * Q) :=
  [ ("food"%string, 6000); ("housing_and_utilities"%string, 18000);
    ("health_care"%string, 6000) ].

(** ** The wording of an MLI *)

(** The three sentences of [getMLIInterpretation]: "N% deficit",
    "N% surplus" and "Break even".  The digits N are those that
    [toFixed(0)] makes of a product of doubles; they are not modelled. *)
Inductive Interpretation : Type :=
| PercentDeficit
| PercentSurplus
| BreakEven.

(** [getMLIInterpretation(mli)] *)
Definition getMLIInterpretation (mli : Q) : Interpretation :=
  if Qltb mli (95 # 100) then PercentDeficit
  else if Qltb (105 # 100) mli then PercentSurplus
  else BreakEven.

(** ** The map, its tooltip and its legend *)

(** [this.currentMetric], the value of [#metricSelect]. *)
Inductive Metric : Type :=
| MetricMli | MetricSurplus | MetricIncome | MetricCol
| MetricOther (* any other string *).

(** The own property [stateName] of the object [states]. *)
Fixpoint ownProperty (stateName : string) (states : list (string * StateRecord))
  : option StateRecord :=
  match states with
  | [] => None
  | (key, stateData) :: states' =>
      if String.eqb key stateName then Some stateData
      else ownProperty stateName states'
  end.

(** The names that the object parsed from the JSON inherits from
    [Object.prototype]. *)
Definition Object_prototype : list string :=
  [ "constructor"; "hasOwnProperty"; "isPrototypeOf"; "propertyIsEnumerable";
    "toLocaleString"; "toString"; "valueOf"; "__proto__";
    "__defineGetter__"; "__defineSetter__"; "__lookupGetter__";
    "__lookupSetter__" ]%string.

(** What [this.data.states[stateName]] can be: a state of the dataset,
    or a member inherited from [Object.prototype], which is a function
    or an object, so it passes a test [!stateData], and has no
    [timeseries]. *)
Inductive Member : Type :=
| State (stateData : StateRecord)
| Inherited.

(** [this.data.states[stateName]]: [None] is [undefined]. *)
Definition stateNamed (stateName : string) (states : list (string * StateRecord))
  : option Member :=
  match ownProperty stateName states with
  | Some stateData => Some (State stateData)
  | None =>
      if existsb (String.eqb stateName) Object_prototype then Some Inherited
      else None
  end.

(** The [fill] callback of [updateMap()], for the shape named
    [stateName]. *)
Definition fillColor (app : App) (currentMetric : Metric) (stateName : string)
  : result string :=
  match stateNamed stateName (states (data app)) with
  | None => Ok "#ccc"%string
  | Some Inherited => Throw TypeError (* [stateData.timeseries] is [undefined] *)
  | Some (State stateData) =>
      match get (timeseries stateData) (currentYear app) with
      | None => Ok "#ccc"%string
      | Some yearData =>
          match currentMetric with
          | MetricMli => Ok (hex (getMLIColor (mli yearData)))
          | MetricSurplus => Ok (hex (getSurplusColor app (surplus yearData)))
          | MetricIncome => Ok (hex (getIncomeColor app (income yearData)))
          | MetricCol => Ok (hex (getCOLColor app (col yearData)))
          | MetricOther => Ok "#ccc"%string
          end
      end
  end.

(** What [showTooltip] writes after the title: the value before
    formatting, and the line of detail. *)
Inductive TooltipBody : Type :=
| MliBody (value : Q) (interpretation : Interpretation)
| SurplusBody (value : Q) (detail : string)
| IncomeBody (value : Q)
| ColBody (value : Q)
| NoBody.

(** [showTooltip(event, d)] for the shape named [stateName]: no tooltip
    for a shape without state, else the title and the body. *)
Definition showTooltip (app : App) (currentMetric : Metric) (stateName : string)
  : result (option (string * TooltipBody)) :=
  match stateNamed stateName (states (data app)) with
  | None => Ok None
  | Some Inherited => Throw TypeError (* [stateData.timeseries] is [undefined] *)
  | Some (State stateData) =>
      let yearData := get (timeseries stateData) (currentYear app) in
      body <-
        match currentMetric with
        | MetricMli =>
            m <- prop yearData mli ;;
            Ok (MliBody m (getMLIInterpretation m))
        | MetricSurplus =>
            s <- prop yearData surplus ;;
            Ok (SurplusBody s (if Qleb 0 s then "Annual surplus" else "Annual deficit"))
        | MetricIncome =>
            i <- prop yearData income ;;
            Ok (IncomeBody i)
        | MetricCol =>
            c <- prop yearData col ;;
            Ok (ColBody c)
        | MetricOther => Ok NoBody
        end ;;
      Ok (Some (stateName, body))
  end.

(** The legend: its title, the labels of its two ends (before
    formatting), whether the gradient bar has the class [inverted], and
    the value named in the middle label when there is one. *)
Record Legend : Type := mkLegend {
  legend_title : string;
  legend_low : num;
  legend_high : num;
  legend_inverted : bool;
  legend_mid : option num
}.

(** [updateLegend()], given the legend as it is. *)
Definition updateLegend (app : App) (currentMetric : Metric) (legend : Legend) : Legend :=
  match currentMetric with
  | MetricMli =>
      mkLegend "MLI Scale" (Fin (8 # 10)) (Fin (15 # 10)) false None
  | MetricSurplus =>
      let surplusVals := yearValues app surplus in
      let minVal := Math_min surplusVals in
      let maxVal := Math_max surplusVals in
      mkLegend "Annual Surplus/Deficit" minVal maxVal false None
  | MetricIncome =>
      let incomeVals := yearValues app income in
      let minVal := Math_min incomeVals in
      let maxVal := Math_max incomeVals in
      let midVal := div (add minVal maxVal) (Fin 2) in
      mkLegend "Median Income" minVal maxVal false (Some midVal)
  | MetricCol =>
      let colVals := yearValues app col in
      let minVal := Math_min colVals in
      let maxVal := Math_max colVals in
      let midVal := div (add minVal maxVal) (Fin 2) in
      mkLegend "Cost of Living" minVal maxVal true (Some midVal)
  | MetricOther => legend
  end.

(** [lo] and [hi] are values of [vs], and all its values lie between
    them. *)
Definition spans (vs : list Q) (lo hi : Q) : Prop :=
  In lo vs /\ In hi vs /\ forall v, In v vs -> lo <= v /\ v <= hi.

(** A state of the dataset that has no figures for 2023. *)
Definition gappy : Dataset :=
  mkDataset [2022; 2023]%Z
    [ stateAt "Alabama" (91 # 100);
      ("Alaska"%string, mkState "Alaska" [(2022%Z, metrics 1 50000 50000)]) ].

Definition gappyApp : App := mkApp gappy None (Some 2023%Z) [2022; 2023]%Z SortMli Desc.

(** ** Dragging the detail panel *)

(** The window and the panel: [window.innerWidth], [window.innerHeight],
    [panel.offsetWidth], [panel.offsetHeight], in pixels. *)
Record Viewport : Type := mkViewport {
  innerWidth : Z;
  innerHeight : Z;
  offsetWidth : Z;
  offsetHeight : Z
}.

(** The variables of [setupDraggablePanel] and the position of the panel:
    [panel.style.left] and [panel.style.top] in pixels, [None] when they
    are not set. *)
Record Drag : Type := mkDrag {
  isDragging : bool;
  initialX : Z;
  initialY : Z;
  style_left : option Z;
  style_top : option Z
}.

Inductive MouseEvent : Type :=
| MouseDown (clientX clientY : Z) (onCloseButton : bool) (* on the header *)
| MouseMove (clientX clientY : Z)
| MouseUp
| PanelShown (* [showDetailPanel] resets the position *).

(** [parseInt(panel.style.left) || 0] *)
Definition parsedOr0 (px : option Z) : Z :=
  match px with
  | Some n => n
  | None => 0
  end.

(** [Math.max(0, Math.min(current, max))] *)
Definition constrain (current max : Z) : Z := Z.max 0 (Z.min current max).

(** One event, handled by the listeners of [setupDraggablePanel] (and by
    the reset of [showDetailPanel]). *)
Definition handle (vp : Viewport) (d : Drag) (e : MouseEvent) : Drag :=
  match e with
  | MouseDown clientX clientY onCloseButton =>
      if onCloseButton then d
      else mkDrag true
                  (clientX - parsedOr0 (style_left d))
                  (clientY - parsedOr0 (style_top d))
                  (style_left d) (style_top d)
  | MouseMove clientX clientY =>
      if isDragging d then
        let currentX := (clientX - initialX d)%Z in
        let currentY := (clientY - initialY d)%Z in
        let maxX := (innerWidth vp - offsetWidth vp)%Z in
        let maxY := (innerHeight vp - offsetHeight vp)%Z in
        mkDrag true (initialX d) (initialY d)
               (Some (constrain currentX maxX)) (Some (constrain currentY maxY))
      else d
  | MouseUp => mkDrag false (initialX d) (initialY d) (style_left d) (style_top d)
  | PanelShown => mkDrag (isDragging d) (initialX d) (initialY d) None None
  end.

Definition handleAll (vp : Viewport) (events : list MouseEvent) (d : Drag) : Drag :=
  fold_left (handle vp) events d.

(** The panel, where it has been put, lies inside the window. *)
Definition insideWindow (vp : Viewport) (d : Drag) : Prop :=
  (forall x, style_left d = Some x -> (0 <= x /\ x + offsetWidth vp <= innerWidth vp)%Z) /\
  (forall y, style_top d = Some y -> (0 <= y /\ y + offsetHeight vp <= innerHeight vp)%Z).

(** Before any event. *)
Definition notDragged : Drag := mkDrag false 0 0 None None.

(** ** The savings distribution *)

(** The three numbers that [populateSavingsDistribution()] writes
    ([#states_surplus], [#states_neutral], [#states_deficit]); [None]
    when it returns without writing. *)
Definition savingsDistribution (app : App) : option (nat * nat * nat) :=
  match marketData app with
  | None => None
  | Some m =>
      match current_snapshot_2023 m with
      | None => None
      | Some snapshot =>
          let surplus := List.length (filter (fun s => String.eqb s "Surplus") snapshot) in
          let neutral :=
            List.length (filter (fun s => String.eqb s "Paycheck-to-Paycheck") snapshot) in
          let deficit := List.length (filter (fun s => String.eqb s "Deficit") snapshot) in
          Some (surplus, neutral, deficit)
      end
  end.

(** ** The year slider *)

(** The [input] handler of [#yearSlider], up to the views it refreshes:
    the slider is at [index]. *)
Definition slideTo (position : Z) (app : App) : App :=
  mkApp (data app) (marketData app) (index (availableYears app) position)
        (availableYears app) (currentSort app) (sortDirection app).

(** ** The detail panel *)

(** [createTrendChart(stateData)]: the points of the MLI line, one for
    each available year (the break-even line has the value 1.0 at the
    same years). *)
Definition createTrendChart (app : App) (stateData : StateRecord)
  : result (list (Z * Q)) :=
  mapM (fun year =>
          m <- prop (get (timeseries stateData) (Some year)) mli ;;
          Ok (year, m))
       (availableYears app).

(** What [showDetailPanel] writes. *)
Record DetailPanel : Type := mkPanel {
  p_stateName : string;
  p_mliScore : Q;
  p_mliRank : Z;
  p_interpretation : Interpretation;
  p_interpretationClass : string;
  p_medianIncome : Q;
  p_costOfLiving : Q;
  p_annualSurplus : Q;
  p_surplusColor : string;
  p_surplusLabel : string;
  p_highlightDeficit : bool;
  p_trendChart : list (Z * Q);
  p_costBreakdown : list CostBar;
  p_trendInsight : TrendInsight
}.

(** [showDetailPanel(stateName)].  [categories stateData] stands for
    [stateData.latest.categories], the only part of [latest] that is read
    ([None] when there is none); the result is [None] when the function
    returns without showing the panel. *)
Definition showDetailPanel (categories : StateRecord -> option (list (string * Q)))
           (app : App) (stateName : string) : result (option DetailPanel) :=
  match stateNamed stateName (states (data app)) with
  | None => Ok None
  | Some Inherited => Throw TypeError (* [stateData.timeseries] is [undefined] *)
  | Some (State stateData) =>
      let yearData := get (timeseries stateData) (currentYear app) in
      let latestData := categories stateData in
      ranking <- getStateRanking app stateName ;;
      m <- prop yearData mli ;;
      let interpretation := getMLIInterpretation m in
      let class :=
        if Qltb (105 # 100) m then "surplus"%string
        else if Qltb m (95 # 100) then "deficit"%string
        else "breakeven"%string in
      i <- prop yearData income ;;
      c <- prop yearData col ;;
      s <- prop yearData surplus ;;
      let color := if Qleb 0 s then "var(--green)"%string else "var(--red)"%string in
      let label := if Qleb 0 s then "Available for savings"%string else "Annual shortfall"%string in
      let highlight := Qltb s 0 in
      chart <- createTrendChart app stateData ;;
      cats <- prop latestData (fun x => x) ;;
      let bars := createCostBreakdown cats in
      insight <- createTrendInsight app stateData ;;
      Ok (Some (mkPanel stateName m ranking interpretation class i c s color label
                        highlight chart bars insight))
  end.

(** [selectStateFromTable(stateName)], the click on a row of the table. *)
Definition selectStateFromTable
           (categories : StateRecord -> option (list (string * Q)))
           (app : App) (stateName : string) : result (option DetailPanel) :=
  showDetailPanel categories app stateName.

(** ** The rankings table of [website/app.js] *)

(** [website/app.js] is the earlier version of the application: its
    table is sorted by the value of [#sortSelect], has no 5-year column,
    and numbers the rows of the "bottom 10" tab in its own way. *)
Module AppJs.

(** The value of [#sortSelect]. *)
Inductive SortValue : Type :=
| MliDesc | MliAsc | Name | SurplusDesc | IncomeDesc | ColAsc
| OtherValue (* any other string *).

(** An element of [statesData]. *)
Record Row : Type := mkRow {
  s_name : string;
  s_mli : Q;
  s_surplus : Q;
  s_income : Q;
  s_col : Q;
  s_change : Q
}.

(** [sortStates(states, sortValue)] *)
Definition sortStates {L : Locale} (states : list Row) (sortValue : SortValue)
  : list Row :=
  match sortValue with
  | MliDesc => sort (fun a b => s_mli b - s_mli a) states
  | MliAsc => sort (fun a b => s_mli a - s_mli b) states
  | Name => sort (fun a b => localeCompare (s_name a) (s_name b)) states
  | SurplusDesc => sort (fun a b => s_surplus b - s_surplus a) states
  | IncomeDesc => sort (fun a b => s_income b - s_income a) states
  | ColAsc => sort (fun a b => s_col a - s_col b) states
  | OtherValue => states
  end.

(** A [<tr>] of [#rankingsBody]. *)
Record Tr : Type := mkTr {
  td_rank : Z;
  td_state : string;
  td_mli : Q;
  td_surplus : Q;
  td_income : Q;
  td_col : Q;
  td_change : Q
}.

Definition tableRow (app : App) (name : string) (data : StateRecord) : result Row :=
  let yearData := get (timeseries data) (currentYear app) in
  let firstYear := index (availableYears app) 0 in
  let firstYearData := get (timeseries data) firstYear in
  m <- prop yearData mli ;;
  m0 <- prop firstYearData mli ;;
  let change := m - m0 in
  yd <- prop yearData (fun y => y) ;;
  Ok (mkRow name (mli yd) (surplus yd) (income yd) (col yd) change).

(** [updateRankingsTable(filter = 'all')], with the value of
    [#sortSelect]. *)
Definition updateRankingsTable {L : Locale} (app : App) (sortValue : SortValue)
           (filter : Tab) : result (list Tr) :=
  statesData <-
    mapM (fun '(name, data) => tableRow app name data)
         (Object_entries (states (data app))) ;;
  let statesData := sortStates statesData sortValue in
  let displayData :=
    match filter with
    | Top10 => slice_first 10 statesData
    | Bottom10 => rev (slice_last 10 statesData)
    | TabAll => statesData
    end in
  Ok (mapi (fun state index =>
              let rank := match filter with
                          | Bottom10 => (Zlen statesData - 9 + index)%Z
                          | _ => (index + 1)%Z
                          end in
              mkTr rank (s_name state) (s_mli state) (s_surplus state)
                   (s_income state) (s_col state) (s_change state))
           displayData).

(** The five colours of [getIncomeColor], from the lowest fifth of the
    range of incomes to the highest. *)
Inductive Shade : Type := fifth1 | fifth2 | fifth3 | fifth4 | fifth5.

Definition shadeHex (s : Shade) : string :=
  match s with
  | fifth1 => "#fef2f2"
  | fifth2 => "#fef9c3"
  | fifth3 => "#d1fae5"
  | fifth4 => "#a7f3d0"
  | fifth5 => "#6ee7b7"
  end.

Definition shadeLevel (s : Shade) : nat :=
  match s with
  | fifth1 => 0
  | fifth2 => 1
  | fifth3 => 2
  | fifth4 => 3
  | fifth5 => 4
  end.

(** [getIncomeColor(income)]: five bins upwards from the minimum. *)
Definition getIncomeColor (app : App) (income_ : Q) : Shade :=
  let yearValues := yearValues app income in
  let min := Math_min yearValues in
  let max := Math_max yearValues in
  let range := sub max min in
  let bin := div range (Fin 5) in
  if ltb income_ (add min bin) then fifth1
  else if ltb income_ (add min (mul bin (Fin 2))) then fifth2
  else if ltb income_ (add min (mul bin (Fin 3))) then fifth3
  else if ltb income_ (add min (mul bin (Fin 4))) then fifth4
  else fifth5.

(** [getCOLColor(col)]: five bins downwards from the maximum. *)
Definition getCOLColor (app : App) (col_ : Q) : Bucket :=
  let yearValues := yearValues app col in
  let min := Math_min yearValues in
  let max := Math_max yearValues in
  let range := sub max min in
  let bin := div range (Fin 5) in
  if gtb col_ (sub max bin) then deepDeficit
  else if gtb col_ (sub max (mul bin (Fin 2))) then deficit
  else if gtb col_ (sub max (mul bin (Fin 3))) then nearBreakEven
  else if gtb col_ (sub max (mul bin (Fin 4))) then smallSurplus
  else largeSurplus.

(** The same row under another number. *)
Definition renumbered (rank : Z) (r : Tr) : Tr :=
  mkTr rank (td_state r) (td_mli r) (td_surplus r) (td_income r) (td_col r)
       (td_change r).

End AppJs.

(** ** Comparing two states *)

(** [#comparisonResult]: its [style.display] and the two columns of its
    content, each the name of a state and its figures for the year
    (before formatting). *)
Record ComparisonResult : Type := mkResult {
  res_display : string;
  res_content : option ((string * YearMetrics) * (string * YearMetrics))
}.

(** How a call ends. *)
Inductive Outcome : Type :=
| Alerted (message : string)
| Returned
| Thrown (e : error).

(** [this.data.states[state].timeseries[this.currentYear]] *)
Definition figuresOf (app : App) (state : string) : result (option YearMetrics) :=
  match stateNamed state (states (data app)) with
  | Some (State stateData) => Ok (get (timeseries stateData) (currentYear app))
  | Some Inherited => Throw TypeError (* [timeseries] is [undefined] *)
  | None => Throw TypeError
  end.

(** [compareStates()], for the values of [#compareState1] and
    [#compareState2]. *)
Definition compareStates (app : App) (state1 state2 : string)
           (resultDiv : ComparisonResult) : ComparisonResult * Outcome :=
  if (String.eqb state1 "" || String.eqb state2 "")%bool then
    (resultDiv, Alerted "Please select both states to compare")
  else
    match figuresOf app state1 with
    | Throw e => (resultDiv, Thrown e)
    | Ok data1 =>
        match figuresOf app state2 with
        | Throw e => (resultDiv, Thrown e)
        | Ok data2 =>
            let resultDiv := mkResult "grid" (res_content resultDiv) in
            match data1, data2 with
            | Some d1, Some d2 =>
                (mkResult (res_display resultDiv)
                          (Some ((state1, d1), (state2, d2))),
                 Returned)
            | _, _ => (resultDiv, Thrown TypeError)
            end
        end
    end.

(** * Properties *)

(** ** Comparison of numbers *)

Lemma Qltb_spec (x y : Q) : reflect (x < y) (Qltb x y).
Proof.
  unfold Qltb. destruct (x ?= y) eqn:E; constructor.
  - apply Qeq_alt in E. lra.
  - now apply Qlt_alt.
  - apply Qgt_alt in E. lra.
Qed.

Lemma Qltb_true (x y : Q) : Qltb x y = true <-> x < y.
Proof. destruct (Qltb_spec x y); split; intros; try easy. Qed.

Lemma Qltb_false (x y : Q) : Qltb x y = false <-> y <= x.
Proof. destruct (Qltb_spec x y); split; intros; try easy; lra. Qed.

Lemma Qleb_true (x y : Q) : Qleb x y = true <-> x <= y.
Proof. apply Qle_bool_iff. Qed.

(** A value below another one is below every threshold the other is
    below, whatever the threshold (NaN and the infinities included). *)
Lemma ltb_le_trans (a b : Q) (t : num) :
  a <= b -> ltb (Fin b) t = true -> ltb (Fin a) t = true.
Proof.
  intros Hab. destruct t as [| |q|]; simpl; try easy.
  rewrite !Qltb_true. lra.
Qed.

Lemma gtb_le_trans (a b : Q) (t : num) :
  a <= b -> gtb (Fin a) t = true -> gtb (Fin b) t = true.
Proof.
  intros Hab. unfold gtb. destruct t as [| |q|]; simpl; try easy.
  rewrite !Qltb_true. lra.
Qed.

(** ** C1: the fixed MLI thresholds *)

(** C1. [getMLIColor] takes the value alone (no dataset) and returns, for
    every value [v], the bucket of the fixed thresholds: [deepDeficit]
    exactly when [v < 0.90], [deficit] exactly when [0.90 <= v < 0.95],
    [nearBreakEven] exactly when [0.95 <= v < 1.00], [smallSurplus]
    exactly when [1.00 <= v < 1.10], [goodSurplus] exactly when
    [1.10 <= v < 1.20], [largeSurplus] exactly when [v >= 1.20]; in
    particular 0.94 is a [deficit] and 1.15 a [goodSurplus]. *)
Theorem getMLIColor_fixed_thresholds :
  forall v : Q,
    (getMLIColor v = deepDeficit <-> v < 90 # 100) /\
    (getMLIColor v = deficit <-> 90 # 100 <= v /\ v < 95 # 100) /\
    (getMLIColor v = nearBreakEven <-> 95 # 100 <= v /\ v < 100 # 100) /\
    (getMLIColor v = smallSurplus <-> 100 # 100 <= v /\ v < 110 # 100) /\
    (getMLIColor v = goodSurplus <-> 110 # 100 <= v /\ v < 120 # 100) /\
    (getMLIColor v = largeSurplus <-> 120 # 100 <= v) /\
    getMLIColor (94 # 100) = deficit /\
    getMLIColor (115 # 100) = goodSurplus.
Proof.
  intro v. unfold getMLIColor.
  destruct (Qltb_spec v (9 # 10));
    [| destruct (Qltb_spec v (95 # 100));
       [| destruct (Qltb_spec v 1);
          [| destruct (Qltb_spec v (11 # 10));
             [| destruct (Qltb_spec v (12 # 10)) ]]]];
    repeat split; intros; try discriminate; try reflexivity; try lra.
Qed.

(** The six buckets are six different colours, so a colour on the map
    identifies its bucket. *)
Lemma hex_injective (b1 b2 : Bucket) : hex b1 = hex b2 -> b1 = b2.
Proof. destruct b1, b2; simpl; intros H; try reflexivity; discriminate H. Qed.

(** ** C6: the dynamic classifiers are monotonic *)

Ltac split_cascade :=
  repeat match goal with
         | |- context [if ltb ?a ?t then _ else _] => destruct (ltb a t) eqn:?
         | |- context [if gtb ?a ?t then _ else _] => destruct (gtb a t) eqn:?
         end.

Ltac crossed Hle :=
  match goal with
  | H1 : ltb (Fin ?hi) ?t = true, H2 : ltb (Fin ?lo) ?t = false |- _ =>
      rewrite (ltb_le_trans t Hle H1) in H2; discriminate H2
  | H1 : gtb (Fin ?lo) ?t = true, H2 : gtb (Fin ?hi) ?t = false |- _ =>
      rewrite (gtb_le_trans t Hle H1) in H2; discriminate H2
  end.

Lemma getSurplusColor_monotone (app : App) (lo hi : Q) :
  lo <= hi ->
  (level (getSurplusColor app lo) <= level (getSurplusColor app hi))%nat.
Proof.
  intros Hle. unfold getSurplusColor. cbv zeta.
  split_cascade; simpl; try lia; crossed Hle.
Qed.

Lemma getIncomeColor_monotone (app : App) (lo hi : Q) :
  lo <= hi ->
  (level (getIncomeColor app lo) <= level (getIncomeColor app hi))%nat.
Proof.
  intros Hle. unfold getIncomeColor. cbv zeta.
  split_cascade; simpl; try lia; crossed Hle.
Qed.

Lemma getCOLColor_antitone (app : App) (lo hi : Q) :
  lo <= hi ->
  (level (getCOLColor app hi) <= level (getCOLColor app lo))%nat.
Proof.
  intros Hle. unfold getCOLColor. cbv zeta.
  split_cascade; simpl; try lia; crossed Hle.
Qed.

(** C6. Whatever the year's values are (so in particular when their
    minimum is below their maximum), each dynamic classifier gives every
    value exactly one bucket, and the buckets follow the values: for the
    surplus and for the income the bucket of a higher value is never
    lower on the red-to-green scale than the bucket of a lower value; for
    the cost of living the scale is inverted, the bucket of a higher cost
    is never higher than the bucket of a lower cost. *)
Theorem dynamic_classifiers_monotone :
  forall (app : App) (lo hi : Q),
    lo <= hi ->
    ((exists! b, getSurplusColor app lo = b) /\
     (level (getSurplusColor app lo) <= level (getSurplusColor app hi))%nat) /\
    ((exists! b, getIncomeColor app lo = b) /\
     (level (getIncomeColor app lo) <= level (getIncomeColor app hi))%nat) /\
    ((exists! b, getCOLColor app lo = b) /\
     (level (getCOLColor app hi) <= level (getCOLColor app lo))%nat).
Proof.
  intros app lo hi Hle.
  assert (one : forall b0 : Bucket, exists! b, b0 = b).
  { intro b0. exists b0. split; [reflexivity | now intros b' <-]. }
  repeat split; try apply one.
  - now apply getSurplusColor_monotone.
  - now apply getIncomeColor_monotone.
  - now apply getCOLColor_antitone.
Qed.

Lemma dynamic_classifiers_monotone_witness :
  ltb (Math_min (yearValues abcApp surplus)) (Math_max (yearValues abcApp surplus)) = true /\
  ltb (Math_min (yearValues abcApp income)) (Math_max (yearValues abcApp income)) = true /\
  ltb (Math_min (yearValues abcApp col)) (Math_max (yearValues abcApp col)) = true /\
  ((exists! b, getSurplusColor abcApp (-9000) = b) /\
   (level (getSurplusColor abcApp (-9000)) <= level (getSurplusColor abcApp 10000))%nat) /\
  ((exists! b, getIncomeColor abcApp (-9000) = b) /\
   (level (getIncomeColor abcApp (-9000)) <= level (getIncomeColor abcApp 10000))%nat) /\
  ((exists! b, getCOLColor abcApp (-9000) = b) /\
   (level (getCOLColor abcApp 10000) <= level (getCOLColor abcApp (-9000)))%nat).
Proof.
  split; [reflexivity|]. split; [reflexivity|]. split; [reflexivity|].
  apply (dynamic_classifiers_monotone abcApp).
  unfold Qle. simpl. lia.
Defined.

(** ** C7: degenerate value sets *)

Lemma Math_min_nil : Math_min [] = PosInf.
Proof. reflexivity. Qed.

Lemma Math_max_nil : Math_max [] = NegInf.
Proof. reflexivity. Qed.

Lemma fold_min_fin (vs : list Q) (a : Q) :
  exists m, fold_left (fun acc v => if ltb (Fin v) acc then Fin v else acc) vs (Fin a) = Fin m
            /\ (m = a \/ In m vs).
Proof.
  revert a. induction vs as [|v vs IH]; intro a; simpl.
  - exists a. auto.
  - destruct (Qltb v a).
    + destruct (IH v) as [m [E H]]. exists m. intuition (subst; auto).
    + destruct (IH a) as [m [E H]]. exists m. intuition (subst; auto).
Qed.

Lemma fold_max_fin (vs : list Q) (a : Q) :
  exists m, fold_left (fun acc v => if ltb acc (Fin v) then Fin v else acc) vs (Fin a) = Fin m
            /\ (m = a \/ In m vs).
Proof.
  revert a. induction vs as [|v vs IH]; intro a; simpl.
  - exists a. auto.
  - destruct (Qltb a v).
    + destruct (IH v) as [m [E H]]. exists m. intuition (subst; auto).
    + destruct (IH a) as [m [E H]]. exists m. intuition (subst; auto).
Qed.

(** The minimum and the maximum of a set that is not empty are two of
    its values. *)
Lemma Math_min_in (v : Q) (vs : list Q) :
  exists m, Math_min (v :: vs) = Fin m /\ In m (v :: vs).
Proof.
  unfold Math_min. simpl.
  destruct (fold_min_fin vs v) as [m [E H]]. exists m. simpl. intuition (subst; auto).
Qed.

Lemma Math_max_in (v : Q) (vs : list Q) :
  exists m, Math_max (v :: vs) = Fin m /\ In m (v :: vs).
Proof.
  unfold Math_max. simpl.
  destruct (fold_max_fin vs v) as [m [E H]]. exists m. simpl. intuition (subst; auto).
Qed.

(** On a constant set the range is [0], so is the bin width, and the
    thresholds all sit on the common value, which is not below (nor
    above) itself. *)
Lemma zero_bin (x lo hi : Q) :
  lo == x -> hi == x -> (hi + - lo) / 6 == 0.
Proof. intros -> ->. field. Qed.

Ltac settle :=
  repeat match goal with
         | |- context [Qltb ?a ?b] =>
             first [ replace (Qltb a b) with true
                       by (symmetry; apply Qltb_true; nra)
                   | replace (Qltb a b) with false
                       by (symmetry; apply Qltb_false; nra) ]
         end.

(** So a value below the common value is below every threshold, and
    any other value below none. *)
Lemma getSurplusColor_constant (app : App) (c v : Q) :
  constant (yearValues app surplus) -> among (yearValues app surplus) c ->
  getSurplusColor app v = if Qltb v c then deepDeficit else largeSurplus.
Proof.
  unfold getSurplusColor. cbv zeta. generalize (yearValues app surplus) as vs.
  intros vs Hc [x [Hx Hv]]. destruct vs as [|w ws]; [destruct Hx|].
  destruct (Math_min_in w ws) as [lo [-> Hlo]].
  destruct (Math_max_in w ws) as [hi [-> Hhi]].
  pose proof (Hc _ _ Hlo Hx) as E1. pose proof (Hc _ _ Hhi Hx) as E2.
  pose proof (zero_bin E1 E2) as Hbin.
  simpl. destruct (Qltb_spec v c) as [Hlt | Hge];
    [|apply Qnot_lt_le in Hge]; settle; reflexivity.
Qed.

Lemma getIncomeColor_constant (app : App) (c v : Q) :
  constant (yearValues app income) -> among (yearValues app income) c ->
  getIncomeColor app v = if Qltb v c then deepDeficit else largeSurplus.
Proof.
  unfold getIncomeColor. cbv zeta. generalize (yearValues app income) as vs.
  intros vs Hc [x [Hx Hv]]. destruct vs as [|w ws]; [destruct Hx|].
  destruct (Math_min_in w ws) as [lo [-> Hlo]].
  destruct (Math_max_in w ws) as [hi [-> Hhi]].
  pose proof (Hc _ _ Hlo Hx) as E1. pose proof (Hc _ _ Hhi Hx) as E2.
  pose proof (zero_bin E1 E2) as Hbin.
  simpl. destruct (Qltb_spec v c) as [Hlt | Hge];
    [|apply Qnot_lt_le in Hge]; settle; reflexivity.
Qed.

(** For the cost of living the thresholds are counted down from the
    maximum: a value above the common value is above every threshold. *)
Lemma getCOLColor_constant (app : App) (c v : Q) :
  constant (yearValues app col) -> among (yearValues app col) c ->
  getCOLColor app v = if Qltb c v then deepDeficit else largeSurplus.
Proof.
  unfold getCOLColor. cbv zeta. generalize (yearValues app col) as vs.
  intros vs Hc [x [Hx Hv]]. destruct vs as [|w ws]; [destruct Hx|].
  destruct (Math_min_in w ws) as [lo [-> Hlo]].
  destruct (Math_max_in w ws) as [hi [-> Hhi]].
  pose proof (Hc _ _ Hlo Hx) as E1. pose proof (Hc _ _ Hhi Hx) as E2.
  pose proof (zero_bin E1 E2) as Hbin.
  unfold gtb. simpl. destruct (Qltb_spec c v) as [Hlt | Hge];
    [|apply Qnot_lt_le in Hge]; settle; reflexivity.
Qed.

(** With no value at all the minimum is [Infinity], the maximum
    [-Infinity], the bin width [-Infinity] and every threshold NaN: no
    comparison succeeds. *)
Lemma empty_classification (app : App) (v : Q) :
  (yearValues app surplus = [] -> getSurplusColor app v = largeSurplus) /\
  (yearValues app income = [] -> getIncomeColor app v = largeSurplus) /\
  (yearValues app col = [] -> getCOLColor app v = largeSurplus).
Proof.
  unfold getSurplusColor, getIncomeColor, getCOLColor.
  repeat split; intros ->; reflexivity.
Qed.

(** The bin width is the range divided by the literal [6]: the division
    is defined whatever the range, and yields NaN only from NaN. *)
Lemma bin_width_defined (range : num) :
  div range (Fin 6) = NaN -> range = NaN.
Proof. destruct range; simpl; intros; congruence. Qed.

Lemma twins_constant (field : YearMetrics -> Q) :
  constant (yearValues twinsApp field).
Proof.
  intros x y Hx Hy. simpl in Hx, Hy.
  destruct Hx as [<- | [<- | []]], Hy as [<- | [<- | []]]; reflexivity.
Defined.

(** C7 as it is stated fails: when all the values of the year are the
    same number, the values that are queried do not all get the same
    bucket.  With every surplus at 0, a surplus of -1 is classified
    [deepDeficit] and a surplus of 0 [largeSurplus]. *)
Lemma constant_set_has_two_buckets :
  constant (yearValues twinsApp surplus) /\
  getSurplusColor twinsApp (-1) = deepDeficit /\
  getSurplusColor twinsApp 0 = largeSurplus /\
  ~ oneBucketForAll (getSurplusColor twinsApp).
Proof.
  split; [apply twins_constant|]. split; [reflexivity|]. split; [reflexivity|].
  intro H. specialize (H (-1) 0). discriminate H.
Qed.

(** C7, amended. When the value set of the year is empty, each dynamic
    classifier returns [largeSurplus] for every value that is queried.
    When all the values of the set are the same number (so that the
    range and the bin width are [0]), each classifier still returns a
    bucket for every queried value, and the same one, [largeSurplus], for
    every value of the set; a queried value that is not in the set gets
    one of two buckets: for the surplus and the income [deepDeficit]
    below the common value and [largeSurplus] above it, for the cost of
    living [deepDeficit] above it and [largeSurplus] below.  The only
    division is by the literal [6], which is defined whatever the
    range. *)
Theorem degenerate_values_two_buckets :
  forall (app : App) (v : Q),
    (yearValues app surplus = [] -> getSurplusColor app v = largeSurplus) /\
    (yearValues app income = [] -> getIncomeColor app v = largeSurplus) /\
    (yearValues app col = [] -> getCOLColor app v = largeSurplus) /\
    (forall c,
        constant (yearValues app surplus) -> among (yearValues app surplus) c ->
        getSurplusColor app v = (if Qltb v c then deepDeficit else largeSurplus) /\
        (among (yearValues app surplus) v -> getSurplusColor app v = largeSurplus)) /\
    (forall c,
        constant (yearValues app income) -> among (yearValues app income) c ->
        getIncomeColor app v = (if Qltb v c then deepDeficit else largeSurplus) /\
        (among (yearValues app income) v -> getIncomeColor app v = largeSurplus)) /\
    (forall c,
        constant (yearValues app col) -> among (yearValues app col) c ->
        getCOLColor app v = (if Qltb c v then deepDeficit else largeSurplus) /\
        (among (yearValues app col) v -> getCOLColor app v = largeSurplus)) /\
    (forall range, div range (Fin 6) = NaN -> range = NaN).
Proof.
  intros app v. destruct (empty_classification app v) as [E1 [E2 E3]].
  split; [exact E1|]. split; [exact E2|]. split; [exact E3|].
  split; [|split; [|split]].
  - intros c Hc Ha. split; [now apply (@getSurplusColor_constant app c v)|].
    intros Hv. rewrite (@getSurplusColor_constant app v v Hc Hv).
    replace (Qltb v v) with false by (symmetry; apply Qltb_false; lra).
    reflexivity.
  - intros c Hc Ha. split; [now apply (@getIncomeColor_constant app c v)|].
    intros Hv. rewrite (@getIncomeColor_constant app v v Hc Hv).
    replace (Qltb v v) with false by (symmetry; apply Qltb_false; lra).
    reflexivity.
  - intros c Hc Ha. split; [now apply (@getCOLColor_constant app c v)|].
    intros Hv. rewrite (@getCOLColor_constant app v v Hc Hv).
    replace (Qltb v v) with false by (symmetry; apply Qltb_false; lra).
    reflexivity.
  - apply bin_width_defined.
Qed.

Lemma degenerate_values_two_buckets_witness :
  getSurplusColor twinsApp 0 = largeSurplus /\
  getSurplusColor twinsApp (-1) = deepDeficit /\
  getIncomeColor twinsApp 50000 = largeSurplus /\
  getCOLColor twinsApp 50000 = largeSurplus /\
  getCOLColor twinsApp 50001 = deepDeficit /\
  getSurplusColor emptyApp 1234 = largeSurplus.
Proof.
  assert (A0 : among (yearValues twinsApp surplus) 0)
    by (exists (50000 - 50000); split; [simpl; auto | reflexivity]).
  assert (A5 : forall field, field (metrics 1 50000 50000) = 50000 ->
                             among (yearValues twinsApp field) 50000).
  { intros field E. exists 50000. split; [simpl; rewrite E; auto | reflexivity]. }
  destruct (degenerate_values_two_buckets twinsApp 0) as [_ [_ [_ [s0 _]]]].
  destruct (degenerate_values_two_buckets twinsApp (-1)) as [_ [_ [_ [s1 _]]]].
  destruct (degenerate_values_two_buckets twinsApp 50000) as [_ [_ [_ [_ [i [c _]]]]]].
  destruct (degenerate_values_two_buckets twinsApp 50001) as [_ [_ [_ [_ [_ [c1 _]]]]]].
  destruct (degenerate_values_two_buckets emptyApp 1234) as [e _].
  split; [|split; [|split; [|split; [|split]]]].
  - apply (s0 0 (@twins_constant surplus) A0). exact A0.
  - rewrite (proj1 (s1 0 (@twins_constant surplus) A0)). reflexivity.
  - apply (i 50000 (@twins_constant income) (A5 income eq_refl)).
    exact (A5 income eq_refl).
  - apply (c 50000 (@twins_constant col) (A5 col eq_refl)).
    exact (A5 col eq_refl).
  - rewrite (proj1 (c1 50000 (@twins_constant col) (A5 col eq_refl))). reflexivity.
  - apply e. reflexivity.
Defined.

(** ** Sorting *)

Section Sort.

Context {A : Type}.
Variable cmp : A -> A -> Q.

Lemma insert_perm (x : A) (l : list A) : Permutation (insert cmp x l) (x :: l).
Proof.
  induction l as [|y l IH]; simpl.
  - reflexivity.
  - destruct (Qltb 0 (cmp x y)).
    + rewrite IH. apply perm_swap.
    + reflexivity.
Qed.

Lemma sort_perm (l : list A) : Permutation (sort cmp l) l.
Proof.
  induction l as [|x l IH]; simpl.
  - reflexivity.
  - rewrite insert_perm. now constructor.
Qed.

Lemma sort_length (l : list A) : List.length (sort cmp l) = List.length l.
Proof. apply Permutation_length, sort_perm. Qed.

(** The comparator is the difference of a key, largest first. *)
Variable key : A -> Q.
Hypothesis cmp_key : forall a b, 0 < cmp a b <-> key a < key b.

Lemma insert_descending (x : A) (l : list A) :
  descending key l -> descending key (insert cmp x l).
Proof.
  unfold descending. induction l as [|y l IH]; simpl; intros Hs.
  - repeat constructor.
  - inversion Hs as [|? ? Hl Hy]; subst.
    destruct (Qltb_spec 0 (cmp x y)) as [Hlt | Hge].
    + constructor; [now apply IH|].
      apply cmp_key in Hlt.
      rewrite Forall_forall. intros z Hz.
      apply (Permutation_in _ (insert_perm x l)) in Hz.
      destruct Hz as [<- | Hz]; [lra|].
      rewrite Forall_forall in Hy. now apply Hy.
    + assert (key y <= key x).
      { destruct (Qlt_le_dec (key x) (key y)) as [H | H]; [|exact H].
        apply cmp_key in H. contradiction. }
      constructor; [exact Hs|].
      constructor; [assumption|].
      rewrite Forall_forall in Hy |- *. intros z Hz.
      specialize (Hy z Hz). lra.
Qed.

Lemma sort_descending (l : list A) : descending key (sort cmp l).
Proof.
  induction l as [|x l IH]; simpl.
  - constructor.
  - now apply insert_descending.
Qed.

(** Insertion passes only elements with a strictly larger key, so the
    elements of one key stay in their order. *)
Lemma insert_tied (v : Q) (x : A) (l : list A) :
  tied key v (insert cmp x l) = tied key v (x :: l).
Proof.
  unfold tied. induction l as [|y l IH]; simpl.
  - reflexivity.
  - destruct (Qltb_spec 0 (cmp x y)) as [Hlt | Hge]; simpl.
    + rewrite IH. simpl. apply cmp_key in Hlt.
      destruct (Qeq_bool (key x) v) eqn:Ex;
        destruct (Qeq_bool (key y) v) eqn:Ey; try reflexivity.
      apply Qeq_bool_iff in Ex, Ey. lra.
    + reflexivity.
Qed.

Lemma sort_tied (v : Q) (l : list A) :
  tied key v (sort cmp l) = tied key v l.
Proof.
  induction l as [|x l IH]; simpl.
  - reflexivity.
  - rewrite insert_tied. unfold tied in *. simpl. now rewrite IH.
Qed.

End Sort.

(** ** Searching *)

Lemma findIndex_bounds {A : Type} (p : A -> bool) (xs : list A) :
  (-1 <= findIndex p xs < Zlen xs)%Z.
Proof.
  unfold Zlen. induction xs as [|x xs IH]; simpl List.length; simpl findIndex.
  - lia.
  - destruct (p x); [lia|].
    destruct (Z.ltb_spec (findIndex p xs) 0); lia.
Qed.

Lemma findIndex_absent {A : Type} (p : A -> bool) (xs : list A) :
  (forall x, In x xs -> p x = false) -> findIndex p xs = (-1)%Z.
Proof.
  induction xs as [|x xs IH]; simpl; intros H.
  - reflexivity.
  - rewrite (H x) by auto. rewrite IH by auto. reflexivity.
Qed.

Lemma findIndex_present {A : Type} (p : A -> bool) (xs : list A) :
  (exists x, In x xs /\ p x = true) -> (0 <= findIndex p xs)%Z.
Proof.
  induction xs as [|x xs IH]; simpl; intros [y [Hy Hp]].
  - destruct Hy.
  - destruct (p x) eqn:Ex; [lia|].
    destruct Hy as [-> | Hy]; [congruence|].
    assert (0 <= findIndex p xs)%Z by (apply IH; eauto).
    destruct (Z.ltb_spec (findIndex p xs) 0); lia.
Qed.

(** In a list of entries with distinct names, the name at position [i]
    is found at position [i]. *)
Lemma findIndex_nth {V : Type} (l : list (string * V)) (i : nat) (e : string * V) :
  NoDup (map fst l) -> nth_error l i = Some e ->
  findIndex (fun s => String.eqb (fst s) (fst e)) l = Z.of_nat i.
Proof.
  revert i. induction l as [|x l IH]; intros i Hnd Hi.
  - destruct i; discriminate.
  - simpl in Hnd. inversion Hnd as [|? ? Hx Hl]; subst.
    destruct i as [|i]; simpl in Hi |- *.
    + injection Hi as ->. now rewrite String.eqb_refl.
    + destruct (String.eqb_spec (fst x) (fst e)) as [E | _].
      * exfalso. apply Hx. rewrite E.
        apply in_map. eapply nth_error_In; eassumption.
      * rewrite (IH i Hl Hi).
        destruct (Z.ltb_spec (Z.of_nat i) 0); lia.
Qed.

(** Hence the positions of the names of such a list, taken in its own
    order and counted from one, are [1..n]. *)
Lemma positions_in_order {V : Type} (l : list (string * V)) :
  NoDup (map fst l) ->
  map (fun n => (findIndex (fun s => String.eqb (fst s) n) l + 1)%Z) (map fst l)
  = ranks (List.length l).
Proof.
  intros Hnd. unfold ranks.
  apply nth_error_ext. intro i.
  rewrite map_map, !nth_error_map.
  destruct (nth_error l i) as [e|] eqn:Hi; simpl.
  - rewrite (findIndex_nth l i Hnd Hi).
    rewrite nth_error_seq.
    assert (i < List.length l)%nat by (apply nth_error_Some; congruence).
    destruct (Nat.ltb_spec i (List.length l)); [|lia].
    simpl. f_equal. lia.
  - apply nth_error_None in Hi.
    rewrite nth_error_seq.
    destruct (Nat.ltb_spec i (List.length l)); [lia|]. reflexivity.
Qed.

(** ** C2, C3, C4: the ranking *)

Lemma mapM_pure {A B : Type} (f : A -> result B) (g : A -> B) (xs : list A) :
  (forall x, In x xs -> f x = Ok (g x)) -> mapM f xs = Ok (map g xs).
Proof.
  induction xs as [|x xs IH]; simpl; intros H.
  - reflexivity.
  - rewrite (H x) by auto. simpl. rewrite IH by auto. reflexivity.
Qed.

Lemma getStateRanking_rankedStates (app : App) (stateName : string) :
  getStateRanking app stateName =
  (l <- rankedStates app ;;
   Ok (findIndex (fun s => String.eqb (fst s) stateName) l + 1)%Z).
Proof.
  unfold getStateRanking, rankedStates.
  destruct (mapM _ _); reflexivity.
Qed.

Lemma rankedStates_complete (app : App) :
  complete app ->
  rankedStates app =
  Ok (sort byMliDesc (map (nameAndMli app) (states (data app)))).
Proof.
  intros Hc. unfold rankedStates, Object_entries.
  rewrite (mapM_pure _ (nameAndMli app)); [reflexivity|].
  intros [n d] Hin. unfold nameAndMli, mliNow. simpl.
  assert (Hd : get (timeseries d) (currentYear app) <> None).
  { apply Hc. unfold Object_values. now apply (in_map snd) in Hin. }
  destruct (get (timeseries d) (currentYear app)); [reflexivity | congruence].
Qed.

Lemma byMliDesc_key (a b : string * Q) : 0 < byMliDesc a b <-> snd a < snd b.
Proof. unfold byMliDesc. split; lra. Qed.

Lemma names_of_sorted (app : App) :
  Permutation (map fst (sort byMliDesc (map (nameAndMli app) (states (data app)))))
              (Object_keys (states (data app))).
Proof.
  rewrite sort_perm. unfold Object_keys. rewrite map_map.
  unfold nameAndMli. simpl. reflexivity.
Qed.

Lemma same_key_same_entry {V : Type} (l : list (string * V)) (a b : string * V) :
  NoDup (map fst l) -> In a l -> In b l -> fst a = fst b -> a = b.
Proof.
  induction l as [|x l IH]; simpl; intros Hnd Ha Hb E.
  - destruct Ha.
  - inversion Hnd as [|? ? Hx Hl]; subst.
    destruct Ha as [-> | Ha], Hb as [-> | Hb]; auto.
    + exfalso. apply Hx. rewrite E. now apply in_map.
    + exfalso. apply Hx. rewrite <- E. now apply in_map.
Qed.

Lemma findIndex_zero {A : Type} (p : A -> bool) (xs : list A) :
  findIndex p xs = 0%Z -> exists x xs', xs = x :: xs' /\ p x = true.
Proof.
  destruct xs as [|x xs]; simpl.
  - discriminate.
  - destruct (p x) eqn:E; [eauto|].
    pose proof (findIndex_bounds p xs).
    destruct (Z.ltb_spec (findIndex p xs) 0); lia.
Qed.

(** The ranks of the states, asked one by one in the order of the
    dataset. *)
Lemma all_ranks (app : App) :
  distinctKeys app -> complete app ->
  exists rs,
    mapM (getStateRanking app) (Object_keys (states (data app))) = Ok rs /\
    Permutation rs (ranks (List.length (states (data app)))).
Proof.
  intros Hnd Hc.
  set (l := sort byMliDesc (map (nameAndMli app) (states (data app)))).
  set (rank := fun n => (findIndex (fun s : string * Q => String.eqb (fst s) n) l + 1)%Z).
  exists (map rank (Object_keys (states (data app)))). split.
  - apply mapM_pure. intros n _.
    rewrite getStateRanking_rankedStates, rankedStates_complete by assumption.
    reflexivity.
  - assert (Hl : NoDup (map fst l)).
    { eapply Permutation_NoDup; [symmetry; apply names_of_sorted | exact Hnd]. }
    rewrite <- (Permutation_map rank (names_of_sorted app)).
    fold l. unfold rank. rewrite (positions_in_order l Hl).
    unfold l. rewrite sort_length, length_map. reflexivity.
Qed.

(** The state of rank 1 has the highest value. *)
Lemma first_is_highest (app : App) (top other : string * StateRecord) :
  distinctKeys app -> complete app ->
  In top (states (data app)) -> In other (states (data app)) ->
  getStateRanking app (fst top) = Ok 1%Z ->
  mliNow app (snd other) <= mliNow app (snd top).
Proof.
  intros Hnd Hc Htop Hother Hrank.
  rewrite getStateRanking_rankedStates, rankedStates_complete in Hrank by assumption.
  simpl in Hrank. injection Hrank as Hrank.
  set (pairs := map (nameAndMli app) (states (data app))) in *.
  assert (H0 : findIndex (fun s : string * Q => String.eqb (fst s) (fst top))
                         (sort byMliDesc pairs) = 0%Z) by lia.
  destruct (findIndex_zero _ _ H0) as [e [rest [El Ee]]].
  apply String.eqb_eq in Ee.
  pose proof (sort_descending byMliDesc snd byMliDesc_key pairs) as Hs.
  pose proof (sort_perm byMliDesc pairs) as Hp.
  rewrite El in Hs, Hp. unfold descending in Hs.
  inversion Hs as [|? ? _ Hall]; subst.
  assert (He : e = nameAndMli app top).
  { apply (same_key_same_entry pairs).
    - unfold pairs. rewrite map_map. exact Hnd.
    - apply (Permutation_in _ Hp). now left.
    - unfold pairs. now apply in_map.
    - exact Ee. }
  assert (Ho : In (nameAndMli app other) (e :: rest)).
  { apply (Permutation_in _ (Permutation_sym Hp)). unfold pairs. now apply in_map. }
  destruct Ho as [Ho | Ho].
  - rewrite He in Ho. injection Ho as _ Ho. rewrite Ho. lra.
  - rewrite Forall_forall in Hall. specialize (Hall _ Ho).
    rewrite He in Hall. exact Hall.
Qed.

(** A list is determined by its being descending and by the order inside
    each group of equal keys: whatever stable sorting algorithm the
    engine runs, the result is the one of [sort]. *)
Lemma tied_head {A : Type} (key : A -> Q) (a : A) (l : list A) :
  tied key (key a) (a :: l) = a :: tied key (key a) l.
Proof. unfold tied. simpl. now rewrite Qeq_bool_refl. Qed.

Lemma tied_incl {A : Type} (key : A -> Q) (v : Q) (x : A) (l : list A) :
  In x (tied key v l) -> In x l.
Proof. unfold tied. rewrite filter_In. tauto. Qed.

Lemma stable_descending_unique {A : Type} (key : A -> Q) (l1 l2 : list A) :
  descending key l1 -> descending key l2 ->
  (forall v, tied key v l1 = tied key v l2) -> l1 = l2.
Proof.
  unfold descending. revert l2.
  induction l1 as [|a l1 IH]; intros [|b l2] H1 H2 Ht.
  - reflexivity.
  - specialize (Ht (key b)). rewrite tied_head in Ht. discriminate.
  - specialize (Ht (key a)). rewrite tied_head in Ht. discriminate.
  - inversion H1 as [|? ? H1' Ha]; inversion H2 as [|? ? H2' Hb]; subst.
    rewrite Forall_forall in Ha, Hb.
    assert (Hab : a = b).
    { destruct (Qeq_bool (key b) (key a)) eqn:E.
      - pose proof (Ht (key a)) as T. rewrite tied_head in T.
        unfold tied in T. simpl in T. rewrite E in T. now injection T.
      - exfalso.
        assert (In a (b :: l2)).
        { apply (tied_incl key (key a)). rewrite <- Ht, tied_head. now left. }
        assert (In b (a :: l1)).
        { apply (tied_incl key (key b)). rewrite Ht, tied_head. now left. }
        apply Qeq_bool_neq in E.
        assert (key a <= key b).
        { destruct H as [-> | H]; [lra | now apply Hb]. }
        assert (key b <= key a).
        { destruct H0 as [<- | H0]; [lra | now apply Ha]. }
        apply E. lra. }
    subst b. f_equal. apply IH; try assumption.
    intro v. specialize (Ht v). unfold tied in *. simpl in Ht.
    destruct (Qeq_bool (key a) v); [now injection Ht | exact Ht].
Qed.

Lemma sortStates_cmp_key {L : Locale} (app : App) (key : RankedRow -> Q) :
  sortDirection app = Desc -> sortField (currentSort app) = Some key ->
  forall a b, 0 < sortStates_cmp app a b <-> key a < key b.
Proof.
  intros Hd Hk a b. unfold sortStates_cmp. rewrite Hd.
  destruct (currentSort app); simpl in Hk; try discriminate;
    injection Hk as <-; split; lra.
Qed.

Lemma abcApp_distinctKeys : distinctKeys abcApp.
Proof.
  unfold distinctKeys. simpl.
  repeat constructor; simpl; intuition discriminate.
Defined.

Lemma abcApp_complete : complete abcApp.
Proof.
  intros s Hs. simpl in Hs.
  destruct Hs as [<- | [<- | [<- | []]]]; discriminate.
Defined.

Lemma twinsApp_complete : complete twinsApp.
Proof.
  intros s Hs. simpl in Hs.
  destruct Hs as [<- | [<- | []]]; discriminate.
Defined.

(** C2. In a dataset whose states all have figures for the selected
    year, the ranks of the states are a rearrangement of [1..N], [N] the
    number of states: every rank is taken once.  The state of rank 1 has
    the highest MLI.  For A = 1.2, B = 0.8, C = 1.0 in 2023 the ranking is
    A 1, C 2, B 3, both when the ranks are asked state by state and in the
    rows of the table. *)
Theorem ranking_is_permutation {L : Locale} :
  forall app : App,
    distinctKeys app -> complete app ->
    (exists rs,
        mapM (getStateRanking app) (Object_keys (states (data app))) = Ok rs /\
        Permutation rs (ranks (List.length (states (data app))))) /\
    (forall top other,
        In top (states (data app)) -> In other (states (data app)) ->
        getStateRanking app (fst top) = Ok 1%Z ->
        mliNow app (snd other) <= mliNow app (snd top)) /\
    mapM (getStateRanking abcApp) ["A"; "C"; "B"]%string = Ok [1; 2; 3]%Z /\
    (rows <- updateRankingsTable abcApp TabAll ;;
     Ok (map (fun r => (state_cell r, rank_cell r)) rows))
    = Ok [("A", 1); ("C", 2); ("B", 3)]%string%Z.
Proof.
  intros app Hnd Hc. split; [|split; [|split]].
  - now apply all_ranks.
  - intros top other Ht Ho Hr. now apply first_is_highest.
  - reflexivity.
  - reflexivity.
Qed.

Lemma ranking_is_permutation_witness :
  (exists rs,
      mapM (getStateRanking abcApp) (Object_keys (states (data abcApp))) = Ok rs /\
      Permutation rs (ranks 3)) /\
  (forall top other,
      In top (states (data abcApp)) -> In other (states (data abcApp)) ->
      getStateRanking abcApp (fst top) = Ok 1%Z ->
      mliNow abcApp (snd other) <= mliNow abcApp (snd top)) /\
  mapM (getStateRanking abcApp) ["A"; "C"; "B"]%string = Ok [1; 2; 3]%Z /\
  (rows <- updateRankingsTable (L := byCharacterCode) abcApp TabAll ;;
   Ok (map (fun r => (state_cell r, rank_cell r)) rows))
  = Ok [("A", 1); ("C", 2); ("B", 3)]%string%Z.
Proof.
  exact (ranking_is_permutation abcApp_distinctKeys abcApp_complete).
Defined.

(** C3 as it is stated fails: two states with the same MLI come out in
    the order of the dataset, here B before A. *)
Lemma ties_follow_dataset_order_not_names :
  exists l, rankedStates twinsApp = Ok l /\ ~ tiesByNameAscending l.
Proof.
  exists [("B"%string, 1); ("A"%string, 1)]. split; [reflexivity|].
  intro H.
  assert (E : String.leb "B" "A" = true).
  { apply (H 0%nat 1%nat ("B"%string, 1) ("A"%string, 1)).
    - lia.
    - reflexivity.
    - reflexivity.
    - reflexivity. }
  discriminate E.
Qed.

(** C3, amended. The ranking orders the states by value, highest first;
    states with the same value keep the order they have in the dataset
    (the sort is stable, there is no tie-break by name).  These two facts
    fix the order completely: any descending arrangement that keeps the
    dataset order inside each group of equal values is the ranking, so
    the order is a function of the dataset, key order included.  The same
    holds for the table rows under every numeric sort key in the
    descending direction. *)
Theorem ranking_descending_stable {L : Locale} :
  forall app : App,
    complete app ->
    (exists l,
        rankedStates app = Ok l /\
        Permutation l (map (nameAndMli app) (states (data app))) /\
        descending snd l /\
        (forall v, tied snd v l = tied snd v (map (nameAndMli app) (states (data app)))) /\
        (forall l',
            descending snd l' ->
            (forall v, tied snd v l' = tied snd v (map (nameAndMli app) (states (data app)))) ->
            l' = l)) /\
    (forall (key : RankedRow -> Q) (rows : list RankedRow),
        sortDirection app = Desc -> sortField (currentSort app) = Some key ->
        Permutation (sortStates app rows) rows /\
        descending key (sortStates app rows) /\
        (forall v, tied key v (sortStates app rows) = tied key v rows)).
Proof.
  intros app Hc. split.
  - exists (sort byMliDesc (map (nameAndMli app) (states (data app)))).
    split; [now apply rankedStates_complete|].
    split; [apply sort_perm|].
    split; [apply (sort_descending byMliDesc snd byMliDesc_key)|].
    split; [intro v; apply (sort_tied byMliDesc snd byMliDesc_key)|].
    intros l' Hd Ht. apply stable_descending_unique with (key := snd).
    + exact Hd.
    + apply (sort_descending byMliDesc snd byMliDesc_key).
    + intro v. rewrite Ht. symmetry.
      apply (sort_tied byMliDesc snd byMliDesc_key).
  - intros key rows Hd Hk. unfold sortStates.
    pose proof (sortStates_cmp_key app Hd Hk) as K.
    split; [apply sort_perm|].
    split; [now apply sort_descending | intro v; now apply sort_tied].
Qed.

Lemma ranking_descending_stable_witness :
  (exists l,
      rankedStates twinsApp = Ok l /\
      Permutation l (map (nameAndMli twinsApp) (states (data twinsApp))) /\
      descending snd l /\
      (forall v, tied snd v l = tied snd v (map (nameAndMli twinsApp) (states (data twinsApp)))) /\
      (forall l',
          descending snd l' ->
          (forall v, tied snd v l' = tied snd v (map (nameAndMli twinsApp) (states (data twinsApp)))) ->
          l' = l)) /\
  (forall (key : RankedRow -> Q) (rows : list RankedRow),
      sortDirection twinsApp = Desc -> sortField (currentSort twinsApp) = Some key ->
      Permutation (sortStates (L := byCharacterCode) twinsApp rows) rows /\
      descending key (sortStates (L := byCharacterCode) twinsApp rows) /\
      (forall v, tied key v (sortStates (L := byCharacterCode) twinsApp rows) = tied key v rows)).
Proof.
  exact (ranking_descending_stable twinsApp_complete).
Defined.

(** C4 as it is stated fails: for a name that is not in the dataset
    [getStateRanking] returns [0], it throws nothing. *)
Lemma rankOf_absent_state_returns_zero :
  ~ In "Ohio"%string (Object_keys (states (data abcApp))) /\
  getStateRanking abcApp "Ohio" = Ok 0%Z /\
  ~ (exists e, getStateRanking abcApp "Ohio" = Throw e).
Proof.
  split; [|split].
  - simpl. intuition discriminate.
  - reflexivity.
  - intros [e He]. discriminate He.
Qed.

Lemma In_keys_entry {V : Type} (n : string) (l : list (string * V)) :
  In n (map fst l) <-> exists e, In e l /\ fst e = n.
Proof.
  rewrite in_map_iff. split; intros [e [H1 H2]]; exists e; auto.
Qed.

(** C4, amended. In a dataset of [N] states with figures for the
    selected year, [getStateRanking] returns an integer of [1..N] for a
    name of the dataset, and [0] for a name that is not in it. *)
Theorem rankOf_in_range_or_zero :
  forall (app : App) (stateName : string),
    complete app ->
    (In stateName (Object_keys (states (data app))) ->
     exists r, getStateRanking app stateName = Ok r /\
               (1 <= r <= Zlen (states (data app)))%Z) /\
    (~ In stateName (Object_keys (states (data app))) ->
     getStateRanking app stateName = Ok 0%Z).
Proof.
  intros app n Hc.
  rewrite getStateRanking_rankedStates, rankedStates_complete by assumption.
  simpl bind.
  set (l := sort byMliDesc (map (nameAndMli app) (states (data app)))).
  assert (Hn : forall e, In e l <-> In e (map (nameAndMli app) (states (data app)))).
  { intro e. split; apply Permutation_in;
      [apply sort_perm | symmetry; apply sort_perm]. }
  split; intros H.
  - eexists. split; [reflexivity|].
    pose proof (findIndex_bounds (fun s : string * Q => String.eqb (fst s) n) l) as B.
    assert (0 <= findIndex (fun s : string * Q => String.eqb (fst s) n) l)%Z.
    { apply findIndex_present.
      apply In_keys_entry in H. destruct H as [e [He <-]].
      exists (nameAndMli app e). split.
      - apply Hn. now apply in_map.
      - simpl. apply String.eqb_refl. }
    unfold Zlen in *. unfold l in B. rewrite sort_length, length_map in B.
    fold l in B. lia.
  - rewrite findIndex_absent; [reflexivity|].
    intros e He. apply Hn in He. apply in_map_iff in He.
    destruct He as [x [<- Hx]]. simpl.
    apply String.eqb_neq. intros <-. apply H.
    unfold Object_keys. now apply in_map.
Qed.

Lemma rankOf_in_range_or_zero_witness :
  (exists r, getStateRanking abcApp "C" = Ok r /\ (1 <= r <= 3)%Z) /\
  (~ In "Ohio"%string (Object_keys (states (data abcApp))) ->
   getStateRanking abcApp "Ohio" = Ok 0%Z).
Proof.
  split.
  - apply (proj1 (rankOf_in_range_or_zero "C" abcApp_complete)).
    simpl. auto.
  - apply (proj2 (rankOf_in_range_or_zero "Ohio" abcApp_complete)).
Defined.

(** ** C5: period-over-period deltas *)

(** X22 (updateRankingsTable, updateInsights, createTrendInsight).  When
    the year five positions back exists, the three computations agree: the
    delta is the current value minus the value of that year. *)
Lemma lookback_available (app : App) (n : string) (s : StateRecord)
      (y y0 y5 : YearMetrics) :
  (0 <= fiveYearIndex app)%Z ->
  get (timeseries s) (currentYear app) = Some y ->
  get (timeseries s) (index (availableYears app) 0) = Some y0 ->
  get (timeseries s) (index (availableYears app) (fiveYearIndex app)) = Some y5 ->
  (exists row, tableRow app n s = Ok row /\
               r_change5yr row = mli y - mli y5 /\ r_change row = mli y - mli y0) /\
  (exists row, insightRow app n s = Ok row /\ i_change row = mli y - mli y5) /\
  (exists t, createTrendInsight app s = Ok t /\ t_change t = mli y - mli y5).
Proof.
  intros H5 Hy Hy0 Hy5. apply Z.leb_le in H5. unfold fiveYearIndex in *.
  split; [|split].
  - unfold tableRow, tableChange5yr. rewrite Hy, Hy0, H5, Hy5. simpl. eauto.
  - unfold insightRow. rewrite Hy, H5, Hy5. simpl. eauto.
  - unfold createTrendInsight. rewrite H5, Hy, Hy5. simpl. eauto.
Qed.

(** X23 (updateRankingsTable, updateInsights, createTrendInsight).  When
    the year five positions back does not exist, the insights panel and
    the trend sentence fall back to the first year (the sentence compares
    it with the last year, not with the current one), and the table puts
    [0]. *)
Lemma lookback_underflow (app : App) (n : string) (s : StateRecord)
      (y y0 yl : YearMetrics) :
  (fiveYearIndex app < 0)%Z ->
  get (timeseries s) (currentYear app) = Some y ->
  get (timeseries s) (index (availableYears app) 0) = Some y0 ->
  get (timeseries s)
      (index (availableYears app) (Zlen (availableYears app) - 1)) = Some yl ->
  (exists row, tableRow app n s = Ok row /\
               r_change5yr row = 0 /\ r_change row = mli y - mli y0) /\
  (exists row, insightRow app n s = Ok row /\ i_change row = mli y - mli y0) /\
  (exists t, createTrendInsight app s = Ok t /\ t_change t = mli yl - mli y0).
Proof.
  intros H5 Hy Hy0 Hyl. apply Z.leb_gt in H5. unfold fiveYearIndex in *.
  split; [|split].
  - unfold tableRow, tableChange5yr. rewrite Hy, Hy0, H5. simpl. eauto.
  - unfold insightRow. rewrite Hy, H5, Hy0. simpl. eauto.
  - unfold createTrendInsight. rewrite H5, Hy0, Hyl. simpl. eauto.
Qed.

(** C5. With the years 2008 to 2014 and the slider on 2010, the year five
    positions back does not exist.  For Ohio (1.00 in 2008, 1.04 in 2010)
    the insights panel falls back to the first year and reports 0.04,
    while the rankings table reports the constant [0] as the 5-year
    change of the same state. *)
Theorem table_lookback_substitutes_zero {L : Locale} :
  (fiveYearIndex (historyApp 2010) < 0)%Z /\
  (exists row, insightRow (historyApp 2010) "Ohio" ohio = Ok row /\
               i_change row == 4 # 100) /\
  (exists row, tableRow (historyApp 2010) "Ohio" ohio = Ok row /\
               r_change5yr row == 0 /\ r_change row == 4 # 100) /\
  (exists rows, updateRankingsTable (historyApp 2010) TabAll = Ok rows /\
                map change5yr_cell rows = [0]).
Proof.
  split; [reflexivity|].
  split; [eexists; split; [reflexivity | reflexivity]|].
  split; [eexists; split; [reflexivity | split; reflexivity]|].
  eexists; split; reflexivity.
Qed.

(** ** C8: the table filter *)

Lemma prefix_empty (s : string) : prefix "" s = true.
Proof. destruct s; reflexivity. Qed.

Lemma includes_empty (s : string) : includes s "" = true.
Proof. destruct s; reflexivity. Qed.

Lemma prefix_iff (t s : string) :
  prefix t s = true <-> exists after, s = (t ++ after)%string.
Proof.
  revert s. induction t as [|c t IH]; intro s; simpl.
  - rewrite prefix_empty. split; eauto.
  - destruct s as [|d s]; simpl.
    + split; [discriminate | intros [a H]; discriminate].
    + destruct (ascii_dec c d) as [-> | Hn].
      * rewrite IH. split; intros [a H]; exists a; congruence.
      * split; [discriminate | intros [a H]; congruence].
Qed.

Lemma includes_iff (s t : string) : includes s t = true <-> occursIn t s.
Proof.
  unfold occursIn. induction s as [|c s IH]; cbn [includes].
  - rewrite orb_false_r, prefix_iff. split.
    + intros [a H]. exists ""%string, a. exact H.
    + intros [[|d b] [a H]]; [eauto | discriminate].
  - rewrite orb_true_iff, prefix_iff, IH. split.
    + intros [[a H] | [b [a H]]].
      * exists ""%string, a. exact H.
      * exists (String c b), a. simpl. now rewrite H.
    + intros [[|d b] [a H]].
      * left. exists a. exact H.
      * right. simpl in H. injection H as _ H. eauto.
Qed.

Lemma lower_idempotent (c : ascii) : lower (lower c) = lower c.
Proof.
  destruct c as [[] [] [] [] [] [] [] []]; reflexivity.
Qed.

Lemma toLowerCase_idempotent (s : string) :
  toLowerCase (toLowerCase s) = toLowerCase s.
Proof.
  induction s as [|c s IH]; simpl; [reflexivity|].
  now rewrite lower_idempotent, IH.
Qed.

Lemma filterTable_cells (rows : list Tr) (t : string) :
  map cells (filterTable rows t) = map cells rows.
Proof.
  unfold filterTable. rewrite map_map. apply map_ext. reflexivity.
Qed.

Lemma filterTable_idempotent (rows : list Tr) (t : string) :
  filterTable (filterTable rows t) t = filterTable rows t.
Proof.
  unfold filterTable. rewrite map_map. apply map_ext. reflexivity.
Qed.

Lemma filterTable_shown_idempotent (rows : list Tr) (t : string) :
  shown (filterTable (shown (filterTable rows t)) t) = shown (filterTable rows t).
Proof.
  unfold shown, filterTable.
  induction rows as [|r rows IH]; simpl; [reflexivity|].
  destruct (includes (toLowerCase (state_cell r)) (toLowerCase t)) eqn:E; simpl.
  - rewrite E. simpl. now rewrite IH.
  - exact IH.
Qed.

Lemma shown_criterion (rows : list Tr) (t : string) (r : Tr) :
  In r (shown (filterTable rows t)) <->
  exists r0, In r0 rows /\ r = set_display r0 "" /\
             occursIn (toLowerCase t) (toLowerCase (state_cell r0)).
Proof.
  unfold shown, filterTable. rewrite filter_In, in_map_iff. split.
  - intros [[r0 [<- H0]] Hd]. exists r0. split; [exact H0|].
    simpl in Hd.
    destruct (includes (toLowerCase (state_cell r0)) (toLowerCase t)) eqn:E.
    + split; [reflexivity | now apply includes_iff].
    + discriminate Hd.
  - intros [r0 [H0 [-> Ho]]]. apply includes_iff in Ho. split.
    + exists r0. rewrite Ho. auto.
    + reflexivity.
Qed.

Lemma shown_subsequence (rows : list Tr) (t : string) :
  subsequence (map cells (shown (filterTable rows t))) (map cells rows).
Proof.
  unfold shown, filterTable.
  induction rows as [|r rows IH]; simpl; [constructor|].
  destruct (includes (toLowerCase (state_cell r)) (toLowerCase t)); simpl.
  - now apply sub_keep.
  - now apply sub_skip.
Qed.

Lemma shown_all (rows : list Tr) :
  shown (filterTable rows "") = filterTable rows "" /\
  filterTable rows "" = map (fun r => set_display r "") rows.
Proof.
  unfold shown, filterTable. simpl toLowerCase. split.
  - induction rows as [|r rows IH]; simpl; [reflexivity|].
    rewrite includes_empty. simpl. now rewrite IH.
  - apply map_ext. intro r. now rewrite includes_empty.
Qed.

Lemma set_display_same (r : Tr) : set_display r (display r) = r.
Proof. destruct r; reflexivity. Qed.

(** C8. On the rows of the table: filtering with the empty string shows
    every row and leaves the rows as they are (rows that were shown are
    unchanged); filtering twice with the same term is filtering once,
    both for the rows and for the rows that are shown; a row is shown
    exactly when the lower-cased term occurs in its lower-cased state
    name, so that neither the case of the letters nor any other cell
    matters; and the cells of the rows, and their order, are never
    changed: the rows shown are the rows with some left out. *)
Theorem filterTable_properties :
  forall (rows : list Tr) (t : string),
    (shown (filterTable rows "") = filterTable rows "" /\
     map cells (filterTable rows "") = map cells rows /\
     ((forall r, In r rows -> display r = ""%string) -> filterTable rows "" = rows)) /\
    (filterTable (filterTable rows t) t = filterTable rows t /\
     shown (filterTable (shown (filterTable rows t)) t) = shown (filterTable rows t)) /\
    (forall r, In r (shown (filterTable rows t)) <->
               exists r0, In r0 rows /\ r = set_display r0 "" /\
                          occursIn (toLowerCase t) (toLowerCase (state_cell r0))) /\
    (forall r r' t',
        toLowerCase (state_cell r) = toLowerCase (state_cell r') ->
        toLowerCase t = toLowerCase t' ->
        map display (filterTable [r] t) = map display (filterTable [r'] t')) /\
    (map cells (filterTable rows t) = map cells rows /\
     subsequence (map cells (shown (filterTable rows t))) (map cells rows)).
Proof.
  intros rows t. repeat split.
  - apply shown_all.
  - apply filterTable_cells.
  - intros H. rewrite (proj2 (shown_all rows)).
    rewrite <- (map_id rows) at 2. apply map_ext_in.
    intros r Hr. rewrite <- (H r Hr). apply set_display_same.
  - apply filterTable_idempotent.
  - apply filterTable_shown_idempotent.
  - apply shown_criterion.
  - apply shown_criterion.
  - intros r r' t' Hn Ht. unfold filterTable. simpl. now rewrite Hn, Ht.
  - apply filterTable_cells.
  - apply shown_subsequence.
Qed.

Lemma filterTable_properties_witness :
  filterTable fourRows "" = fourRows /\
  map state_cell (shown (filterTable fourRows "ID")) = ["Idaho"]%string /\
  map state_cell (shown (filterTable fourRows "o")) = ["Ohio"; "Iowa"; "Idaho"; "North Dakota"]%string.
Proof.
  split; [|split; reflexivity].
  destruct (filterTable_properties fourRows "") as [[_ [_ unchanged]] _].
  apply unchanged.
  intros r Hr. simpl in Hr.
  destruct Hr as [<- | [<- | [<- | [<- | []]]]]; reflexivity.
Defined.

(** ** C10: the bands of the stats banner *)

Lemma bands_exclusive (m : Q) : exactlyOne (isSurplus m) (isBreakEven m) (isDeficit m).
Proof.
  unfold exactlyOne, isSurplus, isBreakEven, isDeficit.
  destruct (Qltb_spec (105 # 100) m), (Qltb_spec m (95 # 100)).
  - lra.
  - left. repeat split. apply andb_false_iff. right.
    apply not_true_is_false. rewrite Qleb_true. lra.
  - right. right. repeat split. apply andb_false_iff. left.
    apply not_true_is_false. rewrite Qleb_true. lra.
  - right. left. repeat split. apply andb_true_iff.
    rewrite !Qleb_true. lra.
Qed.

Lemma bands_meaning (m : Q) :
  (isSurplus m = true <-> 105 # 100 < m) /\
  (isBreakEven m = true <-> 95 # 100 <= m /\ m <= 105 # 100) /\
  (isDeficit m = true <-> m < 95 # 100).
Proof.
  unfold isSurplus, isBreakEven, isDeficit.
  rewrite andb_true_iff, !Qleb_true, !Qltb_true. tauto.
Qed.

Lemma three_bands_count {A : Type} (p q r : A -> bool) (l : list A) :
  (forall x, In x l -> exactlyOne (p x) (q x) (r x)) ->
  (List.length (filter p l) + List.length (filter q l) + List.length (filter r l)
   = List.length l)%nat.
Proof.
  induction l as [|x l IH]; simpl; intros H; [reflexivity|].
  assert (IH' := IH (fun y Hy => H y (or_intror Hy))).
  destruct (H x (or_introl eq_refl)) as [[-> [-> ->]] | [[-> [-> ->]] | [-> [-> ->]]]];
    simpl; lia.
Qed.

(** C10. When every state has figures for the selected year, the banner
    is computed, each state falls in exactly one of the three bands
    (surplus: MLI above 1.05; break-even: MLI from 0.95 to 1.05; deficit:
    MLI below 0.95), and the three counts add up to the number of
    states. *)
Theorem stats_banner_partition :
  forall app : App,
    complete app ->
    (exists b,
        updateStatsBanner app = Ok b /\
        (surplusStates b + breakEvenStates b + deficitStates b
         = List.length (states (data app)))%nat /\
        surplusStates b
        = List.length (filter (fun s => isSurplus (mliNow app s))
                              (Object_values (states (data app)))) /\
        breakEvenStates b
        = List.length (filter (fun s => isBreakEven (mliNow app s))
                              (Object_values (states (data app)))) /\
        deficitStates b
        = List.length (filter (fun s => isDeficit (mliNow app s))
                              (Object_values (states (data app))))) /\
    (forall s, In s (Object_values (states (data app))) ->
               exactlyOne (isSurplus (mliNow app s)) (isBreakEven (mliNow app s))
                          (isDeficit (mliNow app s))) /\
    (forall m : Q,
        (isSurplus m = true <-> 105 # 100 < m) /\
        (isBreakEven m = true <-> 95 # 100 <= m /\ m <= 105 # 100) /\
        (isDeficit m = true <-> m < 95 # 100)).
Proof.
  intros app Hc. split; [|split].
  - unfold updateStatsBanner.
    rewrite (mapM_pure _ (fun s => (name s, mliNow app s))).
    + simpl. eexists. split; [reflexivity|]. simpl.
      assert (F : forall p : Q -> bool,
                 List.length (filter (fun s : string * Q => p (snd s))
                                (map (fun s => (name s, mliNow app s))
                                     (Object_values (states (data app)))))
                 = List.length (filter (fun s => p (mliNow app s))
                                  (Object_values (states (data app))))).
      { intro p. induction (Object_values (states (data app))) as [|x l IH];
          simpl; [reflexivity|].
        destruct (p (mliNow app x)); simpl; now rewrite IH. }
      rewrite !F. split; [|auto].
      rewrite three_bands_count.
      * unfold Object_values. apply length_map.
      * intros x _. apply bands_exclusive.
    + intros s Hs. unfold mliNow. specialize (Hc s Hs).
      destruct (get (timeseries s) (currentYear app)); [reflexivity | congruence].
  - intros s _. apply bands_exclusive.
  - apply bands_meaning.
Qed.

Lemma stats_banner_partition_witness :
  exists b,
    updateStatsBanner abcApp = Ok b /\
    surplusStates b = 1%nat /\ breakEvenStates b = 1%nat /\ deficitStates b = 1%nat /\
    (surplusStates b + breakEvenStates b + deficitStates b
     = List.length (states (data abcApp)))%nat.
Proof.
  destruct (stats_banner_partition abcApp_complete) as [[b [E [S _]]] _].
  exists b. vm_compute in E. injection E as <-. simpl. auto.
Defined.

(** ** C9: start-up *)

Lemma mapM_ok {A B : Type} (f : A -> result B) (xs : list A) :
  (forall x, In x xs -> exists y, f x = Ok y) -> exists ys, mapM f xs = Ok ys.
Proof.
  induction xs as [|x xs IH]; simpl; intros H.
  - eauto.
  - destruct (H x) as [y ->]; [auto|].
    destruct IH as [ys ->]; [auto|]. simpl. eauto.
Qed.

Lemma mapM_inv {A B : Type} (f : A -> result B) (xs : list A) (ys : list B) :
  mapM f xs = Ok ys -> Forall2 (fun x y => f x = Ok y) xs ys.
Proof.
  revert ys. induction xs as [|x xs IH]; simpl; intros ys H.
  - injection H as <-. constructor.
  - destruct (f x) as [y|] eqn:E; simpl in H; [|discriminate].
    destruct (mapM f xs) as [ys'|]; simpl in H; [|discriminate].
    injection H as <-. constructor; auto.
Qed.

















(** ** The table and the detail panel agree on the ranks *)

(** Sorting depends on the comparator through its sign only, and
    commutes with a projection that preserves the sign. *)
Lemma insert_map {A B : Type} (f : A -> B) (cmpA : A -> A -> Q) (cmpB : B -> B -> Q)
      (x : A) (l : list A) :
  (forall a b, Qltb 0 (cmpA a b) = Qltb 0 (cmpB (f a) (f b))) ->
  map f (insert cmpA x l) = insert cmpB (f x) (map f l).
Proof.
  intros H. induction l as [|y l IH]; simpl; [reflexivity|].
  rewrite <- H. destruct (Qltb 0 (cmpA x y)); simpl; [now rewrite IH | reflexivity].
Qed.

Lemma sort_map {A B : Type} (f : A -> B) (cmpA : A -> A -> Q) (cmpB : B -> B -> Q)
      (l : list A) :
  (forall a b, Qltb 0 (cmpA a b) = Qltb 0 (cmpB (f a) (f b))) ->
  map f (sort cmpA l) = sort cmpB (map f l).
Proof.
  intros H. induction l as [|x l IH]; simpl; [reflexivity|].
  now rewrite (insert_map f cmpA cmpB _ _ H), IH.
Qed.

Lemma mapi_from_nth {A B : Type} (f : A -> Z -> B) (xs : list A) (start : Z) (i : nat) :
  nth_error (mapi_from start f xs) i
  = option_map (fun x => f x (start + Z.of_nat i)%Z) (nth_error xs i).
Proof.
  revert start i. induction xs as [|x xs IH]; intros start [|i]; simpl; try reflexivity.
  - now rewrite Z.add_0_r.
  - rewrite IH. destruct (nth_error xs i); simpl; [|reflexivity].
    do 2 f_equal. lia.
Qed.

Lemma tableRow_name_mli (app : App) (n : string) (s : StateRecord) (r : RankedRow) :
  tableRow app n s = Ok r -> (r_name r, r_mli r) = nameAndMli app (n, s).
Proof.
  unfold tableRow, nameAndMli, mliNow. simpl.
  destruct (get (timeseries s) (currentYear app)); simpl; [|discriminate].
  destruct (get (timeseries s) (index (availableYears app) 0)); simpl; [|discriminate].
  intros H. injection H as <-. reflexivity.
Qed.

Lemma tableRows_name_mli (app : App) (xs : list (string * StateRecord))
      (T : list RankedRow) :
  Forall2 (fun x y => (let '(n, d) := x in tableRow app n d) = Ok y) xs T ->
  map (fun x => (r_name x, r_mli x)) T = map (nameAndMli app) xs.
Proof.
  induction 1 as [|[n s] y xs ys Hxy _ IH]; simpl; [reflexivity|].
  now rewrite (tableRow_name_mli _ _ _ Hxy), IH.
Qed.

Lemma tableRows_complete (app : App) (xs : list (string * StateRecord))
      (T : list RankedRow) (e : string * StateRecord) :
  Forall2 (fun x y => (let '(n, d) := x in tableRow app n d) = Ok y) xs T ->
  In e xs -> get (timeseries (snd e)) (currentYear app) <> None.
Proof.
  induction 1 as [|[n s] y xs ys Hxy _ IH]; intros Hin; [destruct Hin|].
  destruct Hin as [<- | Hin]; [|now apply IH].
  simpl. unfold tableRow in Hxy.
  destruct (get (timeseries s) (currentYear app)); [discriminate | discriminate Hxy].
Qed.

(** X1 (updateRankingsTable, getStateRanking).  With the table sorted by
    MLI, highest first (the initial setting), the rank shown in each row
    of the full table is the rank that [getStateRanking] gives to the
    state of that row. *)
Lemma table_rank_is_getStateRanking {L : Locale} (app : App) (rows : list Tr) (r : Tr) :
  distinctKeys app ->
  currentSort app = SortMli -> sortDirection app = Desc ->
  updateRankingsTable app TabAll = Ok rows ->
  In r rows ->
  getStateRanking app (state_cell r) = Ok (rank_cell r).
Proof.
  intros Hnd Hs Hd Hrows Hr. unfold updateRankingsTable in Hrows.
  destruct (mapM _ _) as [T|] eqn:HT; simpl in Hrows; [|discriminate].
  injection Hrows as <-.
  apply mapM_inv in HT. unfold Object_entries in HT.
  pose proof (@tableRows_name_mli app _ _ HT) as Hproj.
  assert (Hc : complete app).
  { intros s Hin. unfold Object_values in Hin. apply in_map_iff in Hin.
    destruct Hin as [e [<- Hin]]. exact (@tableRows_complete app _ _ e HT Hin). }
  assert (Hsorted : map (fun x => (r_name x, r_mli x)) (sortStates app T)
                    = sort byMliDesc (map (nameAndMli app) (states (data app)))).
  { rewrite <- Hproj. unfold sortStates. apply sort_map.
    intros a b. unfold sortStates_cmp, byMliDesc. rewrite Hs, Hd. simpl snd.
    destruct (Qltb_spec 0 (1 * (r_mli b - r_mli a))),
             (Qltb_spec 0 (r_mli b - r_mli a)); try reflexivity; lra. }
  apply In_nth_error in Hr. destruct Hr as [i Hi].
  unfold mapi in Hi. rewrite mapi_from_nth in Hi.
  destruct (nth_error (sortStates app T) i) as [st|] eqn:Hst; [|discriminate].
  simpl in Hi. injection Hi as <-. simpl.
  rewrite getStateRanking_rankedStates, rankedStates_complete by assumption.
  simpl bind. rewrite <- Hsorted.
  assert (Hn : nth_error (map (fun x => (r_name x, r_mli x)) (sortStates app T)) i
               = Some (r_name st, r_mli st)).
  { rewrite nth_error_map, Hst. reflexivity. }
  rewrite (findIndex_nth _ i (e := (r_name st, r_mli st))); [reflexivity | | exact Hn].
  rewrite Hsorted.
  eapply Permutation_NoDup; [symmetry; apply names_of_sorted | exact Hnd].
Qed.

(** * Further properties of the code *)

(** ** The tabs of the rankings table *)

Lemma mapi_from_length {A B : Type} (f : A -> Z -> B) (xs : list A) (start : Z) :
  List.length (mapi_from start f xs) = List.length xs.
Proof.
  revert start. induction xs as [|x xs IH]; intro start; simpl; [reflexivity|].
  now rewrite IH.
Qed.

Lemma mapi_firstn {A B : Type} (f : A -> Z -> B) (n : nat) (xs : list A) :
  mapi f (firstn n xs) = firstn n (mapi f xs).
Proof.
  unfold mapi. generalize 0%Z as start. revert xs.
  induction n as [|n IH]; intros [|x xs] start; simpl; try reflexivity.
  now rewrite IH.
Qed.

(** Numbering a reversed tail downwards from the length is reversing the
    tail of the list numbered upwards from one. *)
Lemma mapi_rev_skipn {A B : Type} (g : Z -> A -> B) (k : nat) (xs : list A) :
  mapi (fun x i => g (Zlen xs - i)%Z x) (rev (skipn k xs))
  = rev (skipn k (mapi (fun x i => g (i + 1)%Z x) xs)).
Proof.
  apply nth_error_ext. intro j. unfold mapi.
  rewrite mapi_from_nth, !nth_error_rev, !length_skipn, mapi_from_length.
  destruct (Nat.ltb_spec j (List.length xs - k)); [|reflexivity].
  rewrite !nth_error_skipn, mapi_from_nth.
  destruct (nth_error xs (k + (List.length xs - k - S j))); simpl; [|reflexivity].
  do 2 f_equal. unfold Zlen. lia.
Qed.

(** X2 (updateRankingsTable).  The "top 10" tab shows the first ten rows
    of the full table and the "bottom 10" tab its last ten rows, last row
    first; each row keeps the cells and the rank it has in the full table,
    whatever the sort.  When the full table cannot be built, neither can
    the tabs. *)
Theorem table_tabs_are_slices {L : Locale} :
  forall app : App,
    updateRankingsTable app Top10
    = (rows <- updateRankingsTable app TabAll ;; Ok (slice_first 10 rows)) /\
    updateRankingsTable app Bottom10
    = (rows <- updateRankingsTable app TabAll ;; Ok (rev (slice_last 10 rows))).
Proof.
  intro app. unfold updateRankingsTable.
  destruct (mapM _ _) as [T|e]; cbn [bind]; [|split; reflexivity].
  unfold slice_first, slice_last. split; f_equal.
  - apply mapi_firstn.
  - unfold mapi. rewrite mapi_from_length.
    apply (mapi_rev_skipn
             (fun rank state =>
                mkTr rank (r_name state) (r_mli state) (r_surplus state)
                     (r_income state) (r_col state) (r_change5yr state)
                     (r_change state) "")).
Qed.

Lemma table_rank_is_getStateRanking_witness :
  exists rows r,
    updateRankingsTable (L := byCharacterCode) abcApp TabAll = Ok rows /\ In r rows /\
    state_cell r = "C"%string /\
    getStateRanking abcApp (state_cell r) = Ok (rank_cell r).
Proof.
  eexists. exists (mkTr 2 "C" 1 (55000 - 55000) 55000 55000 0 (1 - 1) "").
  assert (Hrows : updateRankingsTable (L := byCharacterCode) abcApp TabAll
                  = Ok [mkTr (0 + 1) "A" (12 # 10) (60000 - 50000) 60000 50000 0
                             ((12 # 10) - (12 # 10)) "";
                        mkTr (0 + 1 + 1) "C" 1 (55000 - 55000) 55000 55000 0 (1 - 1) "";
                        mkTr (0 + 1 + 1 + 1) "B" (8 # 10) (36000 - 45000) 36000 45000 0
                             ((8 # 10) - (8 # 10)) ""])
    by reflexivity.
  split; [exact Hrows|].
  assert (Hin : In (mkTr 2 "C" 1 (55000 - 55000) 55000 55000 0 (1 - 1) "")
                   [mkTr (0 + 1) "A" (12 # 10) (60000 - 50000) 60000 50000 0
                         ((12 # 10) - (12 # 10)) "";
                    mkTr (0 + 1 + 1) "C" 1 (55000 - 55000) 55000 55000 0 (1 - 1) "";
                    mkTr (0 + 1 + 1 + 1) "B" (8 # 10) (36000 - 45000) 36000 45000 0
                         ((8 # 10) - (8 # 10)) ""])
    by (right; left; reflexivity).
  split; [exact Hin|]. split; [reflexivity|].
  exact (@table_rank_is_getStateRanking byCharacterCode abcApp _ _ abcApp_distinctKeys
                                        eq_refl eq_refl Hrows Hin).
Defined.

(** ** The sortable headers *)

Lemma StronglySorted_snoc {A : Type} (R : A -> A -> Prop) (l : list A) (x : A) :
  StronglySorted R l -> (forall y, In y l -> R y x) -> StronglySorted R (l ++ [x]).
Proof.
  induction 1 as [|a l Hs IH Ha]; intros Hx; simpl.
  - repeat constructor.
  - constructor.
    + apply IH. intros y Hy. apply Hx. now right.
    + rewrite Forall_forall in *. intros y Hy. apply in_app_iff in Hy.
      destruct Hy as [Hy | [<- | []]]; [now apply Ha | apply Hx; now left].
Qed.

Lemma StronglySorted_rev {A : Type} (R : A -> A -> Prop) (l : list A) :
  StronglySorted R l -> StronglySorted (fun a b => R b a) (rev l).
Proof.
  induction 1 as [|a l Hs IH Ha]; simpl; [constructor|].
  apply StronglySorted_snoc; [exact IH|].
  intros y Hy. apply in_rev in Hy. rewrite Forall_forall in Ha. now apply Ha.
Qed.

Lemma StronglySorted_impl {A : Type} (R S : A -> A -> Prop) (l : list A) :
  (forall a b, R a b -> S a b) -> StronglySorted R l -> StronglySorted S l.
Proof.
  intros H. induction 1 as [|a l Hs IH Ha]; constructor; [exact IH|].
  rewrite Forall_forall in *. auto.
Qed.

Lemma tied_neg {A : Type} (key : A -> Q) (v : Q) (l : list A) :
  tied (fun a => - key a) v l = tied key (- v) l.
Proof.
  unfold tied. apply filter_ext. intro a.
  destruct (Qeq_bool (- key a) v) eqn:E1, (Qeq_bool (key a) (- v)) eqn:E2;
    try reflexivity.
  - apply Qeq_bool_iff in E1. apply Qeq_bool_neq in E2. exfalso. apply E2. lra.
  - apply Qeq_bool_iff in E2. apply Qeq_bool_neq in E1. exfalso. apply E1. lra.
Qed.

Lemma rev_short {A : Type} (l : list A) : (List.length l <= 1)%nat -> rev l = l.
Proof. destruct l as [|a [|b l]]; simpl; intros; try reflexivity; lia. Qed.

(** Without ties, sorting upwards is sorting downwards and reversing. *)
Lemma sort_flip {A : Type} (key : A -> Q) (down up : A -> A -> Q) (l : list A) :
  (forall a b, 0 < down a b <-> key a < key b) ->
  (forall a b, 0 < up a b <-> key b < key a) ->
  noTies key l ->
  sort up l = rev (sort down l).
Proof.
  intros Hdown Hup Hties.
  assert (Hup' : forall a b, 0 < up a b <-> - key a < - key b).
  { intros a b. rewrite Hup. split; lra. }
  apply stable_descending_unique with (key := fun a => - key a).
  - now apply sort_descending.
  - pose proof (sort_descending down key Hdown l) as Hd.
    apply StronglySorted_rev in Hd.
    eapply StronglySorted_impl; [|exact Hd]. simpl. intros a b H. lra.
  - intro v.
    rewrite (sort_tied up (fun a => - key a) Hup').
    rewrite !tied_neg. unfold tied at 2. rewrite filter_rev.
    fold (tied key (- v) (sort down l)).
    rewrite (sort_tied down key Hdown).
    symmetry. apply rev_short, Hties.
Qed.

Lemma sameKey_refl (k : SortKey) : sameKey k k = true.
Proof. destruct k; reflexivity. Qed.

Lemma sortStates_cmp_key_asc {L : Locale} (app : App) (key : RankedRow -> Q) :
  sortDirection app = Asc -> sortField (currentSort app) = Some key ->
  forall a b, 0 < sortStates_cmp app a b <-> key b < key a.
Proof.
  intros Hd Hk a b. unfold sortStates_cmp. rewrite Hd.
  destruct (currentSort app); simpl in Hk; try discriminate;
    injection Hk as <-; split; lra.
Qed.

(** X3 (setupEventListeners, sortStates).  Clicking the header of the
    column the table is sorted by flips the direction: when no two rows
    have the same value in that column, the rows come out in exactly the
    reverse order; clicking it once more gives the first order back.
    (With ties the order is not reversed: the tied rows keep their order.) *)
Theorem header_click_reverses {L : Locale} :
  forall (app : App) (key : RankedRow -> Q) (rows : list RankedRow),
    sortField (currentSort app) = Some key ->
    noTies key rows ->
    sortStates (headerClick (currentSort app) app) rows = rev (sortStates app rows) /\
    sortStates (headerClick (currentSort app) (headerClick (currentSort app) app)) rows
    = sortStates app rows.
Proof.
  intros app key rows Hk Hties. split.
  - unfold headerClick. rewrite sameKey_refl. unfold sortStates.
    destruct (sortDirection app) eqn:Hd.
    + rewrite (@sort_flip _ key
                 (sortStates_cmp (mkApp (data app) (marketData app) (currentYear app)
                                        (availableYears app) (currentSort app) Desc))
                 (sortStates_cmp app) rows).
      * now rewrite rev_involutive.
      * now apply sortStates_cmp_key.
      * now apply sortStates_cmp_key_asc.
      * exact Hties.
    + apply sort_flip with (key := key).
      * now apply sortStates_cmp_key.
      * now apply sortStates_cmp_key_asc.
      * exact Hties.
  - unfold headerClick. rewrite sameKey_refl. simpl. rewrite sameKey_refl.
    unfold sortStates, sortStates_cmp. simpl.
    destruct (sortDirection app); reflexivity.
Qed.

Lemma sampleRows_noTies : noTies r_mli sampleRows.
Proof.
  intro v. unfold tied, sampleRows. simpl.
  destruct (Qeq_bool (12 # 10) v) eqn:E1, (Qeq_bool (8 # 10) v) eqn:E2,
           (Qeq_bool 1 v) eqn:E3; simpl; try lia;
    repeat match goal with
           | H : Qeq_bool _ _ = true |- _ => apply Qeq_bool_iff in H
           end; exfalso; lra.
Defined.

Lemma header_click_reverses_witness :
  (sortStates (L := byCharacterCode) (headerClick SortMli abcApp) sampleRows
   = rev (sortStates (L := byCharacterCode) abcApp sampleRows) /\
   sortStates (L := byCharacterCode) (headerClick SortMli (headerClick SortMli abcApp)) sampleRows
   = sortStates (L := byCharacterCode) abcApp sampleRows) /\
  map r_name (sortStates (L := byCharacterCode) abcApp sampleRows) = ["A"; "C"; "B"]%string.
Proof.
  split; [|reflexivity].
  exact (@header_click_reverses byCharacterCode abcApp r_mli sampleRows eq_refl sampleRows_noTies).
Defined.

(** ** Sorting by name *)

Lemma ascii_compare_lt_trans (a b c : ascii) :
  Ascii.compare a b = Lt -> Ascii.compare b c = Lt -> Ascii.compare a c = Lt.
Proof.
  unfold Ascii.compare. rewrite !N.compare_lt_iff. lia.
Qed.

Lemma string_compare_lt_trans (a b c : string) :
  String.compare a b = Lt -> String.compare b c = Lt -> String.compare a c = Lt.
Proof.
  revert b c. induction a as [|x a IH]; intros [|y b] [|z c]; simpl;
    try discriminate; try reflexivity.
  destruct (Ascii.compare x y) eqn:Exy; try discriminate;
    destruct (Ascii.compare y z) eqn:Eyz; try discriminate; intros H1 H2.
  - apply Ascii.compare_eq_iff in Exy, Eyz. subst.
    assert (E : Ascii.compare z z = Eq).
    { unfold Ascii.compare. apply N.compare_refl. }
    rewrite E. eapply IH; eassumption.
  - apply Ascii.compare_eq_iff in Exy. subst. now rewrite Eyz.
  - apply Ascii.compare_eq_iff in Eyz. subst. now rewrite Exy.
  - now rewrite (ascii_compare_lt_trans _ _ _ Exy Eyz).
Qed.

Lemma string_compare_refl (a : string) : String.compare a a = Eq.
Proof.
  induction a as [|x a IH]; simpl; [reflexivity|].
  unfold Ascii.compare. now rewrite N.compare_refl.
Qed.

Lemma nameLe_trans (a b c : string) : nameLe a b -> nameLe b c -> nameLe a c.
Proof.
  unfold nameLe, String.leb. intros H1 H2.
  destruct (String.compare a b) eqn:Eab; try discriminate;
    destruct (String.compare b c) eqn:Ebc; try discriminate.
  - apply String.compare_eq_iff in Eab, Ebc. subst. now rewrite string_compare_refl.
  - apply String.compare_eq_iff in Eab. subst. now rewrite Ebc.
  - apply String.compare_eq_iff in Ebc. subst. now rewrite Eab.
  - now rewrite (string_compare_lt_trans _ _ _ Eab Ebc).
Qed.

(** [sort] orders a list along any transitive relation that the sign of
    the comparator decides. *)
Lemma sort_sorted {A : Type} (le : A -> A -> Prop) (cmp : A -> A -> Q) (l : list A) :
  (forall a b, Qltb 0 (cmp a b) = true -> le b a) ->
  (forall a b, Qltb 0 (cmp a b) = false -> le a b) ->
  (forall a b c, le a b -> le b c -> le a c) ->
  StronglySorted le (sort cmp l).
Proof.
  intros Hgt Hle Htrans. induction l as [|x l IH]; simpl; [constructor|].
  generalize dependent (sort cmp l). clear l.
  induction l as [|y l IHl]; intros Hs; simpl.
  - repeat constructor.
  - inversion Hs as [|? ? Hl Hy]; subst.
    destruct (Qltb 0 (cmp x y)) eqn:E.
    + constructor; [now apply IHl|].
      rewrite Forall_forall. intros z Hz.
      apply (Permutation_in _ (insert_perm cmp x l)) in Hz.
      destruct Hz as [<- | Hz]; [now apply Hgt|].
      rewrite Forall_forall in Hy. now apply Hy.
    + constructor; [exact Hs|]. constructor; [now apply Hle|].
      rewrite Forall_forall in Hy |- *. intros z Hz.
      eapply Htrans; [apply Hle; exact E | now apply Hy].
Qed.

Lemma compare_sign (c : comparison) (d : Q) :
  0 < d ->
  Qltb 0 (d * match c with Lt => -1 | Eq => 0 | Gt => 1 end) = true <-> c = Gt.
Proof.
  intros Hd. rewrite Qltb_true. destruct c; split; intros H; try discriminate;
    try reflexivity; nra.
Qed.

Lemma compare_sign_neg (c : comparison) (d : Q) :
  d < 0 ->
  Qltb 0 (d * match c with Lt => -1 | Eq => 0 | Gt => 1 end) = true <-> c = Lt.
Proof.
  intros Hd. rewrite Qltb_true. destruct c; split; intros H; try discriminate;
    try reflexivity; nra.
Qed.

Lemma compare_Gt_nameLe (a b : string) : String.compare a b = Gt -> nameLe b a.
Proof.
  intros H. unfold nameLe, String.leb.
  rewrite String.compare_antisym, H. reflexivity.
Qed.

Lemma compare_not_Gt_nameLe (a b : string) : String.compare a b <> Gt -> nameLe a b.
Proof.
  intros H. unfold nameLe, String.leb. destruct (String.compare a b); congruence.
Qed.

Lemma byCharacterCode_consistent : consistent byCharacterCode.
Proof.
  split; simpl.
  - intros a b. apply String.compare_antisym.
  - intros a b c Hab Hbc.
    assert (H : nameLe a c).
    { apply (nameLe_trans (b := b)); now apply compare_not_Gt_nameLe. }
    unfold nameLe, String.leb in H. intro E. rewrite E in H. discriminate H.
Qed.

(** X4 (sortStates).  Sorting the table by name, in a locale whose
    collation is consistent: a permutation of the rows, and the
    direction "desc" (the one a first click on the name header selects)
    lists the names upwards, each name not after the names that follow
    it in the collation, while "asc" lists them downwards: the two
    directions are the other way round than for the numeric columns,
    where "desc" puts the highest value first. *)
Theorem sort_by_name_directions {L : Locale} :
  forall (app : App) (rows : list RankedRow),
    consistent L ->
    currentSort app = SortName ->
    Permutation (sortStates app rows) rows /\
    (sortDirection app = Desc ->
     StronglySorted (fun a b => notAfter (r_name a) (r_name b))
                    (sortStates app rows)) /\
    (sortDirection app = Asc ->
     StronglySorted (fun a b => notAfter (r_name b) (r_name a))
                    (sortStates app rows)).
Proof.
  intros app rows [Hopp Htrans] Hs. unfold sortStates. split; [apply sort_perm|].
  split; intros Hd; apply sort_sorted; unfold notAfter.
  - intros a b. unfold sortStates_cmp, localeCompare. rewrite Hs, Hd.
    rewrite compare_sign by lra. intros E. rewrite Hopp, E. discriminate.
  - intros a b H E.
    unfold sortStates_cmp, localeCompare in H. rewrite Hs, Hd in H.
    assert (T : Qltb 0 (1 * match collate (r_name a) (r_name b) with
                            | Lt => -1 | Eq => 0 | Gt => 1 end) = true)
      by (apply compare_sign; [lra | exact E]).
    congruence.
  - intros a b c. apply Htrans.
  - intros a b. unfold sortStates_cmp, localeCompare. rewrite Hs, Hd.
    rewrite compare_sign_neg by lra. intros E. rewrite E. discriminate.
  - intros a b H E.
    unfold sortStates_cmp, localeCompare in H. rewrite Hs, Hd in H.
    assert (T : Qltb 0 (-1 * match collate (r_name a) (r_name b) with
                             | Lt => -1 | Eq => 0 | Gt => 1 end) = true).
    { apply compare_sign_neg; [lra|].
      rewrite Hopp in E. destruct (collate (r_name a) (r_name b));
        [discriminate E | reflexivity | discriminate E]. }
    congruence.
  - intros a b c H1 H2. eapply Htrans; eassumption.
Qed.

Lemma sort_by_name_directions_witness :
  currentSort (headerClick SortName abcApp) = SortName /\
  sortDirection (headerClick SortName abcApp) = Desc /\
  StronglySorted (fun a b => notAfter (L := byCharacterCode) (r_name a) (r_name b))
                 (sortStates (L := byCharacterCode) (headerClick SortName abcApp)
                             (rev sampleRows)) /\
  map r_name (sortStates (L := byCharacterCode) (headerClick SortName abcApp)
                         (rev sampleRows))
  = ["A"; "B"; "C"]%string.
Proof.
  split; [reflexivity|]. split; [reflexivity|]. split; [|reflexivity].
  destruct (@sort_by_name_directions byCharacterCode
              (headerClick SortName abcApp) (rev sampleRows)
              byCharacterCode_consistent eq_refl) as [_ [down _]].
  apply down. reflexivity.
Defined.

(** ** The state selectors *)

Lemma populate_fold (names : list string) (s1 s2 : list (string * string)) :
  fold_left (fun selects state =>
               (fst selects ++ [(state, state)], snd selects ++ [(state, state)]))
            names (s1, s2)
  = (s1 ++ map (fun n => (n, n)) names, s2 ++ map (fun n => (n, n)) names).
Proof.
  revert s1 s2. induction names as [|n names IH]; intros s1 s2; simpl.
  - now rewrite !app_nil_r.
  - rewrite IH. simpl. now rewrite <- !app_assoc.
Qed.

(** X5 (populateStateSelectors).  The two selectors of the comparison
    receive the same options, after the ones they already have: the names
    of the states of the dataset, each name once for each state, in
    ascending order, with the name both as text and as value. *)
Theorem state_selectors_sorted :
  forall (app : App) (select1 select2 : list (string * string)),
    exists names,
      populateStateSelectors app select1 select2
      = (select1 ++ map (fun n => (n, n)) names,
         select2 ++ map (fun n => (n, n)) names) /\
      Permutation names (Object_keys (states (data app))) /\
      StronglySorted nameLe names.
Proof.
  intros app s1 s2.
  exists (sort defaultCompare (Object_keys (states (data app)))).
  split; [apply populate_fold|]. split; [apply sort_perm|].
  apply sort_sorted.
  - intros a b H. apply compare_Gt_nameLe. unfold defaultCompare in H.
    destruct (String.compare a b); try reflexivity; discriminate H.
  - intros a b H. apply compare_not_Gt_nameLe. intro E.
    unfold defaultCompare in H. rewrite E in H. discriminate H.
  - apply nameLe_trans.
Qed.

(** ** The insight lists *)

Lemma StronglySorted_app_cross {A : Type} (R : A -> A -> Prop) (l1 l2 : list A) :
  StronglySorted R (l1 ++ l2) -> forall a b, In a l1 -> In b l2 -> R a b.
Proof.
  induction l1 as [|x l1 IH]; simpl; intros Hs a b Ha Hb; [destruct Ha|].
  inversion Hs as [|? ? Hl Hx]; subst.
  destruct Ha as [<- | Ha].
  - rewrite Forall_forall in Hx. apply Hx, in_or_app. now right.
  - now apply IH.
Qed.

(** The first [k] elements of a descending list are above all the
    others, and its elements from position [k] on are below all the
    others. *)
Lemma top_dominates {A : Type} (key : A -> Q) (k : nat) (l : list A) (a b : A) :
  descending key l -> In a (firstn k l) -> In b l ->
  In b (firstn k l) \/ key b <= key a.
Proof.
  intros Hd Ha Hb. rewrite <- (firstn_skipn k l) in Hb, Hd.
  apply in_app_iff in Hb. destruct Hb as [Hb | Hb]; [now left | right].
  exact (StronglySorted_app_cross _ _ Hd a b Ha Hb).
Qed.

Lemma bottom_dominated {A : Type} (key : A -> Q) (k : nat) (l : list A) (a b : A) :
  descending key l -> In a (skipn k l) -> In b l ->
  In b (skipn k l) \/ key a <= key b.
Proof.
  intros Hd Ha Hb. rewrite <- (firstn_skipn k l) in Hb, Hd.
  apply in_app_iff in Hb. destruct Hb as [Hb | Hb]; [right | now left].
  exact (StronglySorted_app_cross _ _ Hd b a Hb Ha).
Qed.

Lemma byMli_key (a b : InsightRow) : 0 < i_mli b - i_mli a <-> i_mli a < i_mli b.
Proof. split; lra. Qed.

Lemma byChange_key (a b : InsightRow) :
  0 < i_change b - i_change a <-> i_change a < i_change b.
Proof. split; lra. Qed.

Lemma byChangeUp_key (a b : InsightRow) :
  0 < i_change a - i_change b <-> - i_change a < - i_change b.
Proof. split; lra. Qed.

(** X6 (updateInsights).  The four lists of the insights panel, whenever a
    row can be computed for every state: "best" holds five states (all of
    them when there are fewer), "worst" four, "improved" five and
    "declined" four; no state outside "best" has a higher MLI than a state
    inside, none outside "worst" a lower one; no state outside "improved"
    has a larger change than a state inside, none outside "declined" a
    smaller one. *)
Theorem insight_lists :
  forall (app : App) (all : list InsightRow),
    mapM (fun '(name, data) => insightRow app name data)
         (Object_entries (states (data app))) = Ok all ->
    exists ins,
      updateInsights app = Ok ins /\
      (List.length (best ins) = Nat.min 5 (List.length all) /\
       List.length (worst ins) = Nat.min 4 (List.length all) /\
       List.length (improved ins) = Nat.min 5 (List.length all) /\
       List.length (declined ins) = Nat.min 4 (List.length all)) /\
      (forall a b, In a (best ins) -> In b all ->
                   In b (best ins) \/ i_mli b <= i_mli a) /\
      (forall a b, In a (worst ins) -> In b all ->
                   In b (worst ins) \/ i_mli a <= i_mli b) /\
      (forall a b, In a (improved ins) -> In b all ->
                   In b (improved ins) \/ i_change b <= i_change a) /\
      (forall a b, In a (declined ins) -> In b all ->
                   In b (declined ins) \/ i_change a <= i_change b).
Proof.
  intros app all Hall. unfold updateInsights. rewrite Hall. cbn [bind].
  eexists. split; [reflexivity|]. cbn [best worst improved declined].
  set (byMli := fun a b : InsightRow => i_mli b - i_mli a).
  set (S := sort byMli all).
  set (up := sort (fun a b : InsightRow => i_change b - i_change a) S).
  set (down := sort (fun a b : InsightRow => i_change a - i_change b) S).
  assert (HS : Permutation S all) by apply sort_perm.
  assert (Hup : Permutation up all) by (unfold up; now rewrite sort_perm).
  assert (Hdown : Permutation down all) by (unfold down; now rewrite sort_perm).
  assert (LS : List.length S = List.length all) by now apply Permutation_length.
  assert (Lup : List.length up = List.length all) by now apply Permutation_length.
  assert (Ldown : List.length down = List.length all) by now apply Permutation_length.
  unfold slice_first, slice_last.
  split; [|split; [|split; [|split]]].
  - rewrite length_rev, length_skipn, !length_firstn, LS, Lup, Ldown. lia.
  - intros a b Ha Hb.
    apply (@top_dominates _ i_mli 5 S a b); try assumption.
    + apply (sort_descending byMli i_mli byMli_key).
    + now apply (Permutation_in _ (Permutation_sym HS)).
  - intros a b Ha Hb. rewrite <- in_rev in Ha.
    destruct (@bottom_dominated _ i_mli (List.length S - 4) S a b) as [H | H];
      try assumption.
    + apply (sort_descending byMli i_mli byMli_key).
    + now apply (Permutation_in _ (Permutation_sym HS)).
    + left. now rewrite <- in_rev.
    + now right.
  - intros a b Ha Hb.
    apply (@top_dominates _ i_change 5 up a b); try assumption.
    + apply (sort_descending _ i_change byChange_key).
    + now apply (Permutation_in _ (Permutation_sym Hup)).
  - intros a b Ha Hb.
    destruct (@top_dominates _ (fun r => - i_change r) 4 down a b) as [H | H];
      try assumption.
    + apply (sort_descending _ (fun r => - i_change r) byChangeUp_key).
    + now apply (Permutation_in _ (Permutation_sym Hdown)).
    + now left.
    + right. simpl in H. lra.
Qed.

Lemma insight_lists_witness :
  exists ins,
    updateInsights abcApp = Ok ins /\
    List.length (best ins) = 3%nat /\ List.length (worst ins) = 3%nat /\
    map i_name (best ins) = ["A"; "C"; "B"]%string /\
    map i_name (worst ins) = ["B"; "C"; "A"]%string.
Proof.
  destruct (@insight_lists abcApp abcInsightRows eq_refl)
    as [ins [E [[L1 [L2 _]] _]]].
  exists ins. split; [exact E|]. split; [exact L1|]. split; [exact L2|].
  vm_compute in E. injection E as <-. split; reflexivity.
Defined.

Lemma insightRow_name (app : App) (n : string) (s : StateRecord) (r : InsightRow) :
  insightRow app n s = Ok r -> i_name r = n.
Proof.
  unfold insightRow, prop.
  destruct (get (timeseries s) (currentYear app)) as [y|];
    destruct (0 <=? _)%Z;
    repeat match goal with
           | |- context [match get ?ts ?k with _ => _ end] => destruct (get ts k)
           end;
    simpl; intros H; try discriminate H; injection H as <-; reflexivity.
Qed.

Lemma insightRows_names (app : App) (xs : list (string * StateRecord))
      (all : list InsightRow) :
  Forall2 (fun x y => (let '(n, d) := x in insightRow app n d) = Ok y) xs all ->
  map i_name all = map fst xs.
Proof.
  induction 1 as [|[n s] y xs ys Hxy _ IH]; simpl; [reflexivity|].
  now rewrite (insightRow_name _ _ _ Hxy), IH.
Qed.

Lemma In_firstn_nth {A : Type} (k : nat) (l : list A) (a : A) :
  In a (firstn k l) <-> exists i, (i < k)%nat /\ nth_error l i = Some a.
Proof.
  split.
  - intros H. apply In_nth_error in H. destruct H as [i Hi].
    rewrite nth_error_firstn in Hi.
    destruct (Nat.ltb_spec i k); [eauto | discriminate].
  - intros [i [Hi Hn]]. apply (nth_error_In _ i).
    rewrite nth_error_firstn.
    destruct (Nat.ltb_spec i k); [exact Hn | lia].
Qed.

Lemma In_skipn_nth {A : Type} (k : nat) (l : list A) (a : A) :
  In a (skipn k l) <-> exists j, (k <= j)%nat /\ nth_error l j = Some a.
Proof.
  split.
  - intros H. apply In_nth_error in H. destruct H as [i Hi].
    rewrite nth_error_skipn in Hi. exists (k + i)%nat. split; [lia | exact Hi].
  - intros [j [Hj Hn]]. apply (nth_error_In _ (j - k)).
    rewrite nth_error_skipn. now replace (k + (j - k))%nat with j by lia.
Qed.

(** X7 (updateInsights).  With nine states or more no state is both in
    "best" and in "worst"; with one to eight states some state is in both
    lists. *)
Theorem best_and_worst_overlap :
  forall (app : App) (ins : Insights),
    distinctKeys app ->
    updateInsights app = Ok ins ->
    ((9 <= List.length (states (data app)))%nat ->
     forall a, In a (best ins) -> ~ In a (worst ins)) /\
    ((1 <= List.length (states (data app)) <= 8)%nat ->
     exists a, In a (best ins) /\ In a (worst ins)).
Proof.
  intros app ins Hnd Hins. unfold updateInsights in Hins.
  destruct (mapM _ _) as [all|] eqn:Hall; cbn [bind] in Hins; [|discriminate].
  injection Hins as Hins.
  set (S := sort (fun a b : InsightRow => i_mli b - i_mli a) all) in *.
  assert (Hbest : best ins = firstn 5 S) by (now rewrite <- Hins).
  assert (Hworst : worst ins = rev (skipn (List.length S - 4) S))
    by (now rewrite <- Hins).
  rewrite Hbest, Hworst. clear Hins Hbest Hworst.
  apply mapM_inv in Hall. unfold Object_entries in Hall.
  pose proof (@insightRows_names app _ _ Hall) as Hnames.
  assert (HS : Permutation S all) by apply sort_perm.
  assert (LS : List.length S = List.length (states (data app))).
  { rewrite (Permutation_length HS), <- (length_map i_name), Hnames.
    apply length_map. }
  assert (ND : NoDup S).
  { apply (Permutation_NoDup (Permutation_sym HS)).
    apply (NoDup_map_inv i_name). rewrite Hnames. exact Hnd. }
  split.
  - intros HN a Ha Hw. rewrite <- in_rev in Hw.
    apply In_firstn_nth in Ha. destruct Ha as [i [Hi Hni]].
    apply In_skipn_nth in Hw. destruct Hw as [j [Hj Hnj]].
    assert (i = j); [|lia].
    apply (proj1 (NoDup_nth_error S) ND); [|congruence].
    apply nth_error_Some. congruence.
  - intros HN.
    destruct (nth_error S (Nat.min 4 (List.length S - 1))) as [a|] eqn:Ha.
    + exists a. split.
      * apply In_firstn_nth. exists (Nat.min 4 (List.length S - 1)). split; [lia | exact Ha].
      * rewrite <- in_rev. apply In_skipn_nth.
        exists (Nat.min 4 (List.length S - 1)). split; [lia | exact Ha].
    + apply nth_error_None in Ha. lia.
Qed.

Lemma nineApp_distinctKeys : distinctKeys nineApp.
Proof.
  unfold distinctKeys. simpl.
  repeat constructor; simpl; intuition discriminate.
Defined.

Lemma best_and_worst_overlap_witness :
  (forall a, In a (best nineInsights) -> ~ In a (worst nineInsights)) /\
  (exists a, In a (best abcInsights) /\ In a (worst abcInsights)).
Proof.
  split.
  - apply (@best_and_worst_overlap nineApp nineInsights nineApp_distinctKeys eq_refl).
    simpl. lia.
  - apply (@best_and_worst_overlap abcApp abcInsights abcApp_distinctKeys eq_refl).
    simpl. lia.
Defined.

Lemma Permutation_filter_length {A : Type} (p : A -> bool) (l1 l2 : list A) :
  Permutation l1 l2 -> List.length (filter p l1) = List.length (filter p l2).
Proof.
  induction 1 as [|x l1 l2 _ IH|x y l|l1 l2 l3 _ IH1 _ IH2]; simpl.
  - reflexivity.
  - destruct (p x); simpl; now rewrite IH.
  - destruct (p x), (p y); reflexivity.
  - now rewrite IH1.
Qed.

Lemma filter_firstn_length {A : Type} (p : A -> bool) (k : nat) (l : list A) :
  (List.length (filter p (firstn k l)) <= List.length (filter p l))%nat.
Proof.
  rewrite <- (firstn_skipn k l) at 2. rewrite filter_app, length_app. lia.
Qed.

Lemma filter_all_or_witness {A : Type} (p : A -> bool) (l : list A) :
  filter p l = l \/ exists a, In a l /\ p a = false.
Proof.
  induction l as [|x l IH]; simpl; [now left|].
  destruct (p x) eqn:E.
  - destruct IH as [-> | [a [Ha Hp]]]; [now left | right; eauto].
  - right. eauto.
Qed.

(** X8 (updateInsights).  "Most improved" is not filtered by the sign of
    the change: it holds the five states (all of them when there are
    fewer) with the largest change, so when fewer states than that have
    improved, it lists a state whose MLI has not gone up. *)
Theorem improved_list_ignores_sign :
  forall (app : App) (all : list InsightRow),
    mapM (fun '(name, data) => insightRow app name data)
         (Object_entries (states (data app))) = Ok all ->
    (List.length (filter hasImproved all) < Nat.min 5 (List.length all))%nat ->
    exists ins a,
      updateInsights app = Ok ins /\ In a (improved ins) /\ i_change a <= 0.
Proof.
  intros app all Hall Hfew. unfold updateInsights. rewrite Hall. cbn [bind].
  eexists. cbn [improved]. unfold slice_first.
  set (up := sort (fun a b : InsightRow => i_change b - i_change a)
                  (sort (fun a b : InsightRow => i_mli b - i_mli a) all)).
  assert (Hup : Permutation up all) by (unfold up; now rewrite !sort_perm).
  destruct (filter_all_or_witness hasImproved (firstn 5 up)) as [Hfull | [a [Ha Hp]]].
  - exfalso.
    pose proof (filter_firstn_length hasImproved 5 up) as Hle.
    rewrite Hfull, length_firstn, (Permutation_length Hup) in Hle.
    rewrite (Permutation_filter_length hasImproved Hup) in Hle. lia.
  - exists a. split; [reflexivity|]. split; [exact Ha|].
    unfold hasImproved in Hp. now apply Qltb_false.
Qed.

Lemma improved_list_ignores_sign_witness :
  exists ins a,
    updateInsights (historyApp 2008) = Ok ins /\ In a (improved ins) /\
    i_change a <= 0.
Proof.
  apply (@improved_list_ignores_sign (historyApp 2008) ohioInsightRows eq_refl).
  simpl. lia.
Defined.

(** ** The cost breakdown *)

Lemma upper_idempotent (c : ascii) : upper (upper c) = upper c.
Proof. destruct c as [[] [] [] [] [] [] [] []]; reflexivity. Qed.

Lemma upper_underscore (c : ascii) : upper c = "_"%char -> c = "_"%char.
Proof. destruct c as [[] [] [] [] [] [] [] []]; simpl; intros H; try reflexivity; discriminate H. Qed.

Lemma split_join (s : string) :
  exists word words,
    split_underscore s = word :: words /\
    join_space (capitalizeWord word :: map capitalizeWord words) = capitalizeFrom true s /\
    join_space (word :: map capitalizeWord words) = capitalizeFrom false s.
Proof.
  induction s as [|c s [word [words [Hs [Ht Hf]]]]]; simpl.
  - exists EmptyString, []. auto.
  - destruct (Ascii.eqb c "_") eqn:E.
    + exists EmptyString, (word :: words). rewrite Hs. simpl. split; [reflexivity|].
      simpl in Ht. rewrite Ht. auto.
    + rewrite Hs. exists (String c word), words. split; [reflexivity|].
      simpl in Hf |- *. destruct (map capitalizeWord words); simpl in *;
        rewrite Hf; auto.
Qed.

Lemma capitalizeCategory_chars (s : string) :
  capitalizeCategory s = capitalizeFrom true s.
Proof.
  unfold capitalizeCategory.
  destruct (split_join s) as [word [words [-> [Ht _]]]]. exact Ht.
Qed.

Lemma capitalizeFrom_length (b : bool) (s : string) :
  String.length (capitalizeFrom b s) = String.length s.
Proof.
  revert b. induction s as [|c s IH]; intro b; simpl; [reflexivity|].
  destruct (Ascii.eqb c "_"); simpl; now rewrite IH.
Qed.

Lemma capitalizeFrom_no_underscore (b : bool) (s : string) :
  ~ occurs "_"%char (capitalizeFrom b s).
Proof.
  revert b. induction s as [|c s IH]; intro b; simpl; [tauto|].
  destruct (Ascii.eqb_spec c "_") as [-> | Hc]; simpl.
  - intros [H | H]; [discriminate H | exact (IH _ H)].
  - intros [H | H]; [|exact (IH _ H)].
    destruct b; [|congruence].
    symmetry in H. apply upper_underscore in H. contradiction.
Qed.

Lemma capitalizeFrom_plain (s : string) :
  ~ occurs "_"%char s ->
  capitalizeFrom false s = s /\ capitalizeFrom true s = capitalizeWord s.
Proof.
  induction s as [|c s IH]; simpl; intros H; [auto|].
  destruct (Ascii.eqb_spec c "_") as [-> | Hc]; [exfalso; apply H; now left|].
  destruct IH as [IH _]; [tauto|]. rewrite IH. auto.
Qed.

Lemma capitalizeWord_fixed (b : bool) (s : string) :
  capitalizeWord (capitalizeFrom true s) = capitalizeFrom true s.
Proof.
  destruct s as [|c s]; simpl; [reflexivity|].
  destruct (Ascii.eqb c "_"); simpl; [reflexivity|].
  now rewrite upper_idempotent.
Qed.

Lemma upper_ascii (c : ascii) :
  (N_of_ascii c <? 128)%N = true -> (N_of_ascii (upper c) <? 128)%N = true.
Proof.
  destruct c as [[] [] [] [] [] [] [] []]; intros H; try reflexivity;
    discriminate H.
Qed.

Lemma capitalizeFrom_ascii (b : bool) (s : string) :
  asciiOnly s = true -> asciiOnly (capitalizeFrom b s) = true.
Proof.
  revert b. induction s as [|c s IH]; intro b; simpl; [reflexivity|].
  intros H. apply andb_true_iff in H. destruct H as [Hc Hs].
  destruct (Ascii.eqb c "_"); simpl.
  - now apply IH.
  - apply andb_true_iff. split; [|now apply IH].
    destruct b; [now apply upper_ascii | exact Hc].
Qed.

(** X9 (capitalizeCategory).  For a category name made of ASCII
    characters: the label has as many characters as the name, it is made
    of ASCII characters, it contains no underscore, and it is left as it
    is when [capitalizeCategory] is applied to it again. *)
Theorem capitalizeCategory_properties :
  forall category : string,
    asciiOnly category = true ->
    String.length (capitalizeCategory category) = String.length category /\
    asciiOnly (capitalizeCategory category) = true /\
    ~ occurs "_"%char (capitalizeCategory category) /\
    capitalizeCategory (capitalizeCategory category) = capitalizeCategory category.
Proof.
  intros s Hs. rewrite !capitalizeCategory_chars.
  split; [apply capitalizeFrom_length|].
  split; [now apply capitalizeFrom_ascii|].
  split; [apply capitalizeFrom_no_underscore|].
  destruct (capitalizeFrom_plain _ (capitalizeFrom_no_underscore true s)) as [_ ->].
  apply (capitalizeWord_fixed true).
Qed.

Lemma capitalizeCategory_properties_witness :
  capitalizeCategory "housing_and_utilities" = "Housing And Utilities"%string /\
  String.length (capitalizeCategory "housing_and_utilities") = 21%nat /\
  capitalizeCategory (capitalizeCategory "housing_and_utilities")
  = capitalizeCategory "housing_and_utilities".
Proof.
  destruct (capitalizeCategory_properties "housing_and_utilities" eq_refl)
    as [Hlen [_ [_ Hagain]]].
  split; [reflexivity|]. split; [exact Hlen | exact Hagain].
Defined.

Lemma fold_left_Qsum {A : Type} (f : A -> Q) (l : list A) (acc : Q) :
  fold_left (fun sum e => sum + f e) l acc == acc + Qsum (map f l).
Proof.
  revert acc. induction l as [|x l IH]; intro acc; simpl.
  - lra.
  - rewrite IH. lra.
Qed.

Lemma div_by_nonzero (c t : Q) : ~ t == 0 -> div (Fin c) (Fin t) = Fin (c / t).
Proof.
  intros Ht. simpl. destruct (t ?= 0) eqn:E; try reflexivity.
  apply Qeq_alt in E. contradiction.
Qed.

Lemma descending_map {A B : Type} (f : A -> B) (keyA : A -> Q) (keyB : B -> Q)
      (l : list A) :
  (forall x, keyB (f x) = keyA x) -> descending keyA l -> descending keyB (map f l).
Proof.
  intros Hk. unfold descending.
  induction 1 as [|a l Hs IH Ha]; cbn [map]; [constructor|].
  constructor; [exact IH|].
  rewrite Forall_forall in *. intros b Hb. apply in_map_iff in Hb.
  destruct Hb as [x [<- Hx]]. rewrite !Hk. now apply Ha.
Qed.

Lemma tied_map {A B : Type} (f : A -> B) (keyA : A -> Q) (keyB : B -> Q)
      (v : Q) (l : list A) :
  (forall x, keyB (f x) = keyA x) -> tied keyB v (map f l) = map f (tied keyA v l).
Proof.
  intros Hk. unfold tied. induction l as [|a l IH]; cbn [map filter]; [reflexivity|].
  rewrite Hk. destruct (Qeq_bool (keyA a) v); cbn [map]; now rewrite IH.
Qed.

(** X10 (createCostBreakdown).  The bars of the cost breakdown are the
    categories, each once, the most expensive first, categories of the
    same cost in the order of the data.  When every cost is zero the
    total is zero and the percentage of every bar is NaN.  Without any
    category there is no bar. *)
Theorem cost_breakdown_bars :
  forall categories : list (string * Q),
    Permutation (map (fun b => (bar_label b, bar_value b)) (createCostBreakdown categories))
                (map (fun e => (capitalizeCategory (fst e), snd e)) categories) /\
    descending bar_value (createCostBreakdown categories) /\
    (forall v, map bar_label (tied bar_value v (createCostBreakdown categories))
               = map (fun e => capitalizeCategory (fst e)) (tied snd v categories)) /\
    ((forall e, In e categories -> snd e == 0) ->
     forall b, In b (createCostBreakdown categories) -> bar_pct b = NaN) /\
    (categories = [] -> createCostBreakdown categories = []).
Proof.
  intro categories. unfold createCostBreakdown, Object_entries.
  set (byCost := fun a b : string * Q => snd b - snd a).
  set (sorted := sort byCost categories).
  set (total := fold_left (fun sum e => sum + snd e) sorted 0).
  assert (Hkey : forall a b : string * Q, 0 < byCost a b <-> snd a < snd b)
    by (intros a b; unfold byCost; split; lra).
  assert (Hperm : Permutation sorted categories) by apply sort_perm.
  split; [|split; [|split; [|split]]].
  - rewrite map_map. rewrite <- (Permutation_map _ Hperm).
    apply Permutation_refl'. apply map_ext. now intros [c q].
  - apply descending_map with (keyA := snd); [now intros [c q]|].
    apply (sort_descending byCost snd Hkey).
  - intro v. rewrite (tied_map _ snd bar_value); [|now intros [c q]].
    unfold sorted. rewrite (sort_tied byCost snd Hkey v categories).
    rewrite !map_map. apply map_ext. now intros [c q].
  - intros Hzero bar Hbar.
    assert (Hsorted : forall e, In e sorted -> snd e == 0).
    { intros e He. apply Hzero. eapply Permutation_in; eassumption. }
    assert (Ht : total == 0).
    { unfold total. rewrite fold_left_Qsum.
      clear - Hsorted. induction sorted as [|e l IH]; simpl; [lra|].
      rewrite (Hsorted e) by (now left).
      assert (0 + Qsum (map snd l) == 0) by (apply IH; intros; apply Hsorted; now right).
      lra. }
    apply in_map_iff in Hbar. destruct Hbar as [[c q] [<- Hin]].
    cbn [bar_pct]. specialize (Hsorted _ Hin). cbn [snd] in Hsorted.
    apply Qeq_alt in Ht, Hsorted. unfold div, scaled_inf.
    rewrite Ht, Hsorted. reflexivity.
  - intros ->. reflexivity.
Qed.

Lemma cost_breakdown_bars_witness :
  map bar_label (createCostBreakdown sampleCategories)
  = ["Housing And Utilities"; "Food"; "Health Care"]%string /\
  map bar_pct (createCostBreakdown [("food"%string, 0); ("housing"%string, 0)])
  = [NaN; NaN].
Proof.
  split; [reflexivity|].
  destruct (cost_breakdown_bars [("food"%string, 0); ("housing"%string, 0)])
    as [_ [_ [_ [nan _]]]].
  assert (Hzero : forall e, In e [("food"%string, 0); ("housing"%string, 0)] ->
                            snd e == 0).
  { intros e [<- | [<- | []]]; reflexivity. }
  assert (Hbars : createCostBreakdown [("food"%string, 0); ("housing"%string, 0)]
                  = [mkBar "Food" NaN 0; mkBar "Housing" NaN 0]) by reflexivity.
  rewrite Hbars in nan |- *. cbn [map bar_pct].
  rewrite <- (nan Hzero (mkBar "Food" NaN 0)) at 1 by (now left).
  reflexivity.
Defined.

(** ** The wording, the banner and the colours *)

(** X11 (getMLIInterpretation, updateStatsBanner, getMLIColor).  The
    sentence that describes an MLI, the band in which the banner counts it
    and its colour on the map go together: "N% deficit" is said exactly of
    the states counted as deficit, which are exactly the red and the
    orange ones; "N% surplus" exactly of the states counted as surplus,
    which are green, the two darker greens being always surplus; "Break
    even" exactly of the states counted as break-even, which are yellow
    (below 1.00) or light green (from 1.00 on). *)
Theorem wording_matches_bands_and_colours :
  forall m : Q,
    (getMLIInterpretation m = PercentDeficit <-> isDeficit m = true) /\
    (isDeficit m = true <-> (level (getMLIColor m) <= 1)%nat) /\
    (getMLIInterpretation m = PercentSurplus <-> isSurplus m = true) /\
    (isSurplus m = true -> (3 <= level (getMLIColor m))%nat) /\
    ((4 <= level (getMLIColor m))%nat -> isSurplus m = true) /\
    (getMLIInterpretation m = BreakEven <-> isBreakEven m = true) /\
    (isBreakEven m = true ->
     getMLIColor m = nearBreakEven \/ getMLIColor m = smallSurplus).
Proof.
  intro m.
  destruct (bands_meaning m) as [HS [HB HD]].
  rewrite HS, HB, HD. unfold getMLIInterpretation, getMLIColor.
  destruct (Qltb_spec m (95 # 100)) as [L1 | L1];
    [|destruct (Qltb_spec (105 # 100) m) as [L2 | L2]];
    destruct (Qltb_spec m (9 # 10)), (Qltb_spec m 1),
             (Qltb_spec m (11 # 10)), (Qltb_spec m (12 # 10));
    try (exfalso; lra);
    simpl; repeat split;
      try (intros; discriminate);
      try (intros; lra); try (intros; lia); auto.
Qed.

(** ** The map and its tooltip *)

Lemma hex_not_grey (b : Bucket) : hex b <> "#ccc"%string.
Proof. destruct b; discriminate. Qed.

Lemma inherited_iff (n : string) :
  existsb (String.eqb n) Object_prototype = true <-> In n Object_prototype.
Proof.
  rewrite existsb_exists. split.
  - intros [x [Hx E]]. apply String.eqb_eq in E. now subst.
  - intros H. exists n. split; [exact H | apply String.eqb_refl].
Qed.

Lemma not_inherited_iff (n : string) :
  existsb (String.eqb n) Object_prototype = false <-> ~ In n Object_prototype.
Proof.
  rewrite <- inherited_iff. destruct (existsb _ _); split; congruence.
Qed.

(** X12 (updateMap, showTooltip).  For a shape of the map and a known
    metric: the shape gets the colour of a bucket exactly when its name
    is a state of the dataset with figures for the year, and these are
    exactly the shapes that show a tooltip.  It is grey when its name is
    unknown, and then there is no tooltip, or when its state has no
    figures for the year, and then pointing at it throws a [TypeError].
    A name that the states object inherits from [Object.prototype] makes
    both the fill and the tooltip throw. *)
Theorem map_fill_and_tooltip :
  forall (app : App) (currentMetric : Metric) (stateName : string),
    currentMetric <> MetricOther ->
    let own := ownProperty stateName (states (data app)) in
    let hasFigures :=
      exists stateData yearData,
        own = Some stateData /\
        get (timeseries stateData) (currentYear app) = Some yearData in
    let lacksFigures :=
      exists stateData,
        own = Some stateData /\
        get (timeseries stateData) (currentYear app) = None in
    let unknown := own = None /\ ~ In stateName Object_prototype in
    let inherited := own = None /\ In stateName Object_prototype in
    ((exists b, fillColor app currentMetric stateName = Ok (hex b))
     <-> hasFigures) /\
    ((exists body, showTooltip app currentMetric stateName
                   = Ok (Some (stateName, body)))
     <-> hasFigures) /\
    (fillColor app currentMetric stateName = Ok "#ccc"%string
     <-> unknown \/ lacksFigures) /\
    (showTooltip app currentMetric stateName = Ok None <-> unknown) /\
    (fillColor app currentMetric stateName = Throw TypeError <-> inherited) /\
    (showTooltip app currentMetric stateName = Throw TypeError
     <-> inherited \/ lacksFigures).
Proof.
  intros app metric n Hm. cbv zeta.
  unfold fillColor, showTooltip, stateNamed.
  destruct (ownProperty n (states (data app))) as [sd|] eqn:Eo.
  - destruct (get (timeseries sd) (currentYear app)) as [yd|] eqn:Ey.
    + assert (Hfig : exists stateData yearData,
                 Some sd = Some stateData /\
                 get (timeseries stateData) (currentYear app) = Some yearData)
        by (exists sd, yd; auto).
      assert (Hlack : ~ exists stateData,
                 Some sd = Some stateData /\
                 get (timeseries stateData) (currentYear app) = None).
      { intros [x [E Hx]]. injection E as <-. congruence. }
      destruct metric; try contradiction; cbn [bind prop];
        (split; [split; [auto | intros _; eexists; reflexivity]|]);
        (split; [split; [auto | intros _; eexists; reflexivity]|]);
        (split; [split; [intros H; injection H as H; now apply hex_not_grey in H
                        | intros [[H _] | H]; [discriminate H | contradiction]]|]);
        (split; [split; [discriminate | intros [H _]; discriminate H]|]);
        (split; [split; [discriminate | intros [H _]; discriminate H]|]);
        (split; [discriminate | intros [[H _] | H]; [discriminate H | contradiction]]).
    + assert (Hfig : ~ exists stateData yearData,
                 Some sd = Some stateData /\
                 get (timeseries stateData) (currentYear app) = Some yearData).
      { intros [x [y [E Hx]]]. injection E as <-. congruence. }
      assert (Hlack : exists stateData,
                 Some sd = Some stateData /\
                 get (timeseries stateData) (currentYear app) = None)
        by (exists sd; auto).
      destruct metric; try contradiction; cbn [bind prop];
        (split; [split; [intros [b H]; injection H as H; symmetry in H;
                         now apply hex_not_grey in H
                        | intros H; contradiction]|]);
        (split; [split; [intros [body H]; discriminate H | intros H; contradiction]|]);
        (split; [split; [auto | reflexivity]|]);
        (split; [split; [discriminate | intros [H _]; discriminate H]|]);
        (split; [split; [discriminate | intros [H _]; discriminate H]|]);
        (split; [auto | reflexivity]).
  - assert (Hfig : ~ exists stateData yearData,
               @None StateRecord = Some stateData /\
               get (timeseries stateData) (currentYear app) = Some yearData).
    { intros [x [y [E _]]]. discriminate E. }
    assert (Hlack : ~ exists stateData,
               @None StateRecord = Some stateData /\
               get (timeseries stateData) (currentYear app) = None).
    { intros [x [E _]]. discriminate E. }
    destruct (existsb (String.eqb n) Object_prototype) eqn:Ei.
    + apply inherited_iff in Ei.
      split; [split; [intros [b H]; discriminate H | intros H; contradiction]|].
      split; [split; [intros [b H]; discriminate H | intros H; contradiction]|].
      split; [split; [discriminate
                     | intros [[_ H] | H]; contradiction]|].
      split; [split; [discriminate | intros [_ H]; contradiction]|].
      split; [split; auto|].
      split; auto.
    + apply not_inherited_iff in Ei.
      split; [split; [intros [b H]; injection H as H; symmetry in H;
                      now apply hex_not_grey in H
                     | intros H; contradiction]|].
      split; [split; [intros [b H]; discriminate H | intros H; contradiction]|].
      split; [split; auto|].
      split; [split; auto|].
      split; [split; [discriminate | intros [_ H]; contradiction]|].
      split; [discriminate | intros [[_ H] | H]; contradiction].
Qed.

Lemma map_fill_and_tooltip_witness :
  (fillColor gappyApp MetricMli "Puerto Rico" = Ok "#ccc"%string /\
   showTooltip gappyApp MetricMli "Puerto Rico" = Ok None) /\
  (fillColor gappyApp MetricMli "Alaska" = Ok "#ccc"%string /\
   showTooltip gappyApp MetricMli "Alaska" = Throw TypeError) /\
  (fillColor gappyApp MetricMli "constructor" = Throw TypeError /\
   showTooltip gappyApp MetricMli "constructor" = Throw TypeError) /\
  fillColor gappyApp MetricMli "Alabama" = Ok "#f97316"%string.
Proof.
  assert (Hm : MetricMli <> MetricOther) by discriminate.
  destruct (map_fill_and_tooltip gappyApp "Puerto Rico" Hm)
    as [_ [_ [grey [none _]]]].
  destruct (map_fill_and_tooltip gappyApp "Alaska" Hm)
    as [_ [_ [gap [_ [_ throws]]]]].
  destruct (map_fill_and_tooltip gappyApp "constructor" Hm)
    as [_ [_ [_ [_ [fillThrows tipThrows]]]]].
  assert (Hunknown : ownProperty "Puerto Rico" (states (data gappyApp)) = None /\
                     ~ In "Puerto Rico"%string Object_prototype).
  { split; [reflexivity|]. apply not_inherited_iff. reflexivity. }
  assert (Hgap : exists stateData,
             ownProperty "Alaska" (states (data gappyApp)) = Some stateData /\
             get (timeseries stateData) (currentYear gappyApp) = None)
    by (eexists; split; reflexivity).
  assert (Hinh : ownProperty "constructor" (states (data gappyApp)) = None /\
                 In "constructor"%string Object_prototype)
    by (split; [reflexivity | simpl; auto]).
  split; [split; [apply grey; left; exact Hunknown | apply none; exact Hunknown]|].
  split; [split; [apply gap; right; exact Hgap | apply throws; right; exact Hgap]|].
  split; [split; [apply fillThrows; exact Hinh | apply tipThrows; left; exact Hinh]|].
  reflexivity.
Defined.

(** ** The legend *)

Lemma fold_min_bound (vs : list Q) (a : Q) :
  exists m,
    fold_left (fun acc v => if ltb (Fin v) acc then Fin v else acc) vs (Fin a) = Fin m /\
    (m = a \/ In m vs) /\ m <= a /\ forall v, In v vs -> m <= v.
Proof.
  revert a. induction vs as [|v vs IH]; intro a; simpl.
  - exists a. repeat split; auto; try lra. intros v [].
  - destruct (Qltb_spec v a) as [Hlt | Hge].
    + destruct (IH v) as [m [E [Hin [Hle Hall]]]]. exists m.
      repeat split; auto; try lra.
      * destruct Hin as [-> | Hin]; auto.
      * intros x [<- | Hx]; [exact Hle | now apply Hall].
    + destruct (IH a) as [m [E [Hin [Hle Hall]]]]. exists m.
      repeat split; auto.
      * destruct Hin as [-> | Hin]; auto.
      * intros x [<- | Hx]; [lra | now apply Hall].
Qed.

Lemma fold_max_bound (vs : list Q) (a : Q) :
  exists m,
    fold_left (fun acc v => if ltb acc (Fin v) then Fin v else acc) vs (Fin a) = Fin m /\
    (m = a \/ In m vs) /\ a <= m /\ forall v, In v vs -> v <= m.
Proof.
  revert a. induction vs as [|v vs IH]; intro a; simpl.
  - exists a. repeat split; auto; try lra. intros v [].
  - destruct (Qltb_spec a v) as [Hlt | Hge].
    + destruct (IH v) as [m [E [Hin [Hle Hall]]]]. exists m.
      repeat split; auto; try lra.
      * destruct Hin as [-> | Hin]; auto.
      * intros x [<- | Hx]; [exact Hle | now apply Hall].
    + destruct (IH a) as [m [E [Hin [Hle Hall]]]]. exists m.
      repeat split; auto.
      * destruct Hin as [-> | Hin]; auto.
      * intros x [<- | Hx]; [lra | now apply Hall].
Qed.

Lemma Math_min_cons (w : Q) (ws : list Q) :
  Math_min (w :: ws)
  = fold_left (fun acc v => if ltb (Fin v) acc then Fin v else acc) ws (Fin w).
Proof. reflexivity. Qed.

Lemma Math_max_cons (w : Q) (ws : list Q) :
  Math_max (w :: ws)
  = fold_left (fun acc v => if ltb acc (Fin v) then Fin v else acc) ws (Fin w).
Proof. reflexivity. Qed.

(** The minimum and the maximum of a set that is not empty span it. *)
Lemma min_max_span (vs : list Q) :
  vs <> [] ->
  exists lo hi, Math_min vs = Fin lo /\ Math_max vs = Fin hi /\ spans vs lo hi.
Proof.
  destruct vs as [|w ws]; [congruence | intros _].
  rewrite Math_min_cons, Math_max_cons. unfold spans. cbn [In].
  destruct (fold_min_bound ws w) as [lo [-> [Hlo [Hlw Hlall]]]].
  destruct (fold_max_bound ws w) as [hi [-> [Hhi [Hhw Hhall]]]].
  exists lo, hi. repeat split; try reflexivity.
  - destruct Hlo as [-> | H]; auto.
  - destruct Hhi as [-> | H]; auto.
  - destruct H as [<- | H]; [exact Hlw | now apply Hlall].
  - destruct H as [<- | H]; [exact Hhw | now apply Hhall].
Qed.

(** X13 (updateLegend, getSurplusColor, getIncomeColor, getCOLColor).  For
    the surplus, the income and the cost of living, the two ends of the
    legend are the lowest and the highest value of the year, so every
    state on the map lies between them, and no state is redder than a
    state at the red end of the legend nor greener than a state at its
    green end (the red end is the low one, except for the cost of living,
    whose gradient bar is the only one to be inverted).  Without any value
    for the year the legend runs from [Infinity] to [-Infinity]. *)
Theorem legend_spans_the_map :
  forall (app : App) (legend : Legend),
    (yearValues app surplus <> [] ->
     exists lo hi,
       legend_low (updateLegend app MetricSurplus legend) = Fin lo /\
       legend_high (updateLegend app MetricSurplus legend) = Fin hi /\
       spans (yearValues app surplus) lo hi /\
       forall v, In v (yearValues app surplus) ->
                 (level (getSurplusColor app lo) <= level (getSurplusColor app v)
                  <= level (getSurplusColor app hi))%nat) /\
    (yearValues app income <> [] ->
     exists lo hi,
       legend_low (updateLegend app MetricIncome legend) = Fin lo /\
       legend_high (updateLegend app MetricIncome legend) = Fin hi /\
       spans (yearValues app income) lo hi /\
       forall v, In v (yearValues app income) ->
                 (level (getIncomeColor app lo) <= level (getIncomeColor app v)
                  <= level (getIncomeColor app hi))%nat) /\
    (yearValues app col <> [] ->
     exists lo hi,
       legend_low (updateLegend app MetricCol legend) = Fin lo /\
       legend_high (updateLegend app MetricCol legend) = Fin hi /\
       spans (yearValues app col) lo hi /\
       forall v, In v (yearValues app col) ->
                 (level (getCOLColor app hi) <= level (getCOLColor app v)
                  <= level (getCOLColor app lo))%nat) /\
    (forall m, legend_inverted (updateLegend app m legend) = true <->
               m = MetricCol \/ (m = MetricOther /\ legend_inverted legend = true)) /\
    (yearValues app surplus = [] ->
     legend_low (updateLegend app MetricSurplus legend) = PosInf /\
     legend_high (updateLegend app MetricSurplus legend) = NegInf).
Proof.
  intros app legend. split; [|split; [|split; [|split]]].
  - intros Hne. destruct (min_max_span Hne) as [lo [hi [Hmin [Hmax Hs]]]].
    exists lo, hi. simpl.
    split; [exact Hmin|]. split; [exact Hmax|]. split; [exact Hs|].
    intros v Hv. destruct Hs as [_ [_ Hs]]. destruct (Hs v Hv) as [H1 H2].
    split; now apply getSurplusColor_monotone.
  - intros Hne. destruct (min_max_span Hne) as [lo [hi [Hmin [Hmax Hs]]]].
    exists lo, hi. simpl.
    split; [exact Hmin|]. split; [exact Hmax|]. split; [exact Hs|].
    intros v Hv. destruct Hs as [_ [_ Hs]]. destruct (Hs v Hv) as [H1 H2].
    split; now apply getIncomeColor_monotone.
  - intros Hne. destruct (min_max_span Hne) as [lo [hi [Hmin [Hmax Hs]]]].
    exists lo, hi. simpl.
    split; [exact Hmin|]. split; [exact Hmax|]. split; [exact Hs|].
    intros v Hv. destruct Hs as [_ [_ Hs]]. destruct (Hs v Hv) as [H1 H2].
    split; now apply getCOLColor_antitone.
  - intros m. destruct m; simpl; split; intros H; auto; try discriminate H;
      try (destruct H as [H | [H _]]; discriminate H).
    + now destruct H as [H | [_ H]].
  - intros H. simpl. rewrite H. split; reflexivity.
Qed.

Lemma legend_spans_the_map_witness :
  exists lo hi,
    legend_low (updateLegend abcApp MetricCol (mkLegend "" NaN NaN false None)) = Fin lo /\
    legend_high (updateLegend abcApp MetricCol (mkLegend "" NaN NaN false None)) = Fin hi /\
    spans (yearValues abcApp col) lo hi /\
    forall v, In v (yearValues abcApp col) ->
              (level (getCOLColor abcApp hi) <= level (getCOLColor abcApp v)
               <= level (getCOLColor abcApp lo))%nat.
Proof.
  destruct (legend_spans_the_map abcApp (mkLegend "" NaN NaN false None))
    as [_ [_ [cost _]]].
  apply cost. discriminate.
Defined.

(** ** Dragging the detail panel *)

Lemma handle_insideWindow (vp : Viewport) (d : Drag) (e : MouseEvent) :
  (offsetWidth vp <= innerWidth vp)%Z -> (offsetHeight vp <= innerHeight vp)%Z ->
  insideWindow vp d -> insideWindow vp (handle vp d e).
Proof.
  intros Hw Hh [Hx Hy]. unfold insideWindow.
  destruct e as [cx cy close | cx cy | |]; simpl.
  - destruct close; simpl; auto.
  - destruct (isDragging d); simpl; [|auto].
    unfold constrain. split; intros v H; injection H as <-; lia.
  - auto.
  - split; intros v H; discriminate H.
Qed.

(** X14 (setupDraggablePanel).  As long as the panel is not larger than
    the window, no sequence of presses, moves and releases of the mouse
    takes it out of the window, not even partly; a move without a press on
    the header does not move it; and a press followed by a move shifts it
    by the distance the mouse has covered, as far as the window allows. *)
Theorem dragging_keeps_the_panel_inside :
  forall (vp : Viewport) (events : list MouseEvent) (d : Drag),
    (offsetWidth vp <= innerWidth vp)%Z -> (offsetHeight vp <= innerHeight vp)%Z ->
    insideWindow vp d ->
    insideWindow vp (handleAll vp events d) /\
    (isDragging d = false ->
     forall x y, handle vp d (MouseMove x y) = d) /\
    (forall x y dx dy,
        style_left (handleAll vp [MouseDown x y false; MouseMove (x + dx) (y + dy)] d)
        = Some (constrain (parsedOr0 (style_left d) + dx)
                          (innerWidth vp - offsetWidth vp)) /\
        style_top (handleAll vp [MouseDown x y false; MouseMove (x + dx) (y + dy)] d)
        = Some (constrain (parsedOr0 (style_top d) + dy)
                          (innerHeight vp - offsetHeight vp))).
Proof.
  intros vp events d Hw Hh Hin. split; [|split].
  - unfold handleAll. revert d Hin.
    induction events as [|e events IH]; intros d Hin; simpl; [exact Hin|].
    apply IH. now apply handle_insideWindow.
  - intros Hd x y. simpl. now rewrite Hd.
  - intros x y dx dy. simpl. split; do 2 f_equal; lia.
Qed.

Lemma dragging_keeps_the_panel_inside_witness :
  insideWindow (mkViewport 1280 720 400 600)
               (handleAll (mkViewport 1280 720 400 600)
                          [MouseDown 100 50 false; MouseMove 2000 (-300); MouseUp;
                           MouseMove 5 5]
                          notDragged) /\
  style_left (handleAll (mkViewport 1280 720 400 600)
                        [MouseDown 100 50 false; MouseMove 2000 (-300); MouseUp;
                         MouseMove 5 5]
                        notDragged) = Some 880%Z.
Proof.
  split; [|reflexivity].
  apply (@dragging_keeps_the_panel_inside
           (mkViewport 1280 720 400 600)
           [MouseDown 100 50 false; MouseMove 2000 (-300); MouseUp; MouseMove 5 5]
           notDragged).
  - simpl. lia.
  - simpl. lia.
  - split; intros v H; discriminate H.
Defined.

(** ** The savings distribution *)

Lemma three_labels_count (snapshot : list string) :
  let count := fun label => List.length (filter (fun s => String.eqb s label) snapshot) in
  (count "Surplus"%string + count "Paycheck-to-Paycheck"%string + count "Deficit"%string
   <= List.length snapshot)%nat /\
  ((count "Surplus"%string + count "Paycheck-to-Paycheck"%string + count "Deficit"%string
    = List.length snapshot)%nat <->
   Forall (fun s => s = "Surplus"%string \/ s = "Paycheck-to-Paycheck"%string
                    \/ s = "Deficit"%string) snapshot).
Proof.
  cbv zeta. induction snapshot as [|x l [IHle IHeq]]; simpl.
  - split; [lia|]. split; [constructor | reflexivity].
  - rewrite Forall_cons_iff, <- IHeq.
    destruct (String.eqb_spec x "Surplus") as [-> | N1]; simpl;
      [split; [lia|]; split; [intros H; split; [auto | lia] | intros [_ H]; lia]|].
    destruct (String.eqb_spec x "Paycheck-to-Paycheck") as [-> | N2]; simpl;
      [split; [lia|]; split; [intros H; split; [auto | lia] | intros [_ H]; lia]|].
    destruct (String.eqb_spec x "Deficit") as [-> | N3]; simpl;
      [split; [lia|]; split; [intros H; split; [auto | lia] | intros [_ H]; lia]|].
    split; [lia|]. split; [lia|].
    intros [[E | [E | E]] _]; congruence.
Qed.

(** X15 (populateSavingsDistribution).  The three numbers of the savings
    distribution never add up to more than the number of states of the
    snapshot, and they add up to it exactly when every state has one of
    the three statuses that are counted; a state with another status is in
    none of the three bars. Without market data, or without its snapshot,
    nothing is written. *)
Theorem savings_distribution_counts :
  forall app : App,
    (forall inSurplus neutral inDeficit : nat,
        savingsDistribution app = Some (inSurplus, neutral, inDeficit) ->
        exists m snapshot,
          marketData app = Some m /\
          current_snapshot_2023 m = Some snapshot /\
          (inSurplus + neutral + inDeficit <= List.length snapshot)%nat /\
          ((inSurplus + neutral + inDeficit = List.length snapshot)%nat <->
           forall s, In s snapshot ->
                     s = "Surplus"%string \/ s = "Paycheck-to-Paycheck"%string
                     \/ s = "Deficit"%string)) /\
    (savingsDistribution app = None <->
     marketData app = None \/
     exists m, marketData app = Some m /\ current_snapshot_2023 m = None).
Proof.
  intro app. unfold savingsDistribution. split.
  - intros a b c H.
    destruct (marketData app) as [m|]; [|discriminate H].
    destruct (current_snapshot_2023 m) as [snapshot|] eqn:E; [|discriminate H].
    injection H as <- <- <-. exists m, snapshot.
    split; [reflexivity|]. split; [exact E|].
    rewrite <- Forall_forall. apply (three_labels_count snapshot).
  - destruct (marketData app) as [m|].
    + destruct (current_snapshot_2023 m) eqn:E; split; intros H; try discriminate H.
      * destruct H as [H | [m' [H1 H2]]]; [discriminate H|].
        injection H1 as <-. congruence.
      * right. eauto.
      * reflexivity.
    + split; auto.
Qed.

(** ** The year slider and the 5-year change *)

Lemma findIndex_year (years : list Z) (i : nat) (y : Z) :
  NoDup years -> nth_error years i = Some y ->
  findIndex (fun x => Z.eqb x y) years = Z.of_nat i.
Proof.
  revert i. induction years as [|x l IH]; intros i Hnd Hi.
  - destruct i; discriminate.
  - inversion Hnd as [|? ? Hx Hl]; subst.
    destruct i as [|i]; simpl in Hi |- *.
    + injection Hi as ->. now rewrite Z.eqb_refl.
    + destruct (Z.eqb_spec x y) as [-> | _].
      * exfalso. apply Hx. eapply nth_error_In; eassumption.
      * rewrite (IH i Hl Hi). destruct (Z.ltb_spec (Z.of_nat i) 0); lia.
Qed.

Lemma index_nth {A : Type} (l : list A) (i : Z) :
  (0 <= i < Zlen l)%Z -> exists a, index l i = Some a /\ nth_error l (Z.to_nat i) = Some a.
Proof.
  intros Hi. unfold index, Zlen in *.
  destruct (Z.ltb_spec i 0); [lia|].
  destruct (nth_error l (Z.to_nat i)) as [a|] eqn:E; [eauto|].
  apply nth_error_None in E. lia.
Qed.

(** X16 (setupEventListeners, updateRankingsTable, loadData).  With
    distinct years, the year that the slider selects is found again at the
    position of the slider, so the year of the 5-year change is the one
    five positions before it: the rankings table shows a 5-year change of
    [0] on the first five positions of the slider, and from the sixth
    position on the difference between the MLI of the year and the MLI
    five positions back.  At start-up the slider is on the last position. *)
Theorem slider_position_and_lookback :
  forall (app : App) (position : Z),
    NoDup (availableYears app) ->
    (0 <= position < Zlen (availableYears app))%Z ->
    fiveYearIndex (slideTo position app) = (position - 5)%Z /\
    (forall n s yearData firstYearData,
        get (timeseries s) (currentYear (slideTo position app)) = Some yearData ->
        get (timeseries s) (index (availableYears app) 0) = Some firstYearData ->
        exists row,
          tableRow (slideTo position app) n s = Ok row /\
          ((position < 5)%Z -> r_change5yr row = 0) /\
          ((5 <= position)%Z ->
           forall fiveYearData,
             get (timeseries s) (index (availableYears app) (position - 5))
             = Some fiveYearData ->
             r_change5yr row = mli yearData - mli fiveYearData)) /\
    (forall d market,
        availableYears app = years d ->
        currentYear (loadedApp d market)
        = currentYear (slideTo (Zlen (availableYears app) - 1) app)).
Proof.
  intros app position Hnd Hpos.
  destruct (index_nth (availableYears app) Hpos) as [y [Hy Hn]].
  assert (H5 : fiveYearIndex (slideTo position app) = (position - 5)%Z).
  { unfold fiveYearIndex, slideTo. simpl. rewrite Hy.
    rewrite (findIndex_year _ Hnd Hn). lia. }
  split; [exact H5|]. split.
  - intros n s yd y0 Hyd Hy0.
    unfold tableRow, tableChange5yr. fold (fiveYearIndex (slideTo position app)).
    rewrite H5, Hyd. cbn [slideTo availableYears]. rewrite Hy0. cbn [prop bind].
    eexists. split; [reflexivity|]. cbn [r_change5yr]. split.
    + intros Hlt. destruct (Z.leb_spec 0 (position - 5)); [lia | reflexivity].
    + intros Hge y5 Hy5. destruct (Z.leb_spec 0 (position - 5)); [|lia].
      now rewrite Hy5.
  - intros d market E. unfold loadedApp, slideTo. simpl. now rewrite E.
Qed.

Lemma history_years_distinct : NoDup (availableYears (historyApp 2008)).
Proof.
  simpl. repeat constructor; simpl; intuition discriminate.
Defined.

Lemma slider_position_and_lookback_witness :
  fiveYearIndex (slideTo 6 (historyApp 2008)) = 1%Z /\
  exists row,
    tableRow (slideTo 6 (historyApp 2008)) "Ohio" ohio = Ok row /\
    r_change5yr row
    = mli (metrics (112 # 100) 56000 50000) - mli (metrics (102 # 100) 51000 50000).
Proof.
  assert (Hpos : (0 <= 6 < Zlen (availableYears (historyApp 2008)))%Z)
    by (unfold Zlen; simpl; lia).
  destruct (@slider_position_and_lookback (historyApp 2008) 6
              history_years_distinct Hpos) as [H5 [Hrow _]].
  split; [exact H5|].
  destruct (Hrow "Ohio"%string ohio (metrics (112 # 100) 56000 50000)
                 (metrics (100 # 100) 50000 50000) eq_refl eq_refl)
    as [row [E [_ Hfive]]].
  exists row. split; [exact E|].
  apply Hfive; [lia | reflexivity].
Defined.

(** ** The detail panel *)

Lemma ownProperty_In (n : string) (l : list (string * StateRecord)) (s : StateRecord) :
  ownProperty n l = Some s -> In (n, s) l.
Proof.
  induction l as [|[k v] l IH]; simpl; [discriminate|].
  destruct (String.eqb_spec k n) as [-> | _]; intros H.
  - injection H as ->. auto.
  - auto.
Qed.

(** When the first statement of [getStateRanking] does not throw, it
    keeps the names, and every state has figures for the year. *)
Lemma ranked_names (year : option Z) (xs : list (string * StateRecord))
      (l : list (string * Q)) :
  mapM (fun '(name, data) =>
          m <- prop (get (timeseries data) year) mli ;;
          Ok (name, m)) xs = Ok l ->
  map fst l = map fst xs /\
  Forall (fun s => get (timeseries s) year <> None) (map snd xs).
Proof.
  revert l. induction xs as [|[n d] xs IH]; simpl; intros l H.
  - injection H as <-. split; constructor.
  - destruct (get (timeseries d) year) as [y|] eqn:E; simpl in H; [|discriminate].
    destruct (mapM _ xs) as [l'|] eqn:E'; simpl in H; [|discriminate].
    injection H as <-. destruct (IH l' eq_refl) as [IH1 IH2]. simpl.
    split; [now rewrite IH1 | constructor; [congruence | exact IH2]].
Qed.

(** The rank of a state that is in the dataset is never 0. *)
Lemma ranking_of_listed_state (app : App) (n : string) (r : Z) :
  In n (Object_keys (states (data app))) ->
  getStateRanking app n = Ok r ->
  (1 <= r <= Zlen (states (data app)))%Z /\ complete app.
Proof.
  intros Hin H. unfold getStateRanking, Object_entries in H.
  destruct (mapM _ (states (data app))) as [l|] eqn:E; simpl in H; [|discriminate].
  injection H as <-.
  destruct (ranked_names _ _ E) as [Hn Hc].
  split; [split|].
  - set (sorted := sort (fun a b => snd b - snd a) l).
    assert (0 <= findIndex (fun s => String.eqb (fst s) n) sorted)%Z; [|lia].
    apply findIndex_present. unfold sorted.
    unfold Object_keys in Hin. rewrite <- Hn in Hin.
    apply in_map_iff in Hin. destruct Hin as [x [Hx Hl]].
    exists x. split.
    + eapply Permutation_in; [apply Permutation_sym, sort_perm | exact Hl].
    + rewrite Hx. apply String.eqb_refl.
  - pose proof (findIndex_bounds (fun s => String.eqb (fst s) n)
                                 (sort (fun a b => snd b - snd a) l)) as Hb.
    unfold Zlen in *. rewrite sort_length in Hb.
    rewrite <- (length_map fst l), Hn, length_map in Hb. lia.
  - intros s Hs. rewrite Forall_forall in Hc. now apply Hc.
Qed.

Lemma trend_chart_years (app : App) (s : StateRecord) (chart : list (Z * Q)) :
  createTrendChart app s = Ok chart -> map fst chart = availableYears app.
Proof.
  unfold createTrendChart. generalize (availableYears app) as ys.
  intros ys. revert chart. induction ys as [|y ys IH]; intros chart H.
  - simpl in H. now injection H as <-.
  - cbn [mapM] in H.
    destruct (get (timeseries s) (Some y)); cbn [bind prop] in H; [|discriminate].
    destruct (mapM _ ys) as [l|]; cbn [bind] in H; [|discriminate].
    injection H as <-. simpl. now rewrite (IH l eq_refl).
Qed.

Lemma createTrendInsight_ok (app : App) (s : StateRecord) :
  availableYears app <> [] ->
  get (timeseries s) (currentYear app) <> None ->
  (forall y, In y (availableYears app) -> get (timeseries s) (Some y) <> None) ->
  exists t, createTrendInsight app s = Ok t.
Proof.
  intros Hne Hnow Hall. unfold createTrendInsight.
  set (i := findIndex _ (availableYears app)).
  assert (Hi : (-1 <= i < Zlen (availableYears app))%Z) by apply findIndex_bounds.
  assert (Hidx : forall j, (0 <= j < Zlen (availableYears app))%Z ->
                 exists m, get (timeseries s) (index (availableYears app) j) = Some m).
  { intros j Hj. destruct (index_nth (availableYears app) Hj) as [y [-> Hy]].
    apply nth_error_In in Hy. specialize (Hall y Hy).
    destruct (get (timeseries s) (Some y)) as [m|]; [eauto | congruence]. }
  assert (Hpos : (0 < Zlen (availableYears app))%Z).
  { unfold Zlen. destruct (availableYears app); [congruence | simpl; lia]. }
  destruct (get (timeseries s) (currentYear app)) as [now|] eqn:En; [|congruence].
  destruct (Z.leb_spec 0 (i - 5)).
  - destruct (Hidx (i - 5)%Z) as [m ->]; [lia|]. simpl. eauto.
  - destruct (Hidx 0%Z) as [m ->]; [lia|].
    destruct (Hidx (Zlen (availableYears app) - 1)%Z) as [m' ->]; [lia|].
    simpl. eauto.
Qed.

(** X17 (showDetailPanel, createTrendChart).  For a name that is
    neither a state of the dataset nor a member that the states object
    inherits from [Object.prototype], the panel is left as it is and
    nothing is thrown; for an inherited name such as "constructor" the
    test [!stateData] is passed and a [TypeError] is thrown.  When the
    panel is filled, the name is a state of the dataset, the rank it
    displays is the one of getStateRanking and lies between 1 and the
    number of states (never 0), every state has figures for the year,
    the class of the interpretation agrees with its wording although the
    two test the thresholds in opposite orders, the shortfall label, the
    red colour and the deficit highlight go together, and the chart has
    one point for each available year.  The panel is filled for every
    state of a complete dataset that has figures for all available years
    and has categories. *)
Theorem detail_panel_contents
        (categories : StateRecord -> option (list (string * Q)))
        (app : App) (stateName : string) :
  (ownProperty stateName (states (data app)) = None ->
   (~ In stateName Object_prototype ->
    showDetailPanel categories app stateName = Ok None) /\
   (In stateName Object_prototype ->
    showDetailPanel categories app stateName = Throw TypeError)) /\
  (forall p,
     showDetailPanel categories app stateName = Ok (Some p) ->
     In stateName (Object_keys (states (data app))) /\
     getStateRanking app stateName = Ok (p_mliRank p) /\
     (1 <= p_mliRank p <= Zlen (states (data app)))%Z /\
     complete app /\
     (p_interpretationClass p = "surplus"%string <->
      p_interpretation p = PercentSurplus) /\
     (p_interpretationClass p = "deficit"%string <->
      p_interpretation p = PercentDeficit) /\
     (p_interpretationClass p = "breakeven"%string <->
      p_interpretation p = BreakEven) /\
     (p_highlightDeficit p = true <->
      p_surplusLabel p = "Annual shortfall"%string) /\
     (p_highlightDeficit p = true <->
      p_surplusColor p = "var(--red)"%string) /\
     map fst (p_trendChart p) = availableYears app) /\
  (forall stateData,
     ownProperty stateName (states (data app)) = Some stateData ->
     complete app ->
     availableYears app <> [] ->
     (forall y, In y (availableYears app) ->
                get (timeseries stateData) (Some y) <> None) ->
     categories stateData <> None ->
     exists p, showDetailPanel categories app stateName = Ok (Some p)).
Proof.
  split; [|split].
  - intros H. unfold showDetailPanel, stateNamed. rewrite H. split; intros Hi.
    + apply not_inherited_iff in Hi. now rewrite Hi.
    + apply inherited_iff in Hi. now rewrite Hi.
  - intros p H. unfold showDetailPanel, stateNamed in H.
    destruct (ownProperty stateName (states (data app))) as [s|] eqn:Es;
      [|destruct (existsb _ _); discriminate].
    destruct (getStateRanking app stateName) as [r|] eqn:Er;
      cbn [bind] in H; [|discriminate].
    destruct (get (timeseries s) (currentYear app)) as [y|];
      cbn [bind prop] in H; [|discriminate].
    destruct (createTrendChart app s) as [chart|] eqn:Ec;
      cbn [bind] in H; [|discriminate].
    destruct (categories s) as [cats|]; cbn [bind prop] in H; [|discriminate].
    destruct (createTrendInsight app s) as [t|]; cbn [bind] in H; [|discriminate].
    injection H as <-. cbn [p_mliRank p_interpretationClass p_interpretation
                            p_highlightDeficit p_surplusLabel p_surplusColor
                            p_trendChart].
    assert (Hin : In stateName (Object_keys (states (data app)))).
    { apply ownProperty_In in Es. unfold Object_keys.
      apply in_map_iff. exists (stateName, s). auto. }
    destruct (ranking_of_listed_state app stateName Hin Er) as [Hr Hc].
    split; [exact Hin|].
    split; [reflexivity|]. split; [exact Hr|]. split; [exact Hc|].
    unfold getMLIInterpretation.
    assert (Hleb : Qleb 0 (surplus y) = negb (Qltb (surplus y) 0)).
    { destruct (Qltb_spec (surplus y) 0) as [L | L]; simpl.
      - destruct (Qleb 0 (surplus y)) eqn:E; [|reflexivity].
        apply Qleb_true in E. lra.
      - apply Qleb_true. lra. }
    rewrite Hleb.
    destruct (Qltb_spec (105 # 100) (mli y)) as [Hs | Hs];
      destruct (Qltb_spec (mli y) (95 # 100)) as [Hd | Hd];
      try (exfalso; lra);
      destruct (Qltb (surplus y) 0); cbn [negb];
      repeat split; try discriminate; try reflexivity;
      try (now apply (trend_chart_years app s)).
  - intros s Es Hc Hne Hall Hcat. unfold showDetailPanel, stateNamed. rewrite Es.
    assert (Hnow : get (timeseries s) (currentYear app) <> None).
    { apply Hc. apply ownProperty_In in Es. unfold Object_values.
      apply in_map_iff. exists (stateName, s). auto. }
    rewrite getStateRanking_rankedStates, (rankedStates_complete Hc). cbn [bind].
    destruct (createTrendInsight_ok app s Hne Hnow Hall) as [t Ht].
    destruct (get (timeseries s) (currentYear app)) as [y|]; [|congruence].
    cbn [bind prop].
    destruct (@mapM_ok Z (Z * Q)
                (fun year => m <- prop (get (timeseries s) (Some year)) mli ;;
                             Ok (year, m))
                (availableYears app)) as [chart Hchart].
    { intros x Hx. specialize (Hall x Hx).
      destruct (get (timeseries s) (Some x)); [simpl; eauto | congruence]. }
    unfold createTrendChart. rewrite Hchart. cbn [bind].
    destruct (categories s) as [cats|]; [|congruence]. cbn [bind prop].
    rewrite Ht. cbn [bind]. eauto.
Qed.

Lemma detail_panel_contents_witness :
  showDetailPanel (fun _ => Some sampleCategories) abcApp "Zed" = Ok None /\
  showDetailPanel (fun _ => Some sampleCategories) abcApp "constructor"
  = Throw TypeError /\
  exists p,
    showDetailPanel (fun _ => Some sampleCategories) abcApp "C" = Ok (Some p) /\
    p_mliRank p = 2%Z /\ p_interpretation p = BreakEven.
Proof.
  split; [|split].
  - destruct (detail_panel_contents (fun _ => Some sampleCategories) abcApp "Zed")
      as [H _].
    apply H; [reflexivity|]. apply not_inherited_iff. reflexivity.
  - destruct (detail_panel_contents (fun _ => Some sampleCategories) abcApp
                                    "constructor") as [H _].
    apply H; [reflexivity|]. simpl. auto.
  - destruct (detail_panel_contents (fun _ => Some sampleCategories) abcApp "C")
      as [_ [Hshown Hopens]].
    destruct (Hopens (mkState "C" [(2023%Z, metrics 1 55000 55000)]) eq_refl
                     abcApp_complete) as [p Hp].
    + discriminate.
    + intros y [<- | []]. discriminate.
    + discriminate.
    + exists p. split; [exact Hp|].
      destruct (Hshown p Hp) as [_ [Hr [_ [_ [_ [_ [Hb _]]]]]]].
      split.
      * assert (E : getStateRanking abcApp "C" = Ok 2%Z) by reflexivity.
        congruence.
      * apply Hb.
        assert (E : exists q, showDetailPanel (fun _ => Some sampleCategories)
                                              abcApp "C" = Ok (Some q) /\
                              p_interpretationClass q = "breakeven"%string)
          by (eexists; split; reflexivity).
        destruct E as [q [Eq Hq]]. congruence.
Defined.

(** ** The "bottom 10" tab of [website/app.js] *)

(** X18 (website/app.js: updateRankingsTable).  In the earlier version
    of the table the "bottom 10" tab lists the last ten rows of the full
    table, last row first, but numbers them upwards from N - 9, N the
    number of states: the row at position i shows N - 9 + i while it has
    rank N - i in the full table, so no row of the tab shows the rank it
    has there. *)
Theorem older_bottom10_numbering {L : Locale}
        (app : App) (sortValue : AppJs.SortValue) (all : list AppJs.Tr) :
  AppJs.updateRankingsTable app sortValue TabAll = Ok all ->
  exists rows,
    AppJs.updateRankingsTable app sortValue Bottom10 = Ok rows /\
    List.length rows = Nat.min 10 (List.length all) /\
    forall i r,
      nth_error rows i = Some r ->
      exists r',
        nth_error all (List.length all - 1 - i) = Some r' /\
        AppJs.td_rank r' = (Zlen all - Z.of_nat i)%Z /\
        r = AppJs.renumbered (Zlen all - 9 + Z.of_nat i) r' /\
        AppJs.td_rank r <> AppJs.td_rank r'.
Proof.
  unfold AppJs.updateRankingsTable.
  destruct (mapM _ _) as [T|e]; cbn [bind]; [|discriminate].
  set (S := AppJs.sortStates T sortValue).
  intros H. injection H as <-. eexists. split; [reflexivity|].
  unfold mapi, slice_last, Zlen. rewrite !mapi_from_length.
  split.
  - rewrite length_rev, length_skipn. lia.
  - intros i r Hr.
    rewrite mapi_from_nth, nth_error_rev, length_skipn in Hr.
    destruct (Nat.ltb_spec i (List.length S - (List.length S - 10))) as [Hi|Hi];
      [|discriminate].
    rewrite nth_error_skipn in Hr.
    rewrite mapi_from_nth.
    replace (List.length S - 10 + (List.length S - (List.length S - 10) - Datatypes.S i))%nat
      with (List.length S - 1 - i)%nat in Hr by lia.
    destruct (nth_error S (List.length S - 1 - i)) as [s|]; [|discriminate].
    simpl in Hr. injection Hr as <-. eexists. split; [reflexivity|].
    cbn [AppJs.td_rank AppJs.renumbered AppJs.td_state AppJs.td_mli
         AppJs.td_surplus AppJs.td_income AppJs.td_col AppJs.td_change].
    split; [lia|]. split; [reflexivity | lia].
Qed.

Lemma older_bottom10_numbering_witness :
  exists rows,
    AppJs.updateRankingsTable (L := byCharacterCode) abcApp AppJs.MliDesc Bottom10 = Ok rows /\
    map (fun r => (AppJs.td_state r, AppJs.td_rank r)) rows
    = [("B", -6); ("C", -5); ("A", -4)]%string%Z.
Proof.
  destruct (@older_bottom10_numbering byCharacterCode abcApp AppJs.MliDesc _ eq_refl)
    as [rows [Hrows _]].
  exists rows. split; [exact Hrows|].
  assert (E : exists q,
             AppJs.updateRankingsTable (L := byCharacterCode) abcApp AppJs.MliDesc Bottom10 = Ok q /\
             map (fun r => (AppJs.td_state r, AppJs.td_rank r)) q
             = [("B", -6); ("C", -5); ("A", -4)]%string%Z)
    by (eexists; split; reflexivity).
  destruct E as [q [Eq Hq]]. congruence.
Defined.

(** ** The national average of the stats banner *)

Lemma banner_states_complete (year : option Z) (xs : list StateRecord)
      (l : list (string * Q)) :
  mapM (fun state =>
          m <- prop (get (timeseries state) year) mli ;;
          Ok (name state, m)) xs = Ok l ->
  Forall (fun s => get (timeseries s) year <> None) xs /\
  List.length l = List.length xs.
Proof.
  revert l. induction xs as [|s xs IH]; intros l H.
  - simpl in H. injection H as <-. split; [constructor | reflexivity].
  - cbn [mapM] in H.
    destruct (get (timeseries s) year) as [y|] eqn:E; cbn [bind prop] in H;
      [|discriminate].
    destruct (mapM _ xs) as [l'|] eqn:E'; cbn [bind] in H; [|discriminate].
    injection H as <-. destruct (IH l' eq_refl) as [IH1 IH2].
    split; [constructor; [congruence | exact IH1] | simpl; now rewrite IH2].
Qed.

(** X19 (updateStatsBanner).  With no state at all the banner shows
    three zero counts and NaN as national MLI, and nothing is thrown.
    Whenever the banner is built, the national MLI is NaN exactly when
    the dataset has no state. *)
Theorem national_average (app : App) :
  (states (data app) = [] ->
   updateStatsBanner app = Ok (mkBanner 0 0 0 NaN)) /\
  (forall b,
     updateStatsBanner app = Ok b ->
     (nationalMLI b = NaN <-> states (data app) = [])).
Proof.
  assert (Hempty : states (data app) = [] ->
                   updateStatsBanner app = Ok (mkBanner 0 0 0 NaN)).
  { intros E. unfold updateStatsBanner. rewrite E. reflexivity. }
  split; [exact Hempty|].
  intros b H. split.
  - intros Hnan. unfold updateStatsBanner in H.
    destruct (mapM _ (Object_values (states (data app)))) as [l|] eqn:E;
      cbn [bind] in H; [|discriminate].
    apply banner_states_complete in E. destruct E as [_ Hlen].
    unfold Object_values in Hlen. rewrite length_map in Hlen.
    destruct (states (data app)) as [|x xs]; [reflexivity | exfalso].
    cbv zeta in H.
    assert (Hpos : ~ inject_Z (Zlen l) == 0).
    { unfold Zlen. rewrite Hlen. cbn [List.length].
      rewrite Nat2Z.inj_succ, <- Z.add_1_r, inject_Z_plus.
      change (inject_Z 1) with 1.
      assert (0 <= inject_Z (Z.of_nat (List.length xs))); [|lra].
      change 0 with (inject_Z 0). rewrite <- Zle_Qle. lia. }
    rewrite (div_by_nonzero _ Hpos) in H.
    assert (Hb : exists avg, nationalMLI b = Fin avg)
      by (eexists; now injection H as <-).
    destruct Hb as [avg Hb]. congruence.
  - intros E. rewrite (Hempty E) in H. now injection H as <-.
Qed.

Lemma national_average_witness :
  updateStatsBanner emptyApp = Ok (mkBanner 0 0 0 NaN) /\
  exists b,
    updateStatsBanner abcApp = Ok b /\ nationalMLI b <> NaN.
Proof.
  split.
  - apply (proj1 (national_average emptyApp)). reflexivity.
  - eexists. split; [reflexivity|].
    intros Hnan.
    apply (proj2 (national_average abcApp) _ eq_refl) in Hnan.
    discriminate Hnan.
Defined.

(** ** The income and cost-of-living scales of [website/app.js] *)

Lemma zero_fifth (x lo hi : Q) :
  lo == x -> hi == x -> (hi + - lo) / 5 == 0.
Proof. intros -> ->. field. Qed.

Lemma older_income_constant (app : App) (c v : Q) :
  constant (yearValues app income) -> among (yearValues app income) c ->
  AppJs.getIncomeColor app v = if Qltb v c then AppJs.fifth1 else AppJs.fifth5.
Proof.
  unfold AppJs.getIncomeColor. cbv zeta. generalize (yearValues app income) as vs.
  intros vs Hc [x [Hx Hv]]. destruct vs as [|w ws]; [destruct Hx|].
  destruct (Math_min_in w ws) as [lo [-> Hlo]].
  destruct (Math_max_in w ws) as [hi [-> Hhi]].
  pose proof (Hc _ _ Hlo Hx) as E1. pose proof (Hc _ _ Hhi Hx) as E2.
  pose proof (zero_fifth E1 E2) as Hbin.
  simpl. destruct (Qltb_spec v c) as [Hlt | Hge];
    [|apply Qnot_lt_le in Hge]; settle; reflexivity.
Qed.

Lemma older_col_constant (app : App) (c v : Q) :
  constant (yearValues app col) -> among (yearValues app col) c ->
  AppJs.getCOLColor app v = if Qltb c v then deepDeficit else largeSurplus.
Proof.
  unfold AppJs.getCOLColor. cbv zeta. generalize (yearValues app col) as vs.
  intros vs Hc [x [Hx Hv]]. destruct vs as [|w ws]; [destruct Hx|].
  destruct (Math_min_in w ws) as [lo [-> Hlo]].
  destruct (Math_max_in w ws) as [hi [-> Hhi]].
  pose proof (Hc _ _ Hlo Hx) as E1. pose proof (Hc _ _ Hhi Hx) as E2.
  pose proof (zero_fifth E1 E2) as Hbin.
  unfold gtb. simpl. destruct (Qltb_spec c v) as [Hlt | Hge];
    [|apply Qnot_lt_le in Hge]; settle; reflexivity.
Qed.

(** X20 (website/app.js, getIncomeColor and getCOLColor).  The earlier
    version has five colours for the income and five for the cost of
    living.  Its income colour does not go down and its cost-of-living
    colour does not go up when the value grows, and the cost-of-living
    map never uses #22c55e.  With no value for the year every value gets
    the last colour; when all the values of the year are the same
    number, an income below it gets the first colour and any other the
    fifth, a cost of living above it gets red and any other green. *)
Theorem older_scales_have_five_bins (app : App) (lo hi : Q) :
  lo <= hi ->
  (AppJs.shadeLevel (AppJs.getIncomeColor app lo)
   <= AppJs.shadeLevel (AppJs.getIncomeColor app hi))%nat /\
  (level (AppJs.getCOLColor app hi) <= level (AppJs.getCOLColor app lo))%nat /\
  (forall v, AppJs.getCOLColor app v <> goodSurplus) /\
  (yearValues app income = [] ->
   forall v, AppJs.getIncomeColor app v = AppJs.fifth5) /\
  (yearValues app col = [] ->
   forall v, AppJs.getCOLColor app v = largeSurplus) /\
  (forall c v,
     constant (yearValues app income) -> among (yearValues app income) c ->
     AppJs.getIncomeColor app v
     = if Qltb v c then AppJs.fifth1 else AppJs.fifth5) /\
  (forall c v,
     constant (yearValues app col) -> among (yearValues app col) c ->
     AppJs.getCOLColor app v = if Qltb c v then deepDeficit else largeSurplus).
Proof.
  intros Hle. split; [|split; [|split; [|split; [|split; [|split]]]]].
  - unfold AppJs.getIncomeColor. cbv zeta.
    split_cascade; simpl; try lia; crossed Hle.
  - unfold AppJs.getCOLColor. cbv zeta.
    split_cascade; simpl; try lia; crossed Hle.
  - intro v. unfold AppJs.getCOLColor. cbv zeta.
    split_cascade; discriminate.
  - intros H v. unfold AppJs.getIncomeColor. rewrite H. reflexivity.
  - intros H v. unfold AppJs.getCOLColor. rewrite H. reflexivity.
  - intros c v. apply older_income_constant.
  - intros c v. apply older_col_constant.
Qed.

Lemma older_scales_have_five_bins_witness :
  (AppJs.shadeLevel (AppJs.getIncomeColor abcApp 36000)
   <= AppJs.shadeLevel (AppJs.getIncomeColor abcApp 60000))%nat /\
  AppJs.getIncomeColor twinsApp 49999 = AppJs.fifth1 /\
  AppJs.getIncomeColor twinsApp 50000 = AppJs.fifth5.
Proof.
  assert (Hle : 36000 <= 60000) by (unfold Qle; simpl; lia).
  destruct (@older_scales_have_five_bins abcApp 36000 60000 Hle) as [Hmono _].
  destruct (@older_scales_have_five_bins twinsApp 36000 60000 Hle)
    as [_ [_ [_ [_ [_ [Hconst _]]]]]].
  assert (A : among (yearValues twinsApp income) 50000)
    by (exists 50000; split; [simpl; auto | reflexivity]).
  split; [exact Hmono|]. split.
  - rewrite (Hconst 50000 49999 (@twins_constant income) A). reflexivity.
  - rewrite (Hconst 50000 50000 (@twins_constant income) A). reflexivity.
Defined.

(** ** The three delta computations, on the sample history *)

Lemma lookback_available_witness :
  (exists row, tableRow (historyApp 2014) "Ohio" ohio = Ok row /\
               r_change5yr row
               = mli (metrics (112 # 100) 56000 50000)
                 - mli (metrics (102 # 100) 51000 50000)) /\
  (exists row, insightRow (historyApp 2014) "Ohio" ohio = Ok row /\
               i_change row
               = mli (metrics (112 # 100) 56000 50000)
                 - mli (metrics (102 # 100) 51000 50000)) /\
  (exists t, createTrendInsight (historyApp 2014) ohio = Ok t /\
             t_change t
             = mli (metrics (112 # 100) 56000 50000)
               - mli (metrics (102 # 100) 51000 50000)).
Proof.
  assert (H5 : (0 <= fiveYearIndex (historyApp 2014))%Z) by (vm_compute; discriminate).
  destruct (@lookback_available (historyApp 2014) "Ohio" ohio
              (metrics (112 # 100) 56000 50000)
              (metrics (100 # 100) 50000 50000)
              (metrics (102 # 100) 51000 50000)
              H5 eq_refl eq_refl eq_refl)
    as [[row [Hrow [H5yr _]]] [Hins Htrend]].
  split; [|split; assumption].
  exists row. split; assumption.
Defined.

Lemma lookback_underflow_witness :
  (exists row, tableRow (historyApp 2010) "Ohio" ohio = Ok row /\
               r_change5yr row = 0) /\
  (exists row, insightRow (historyApp 2010) "Ohio" ohio = Ok row /\
               i_change row
               = mli (metrics (104 # 100) 52000 50000)
                 - mli (metrics (100 # 100) 50000 50000)) /\
  (exists t, createTrendInsight (historyApp 2010) ohio = Ok t /\
             t_change t
             = mli (metrics (112 # 100) 56000 50000)
               - mli (metrics (100 # 100) 50000 50000)).
Proof.
  assert (H5 : (fiveYearIndex (historyApp 2010) < 0)%Z) by (vm_compute; reflexivity).
  destruct (@lookback_underflow (historyApp 2010) "Ohio" ohio
              (metrics (104 # 100) 52000 50000)
              (metrics (100 # 100) 50000 50000)
              (metrics (112 # 100) 56000 50000)
              H5 eq_refl eq_refl eq_refl)
    as [[row [Hrow [H5yr _]]] [Hins Htrend]].
  split; [|split; assumption].
  exists row. split; assumption.
Defined.

(** ** Comparing two states *)

Lemma ownProperty_listed (n : string) (l : list (string * StateRecord)) :
  In n (map fst l) -> exists s, ownProperty n l = Some s /\ In (n, s) l.
Proof.
  induction l as [|[k v] l IH]; simpl; [intros []|].
  intros H. destruct (String.eqb_spec k n) as [-> | Hk].
  - eauto.
  - destruct H as [E | H]; [congruence|].
    destruct (IH H) as [s [Hs Hin]]. eauto.
Qed.

Lemma figuresOf_listed (app : App) (n : string) :
  complete app -> In n (Object_keys (states (data app))) ->
  exists d, figuresOf app n = Ok (Some d).
Proof.
  intros Hc Hin. unfold figuresOf.
  unfold stateNamed. destruct (ownProperty_listed _ _ Hin) as [s [-> Hs]].
  assert (Hd : get (timeseries s) (currentYear app) <> None).
  { apply Hc. unfold Object_values. apply in_map_iff. exists (n, s). auto. }
  destruct (get (timeseries s) (currentYear app)) as [d|]; [eauto | congruence].
Qed.

(** X21 (compareStates, populateStateSelectors).  With one of the two
    selectors on the empty value the user is alerted and the result is
    left as it is.  In a dataset whose states all have figures for the
    year, every pair of non-empty options that populateStateSelectors
    put into the selectors can be compared: the result is shown as a
    grid with the figures of the two states.  When both names are states
    but one has no figures for the year, a TypeError is thrown after the
    result has been made visible and before its content is replaced, so
    the previous comparison is what is shown; a call that throws never
    changes the content. *)
Theorem compare_selected_states (app : App) (state1 state2 : string)
        (resultDiv : ComparisonResult) :
  (state1 = ""%string \/ state2 = ""%string ->
   compareStates app state1 state2 resultDiv
   = (resultDiv, Alerted "Please select both states to compare")) /\
  (forall text1 text2,
     complete app ->
     In (text1, state1) (fst (populateStateSelectors app [] [])) ->
     In (text2, state2) (snd (populateStateSelectors app [] [])) ->
     state1 <> ""%string -> state2 <> ""%string ->
     exists d1 d2,
       figuresOf app state1 = Ok (Some d1) /\
       figuresOf app state2 = Ok (Some d2) /\
       compareStates app state1 state2 resultDiv
       = (mkResult "grid" (Some ((state1, d1), (state2, d2))), Returned)) /\
  (state1 <> ""%string -> state2 <> ""%string ->
   forall d1 d2,
     figuresOf app state1 = Ok d1 -> figuresOf app state2 = Ok d2 ->
     d1 = None \/ d2 = None ->
     compareStates app state1 state2 resultDiv
     = (mkResult "grid" (res_content resultDiv), Thrown TypeError)) /\
  (forall after e,
     compareStates app state1 state2 resultDiv = (after, Thrown e) ->
     res_content after = res_content resultDiv).
Proof.
  split; [|split; [|split]].
  - intros [-> | ->]; unfold compareStates.
    + reflexivity.
    + now rewrite Bool.orb_true_r.
  - intros text1 text2 Hc H1 H2 N1 N2.
    unfold populateStateSelectors in H1, H2. rewrite populate_fold in H1, H2.
    cbn [fst snd] in H1, H2. rewrite app_nil_l in H1, H2.
    assert (L : forall t n,
               In (t, n) (map (fun n => (n, n))
                              (sort defaultCompare (Object_keys (states (data app))))) ->
               In n (Object_keys (states (data app)))).
    { intros t n H. apply in_map_iff in H. destruct H as [m [E Hm]].
      injection E as _ <-.
      eapply Permutation_in; [apply sort_perm | exact Hm]. }
    destruct (@figuresOf_listed app state1 Hc (L _ _ H1)) as [d1 E1].
    destruct (@figuresOf_listed app state2 Hc (L _ _ H2)) as [d2 E2].
    exists d1, d2. split; [exact E1|]. split; [exact E2|].
    unfold compareStates. rewrite E1, E2.
    apply String.eqb_neq in N1, N2. now rewrite N1, N2.
  - intros N1 N2 d1 d2 E1 E2 Hnone. unfold compareStates. rewrite E1, E2.
    apply String.eqb_neq in N1, N2. rewrite N1, N2. cbn [orb].
    destruct Hnone as [-> | ->]; [reflexivity|].
    destruct d1; reflexivity.
  - intros after e H. unfold compareStates in H.
    destruct (String.eqb state1 "" || String.eqb state2 "")%bool;
      [discriminate|].
    destruct (figuresOf app state1) as [[d1|]|e1];
      destruct (figuresOf app state2) as [[d2|]|e2];
      try discriminate; injection H as <- _; reflexivity.
Qed.

Lemma compare_selected_states_witness :
  compareStates abcApp "" "B" (mkResult "none" None)
  = (mkResult "none" None, Alerted "Please select both states to compare") /\
  exists d1 d2,
    compareStates abcApp "A" "B" (mkResult "none" None)
    = (mkResult "grid" (Some (("A"%string, d1), ("B"%string, d2))), Returned) /\
    mli d1 == 12 # 10 /\ mli d2 == 8 # 10.
Proof.
  destruct (compare_selected_states abcApp "" "B" (mkResult "none" None))
    as [Halert _].
  split; [apply Halert; now left|].
  destruct (compare_selected_states abcApp "A" "B" (mkResult "none" None))
    as [_ [Hshown _]].
  destruct (Hshown "A"%string "B"%string abcApp_complete) as [d1 [d2 [E1 [E2 Hc]]]].
  - simpl. auto.
  - simpl. auto.
  - discriminate.
  - discriminate.
  - exists d1, d2. split; [exact Hc|].
    vm_compute in E1. injection E1 as <-.
    vm_compute in E2. injection E2 as <-.
    split; reflexivity.
Defined.
